(** * The food-ingredient assistant: server routes and the dashboard state logic

    A shallow embedding of
      - [src/app/api/speak/route.ts]           (module [SpeakRoute]),
      - the analyze route ([POST] of /api/analyze)  (module [AnalyzeRoute]),
      - the dashboard page component            (module [Dashboard]),
      - [src/app/api/process-image/route.ts]   (module [ProcessImageRoute]),
      - the image upload card of the page      (module [Upload]),
      - the animation map and the mood         (module [Presentation]),
      - the text helper [shortenForSpeech]     (module [Text]),
    with the properties of the mascot state that the page maintains, of its
    timers and requests, and of the routes as the page uses them.

    JavaScript values are modelled as follows.  Numbers are IEEE-754 binary64
    values, i.e. Rocq's primitive [float].  Strings are [string]s whose
    characters stand for code units below 256.  A promise that may reject is
    a value of [Outcome].

    The page is the dashboard component in its latest variant (the one with
    the clickable mascot).  React state is a record; a setter is a function
    on that record; a callback is the composition of the setters it calls,
    and an [async] handler is one callback per stretch between two [await]s.
    The updates of one callback are applied together, then the page renders
    and its [useEffect] hooks run, comparing their dependencies with the
    values of the previous render.  The browser around the page (clock,
    timers, requests in flight, audio elements, the recognition engine) is a
    second record, and the environment's answers arrive as events. *)

From Stdlib Require Import Bool Arith ZArith List String Ascii Lia.
From Stdlib Require Import Floats Uint63 DecimalString.
Import ListNotations.

Set Warnings "-inexact-float".

Local Open Scope string_scope.
Local Open Scope list_scope.

(** ** JavaScript helpers *)

Module Js.

(** [s.includes(kw)] *)
Fixpoint includes (s kw : string) : bool :=
  String.prefix kw s ||
  match s with
  | EmptyString => false
  | String _ s' => includes s' kw
  end.

(** White space and line terminators among the code units below 256. *)
Definition isWhiteSpace (c : ascii) : bool :=
  match nat_of_ascii c with
  | 9 | 10 | 11 | 12 | 13 | 32 | 160 => true
  | _ => false
  end.

Fixpoint trimStart (s : string) : string :=
  match s with
  | EmptyString => EmptyString
  | String c s' => if isWhiteSpace c then trimStart s' else s
  end.

Fixpoint trimEnd (s : string) : string :=
  match s with
  | EmptyString => EmptyString
  | String c s' =>
      match trimEnd s' with
      | EmptyString => if isWhiteSpace c then EmptyString else String c EmptyString
      | r => String c r
      end
  end.

(** [s.trim()] *)
Definition trim (s : string) : string := trimEnd (trimStart s).

(** Truthiness of a string, of a number, and of optional fields
    ([undefined] is falsy). *)
Definition truthyString (s : string) : bool :=
  match s with EmptyString => false | _ => true end.

Definition truthyNumber (x : float) : bool :=
  negb (PrimFloat.eqb x 0%float || PrimFloat.is_nan x).

Definition truthyOptString (o : option string) : bool :=
  match o with Some s => truthyString s | None => false end.

Definition truthyOptNumber (o : option float) : bool :=
  match o with Some x => truthyNumber x | None => false end.

Definition truthyOptBool (o : option bool) : bool :=
  match o with Some b => b | None => false end.

(** [Math.max(a, b)]: NaN if either argument is NaN, and [+0] is larger
    than [-0]. *)
Definition Math_max (a b : float) : float :=
  if PrimFloat.is_nan a || PrimFloat.is_nan b then PrimFloat.nan
  else if PrimFloat.ltb a b then b
  else if PrimFloat.ltb b a then a
  else if PrimFloat.get_sign a then b else a.

(** The number held by an array's [length]. *)
Definition numberOfNat (n : nat) : float :=
  PrimFloat.of_uint63 (Uint63.of_Z (Z.of_nat n)).

(** An awaited promise: it resolves to a value or rejects with an error. *)
Record Error := mkError { name : string; message : string }.

Inductive Outcome (A : Type) : Type :=
| Resolved (a : A)
| Rejected (e : Error).
Arguments Resolved {A} a.
Arguments Rejected {A} e.

End Js.

(** ** The analyze route *)

Module AnalyzeRoute.

Record AnalysisResult := mkResult {
  text : string;
  confidence : float;
  isUncertain : bool
}.

Definition uncertaintyKeywords : list string :=
  [ "uncertain"; "unclear"; "not sure"; "might"; "possibly"; "perhaps";
    "maybe"; "could be"; "unclear"; "unknown"; "hard to tell";
    "difficult to determine"; "not certain"; "ambiguous" ].

(** The lexicon without its two occurrences of ["unclear"]. *)
Definition otherKeywords : list string :=
  [ "uncertain"; "not sure"; "might"; "possibly"; "perhaps";
    "maybe"; "could be"; "unknown"; "hard to tell";
    "difficult to determine"; "not certain"; "ambiguous" ].

Section WithLowerCase.

(** [String.prototype.toLowerCase], left abstract: the results below hold
    whatever it does to the text. *)
Variable toLowerCase : string -> string.

Definition uncertaintyCount (text : string) : nat :=
  let lowerText := toLowerCase text in
  List.length (List.filter (fun keyword => Js.includes lowerText keyword)
                           uncertaintyKeywords).

Definition confidenceOf (uncertaintyCount : nat) : float :=
  Js.Math_max 0 (1 - Js.numberOfNat uncertaintyCount * 0.15)%float.

Definition isUncertainOf (confidence : float) (uncertaintyCount : nat) : bool :=
  PrimFloat.ltb confidence 0.7 || Nat.leb 3 uncertaintyCount.

(** The body of [POST] after [model.generateContent(prompt)] has produced
    [text]. *)
Definition respond (text : string) : AnalysisResult :=
  let uncertaintyCount := uncertaintyCount text in
  let confidence := confidenceOf uncertaintyCount in
  let isUncertain := isUncertainOf confidence uncertaintyCount in
  mkResult text confidence isUncertain.

End WithLowerCase.

(** Lower-casing of the letters A-Z, used to run examples. *)
Definition asciiLower (c : ascii) : ascii :=
  let n := nat_of_ascii c in
  if ((65 <=? n) && (n <=? 90))%nat then ascii_of_nat (n + 32) else c.

Fixpoint lowerAZ (s : string) : string :=
  match s with
  | EmptyString => EmptyString
  | String c s' => String (asciiLower c) (lowerAZ s')
  end.

End AnalyzeRoute.

(** ** The speak route *)

Module SpeakRoute.

Record UpstreamResponse := mkUpstream {
  up_status : nat;
  up_contentType : option string;
  up_body : Js.Outcome (list nat)        (* response.arrayBuffer() *)
}.

Record NextResponse := mkNextResponse {
  status : nat;
  headers : list (string * string);
  body : list nat
}.

(** What [await req.json()] followed by [const { text } = ...] yields:
    the body is not JSON, or it is the JSON value [null], or it is a value
    whose [text] property is read (and may be absent). *)
Inductive RequestBody (V : Type) : Type :=
| BodyNotJson (e : Js.Error)
| BodyNull
| BodyValue (text : option V).
Arguments BodyNotJson {V} e.
Arguments BodyNull {V}.
Arguments BodyValue {V} text.

Definition typeErrorNull : Js.Error :=
  Js.mkError "TypeError" "Cannot destructure property 'text' of null".

Section WithUpstream.

Variable V : Type.

(** The synthesis service: [fetch] either rejects or resolves to a
    response, whatever its status. *)
Variable upstream : option V -> Js.Outcome UpstreamResponse.

Definition POST (req : RequestBody V) : Js.Outcome NextResponse :=
  match req with
  | BodyNotJson e => Js.Rejected e
  | BodyNull => Js.Rejected typeErrorNull
  | BodyValue text =>
      match upstream text with
      | Js.Rejected e => Js.Rejected e
      | Js.Resolved response =>
          match up_body response with
          | Js.Rejected e => Js.Rejected e
          | Js.Resolved audio =>
              Js.Resolved
                (mkNextResponse 200 [("Content-Type", "audio/mpeg")] audio)
          end
      end
  end.

End WithUpstream.

End SpeakRoute.

(** ** The dashboard page *)

Module Dashboard.

(** [AIState] is a union of string literals, so that at run time the state
    is a string; these are the literals that the page assigns.  The
    declaration in [src/types/aiState] lists the first six; ["laugh"] is
    the one that [handleCopilotClick] assigns and [copilotAnimations] maps. *)
Definition AIState : Type := string.

Definition idle : AIState := "idle".
Definition listening : AIState := "listening".
Definition thinking : AIState := "thinking".
Definition speaking : AIState := "speaking".
Definition unsure : AIState := "unsure".
Definition warning : AIState := "warning".
Definition laugh : AIState := "laugh".

Definition allStates : list AIState :=
  [idle; listening; thinking; speaking; unsure; warning; laugh].

(** [a === b] *)
Definition AIState_eqb (a b : AIState) : bool := String.eqb a b.

(** *** What the page receives from its collaborators *)

(** [data] of [await response.json()] in [handleAnalyze]:
    [{ text, confidence?, isUncertain? }]. *)
Record AnalysisData := mkData {
  d_text : option string;
  d_confidence : option float;
  d_isUncertain : option bool
}.

Record AnalyzeResponse := mkAnalyzeResponse {
  ar_ok : bool;                      (* response.ok *)
  ar_data : AnalysisData
}.

(** The JSON error body of a /api/speak reply. *)
Record ErrorData := mkErrorData {
  useBrowserTTS : bool;              (* truthiness of the flag *)
  error : option string
}.

(** A /api/speak reply together with the results of the awaits that
    [speakText] performs on it. *)
Record SpeakResponse := mkSpeakResponse {
  res_ok : bool;
  res_status : nat;
  res_json : option ErrorData;       (* None: res.json() rejected *)
  res_contentType : option string;   (* res.headers.get("content-type") *)
  res_blobSize : nat;                (* (await res.blob()).size *)
  res_play : option Js.Error         (* Some: audio.play() rejected *)
}.

(** [audio.error] *)
Record MediaError := mkMediaError { code : nat; me_message : string }.

(** *** Timers *)

Inductive TimerOwner : Type :=
| OwnSpeakingEffect        (* cleared by the cleanup of the [aiState] effect *)
| OwnTypingEffect          (* cleared by the cleanup of the typing effect *)
| OwnNone.                 (* handle dropped: never cleared *)

Inductive TimerAction : Type :=
| ActResetIdle                                   (* () => setAiState("idle") *)
| ActSpeakingFallback (seen : AIState)           (* closure over [aiState] *)
| ActTyping (ingr : string) (an : bool)          (* closure over [ingredients], [analyzing] *)
| ActPrepareOff.                                 (* () => setIsPreparing(false) *)

Record Timer := mkTimer {
  t_id : nat;
  t_due : Z;
  t_owner : TimerOwner;
  t_act : TimerAction
}.

Definition owner_eqb (a b : TimerOwner) : bool :=
  match a, b with
  | OwnSpeakingEffect, OwnSpeakingEffect
  | OwnTypingEffect, OwnTypingEffect
  | OwnNone, OwnNone => true
  | _, _ => false
  end.

(** *** Calls made by the page, in order: assignments to [aiState] through
    its setter, and calls to the browser *)

Inductive Call : Type :=
| SetAiState (v : AIState)
| GetUserMedia
| TrackStop
| RecognitionStart
| RecognitionStop
| RecognitionAbort
| FetchAnalyze (ingr : string)
| FetchSpeak (text : string)
| AudioPlay (id : nat)
| SynthCancel
| SynthSpeak (text : string).

(** *** React state and the browser around it *)

Record Page := mkPage {
  aiState : AIState;
  ingredients : string;
  analyzing : bool;
  analysisResult : option string;
  analysisError : string;
  isListening : bool;                (* the state variable [listening] *)
  isSpeaking : bool;                 (* the state variable [speaking] *)
  micError : option string;
  isPreparing : bool
}.

Record Browser := mkBrowser {
  now : Z;                           (* milliseconds *)
  nextId : nat;
  timers : list Timer;               (* in the order they were set *)
  analyzeFetches : list nat;         (* /api/analyze requests in flight *)
  speakFetches : list (nat * string);(* /api/speak requests in flight, with their text *)
  audios : list nat;                 (* Audio elements that have not ended *)
  utterances : list (nat * string);  (* utterances whose final event is to come *)
  probes : list nat;                 (* getUserMedia calls in flight *)
  recognizing : bool;                (* the recognition engine runs *)
  recognitionRef : bool;             (* recognitionRef.current is set *)
  synthesisRef : bool;               (* synthesisRef.current is set *)
  speechSynthesisInWindow : bool;    (* "speechSynthesis" in window *)
  calls : list Call                  (* most recent last *)
}.

Record Sys := mkSys { page : Page; browser : Browser }.

Definition Cmd : Type := Sys -> Sys.

Definition seq (c1 c2 : Cmd) : Cmd := fun s => c2 (c1 s).
Definition skip : Cmd := fun s => s.

Declare Scope cmd_scope.
Delimit Scope cmd_scope with cmd.
Notation "c1 ;; c2" := (seq c1 c2) (at level 61, right associativity) : cmd_scope.
Local Open Scope cmd_scope.

(** **** Setters *)

Definition onPage (f : Page -> Page) : Cmd :=
  fun s => mkSys (f (page s)) (browser s).

Definition onBrowser (f : Browser -> Browser) : Cmd :=
  fun s => mkSys (page s) (f (browser s)).

Definition withAiState (v : AIState) : Cmd :=
  onPage (fun p => mkPage v (ingredients p) (analyzing p) (analysisResult p)
    (analysisError p) (isListening p) (isSpeaking p) (micError p) (isPreparing p)).

Definition setIngredients (f : string -> string) : Cmd :=
  onPage (fun p => mkPage (aiState p) (f (ingredients p)) (analyzing p) (analysisResult p)
    (analysisError p) (isListening p) (isSpeaking p) (micError p) (isPreparing p)).

Definition setAnalyzing (v : bool) : Cmd :=
  onPage (fun p => mkPage (aiState p) (ingredients p) v (analysisResult p)
    (analysisError p) (isListening p) (isSpeaking p) (micError p) (isPreparing p)).

Definition setAnalysisResult (v : option string) : Cmd :=
  onPage (fun p => mkPage (aiState p) (ingredients p) (analyzing p) v
    (analysisError p) (isListening p) (isSpeaking p) (micError p) (isPreparing p)).

Definition setAnalysisError (v : string) : Cmd :=
  onPage (fun p => mkPage (aiState p) (ingredients p) (analyzing p) (analysisResult p)
    v (isListening p) (isSpeaking p) (micError p) (isPreparing p)).

Definition setListening (v : bool) : Cmd :=
  onPage (fun p => mkPage (aiState p) (ingredients p) (analyzing p) (analysisResult p)
    (analysisError p) v (isSpeaking p) (micError p) (isPreparing p)).

Definition setSpeaking (v : bool) : Cmd :=
  onPage (fun p => mkPage (aiState p) (ingredients p) (analyzing p) (analysisResult p)
    (analysisError p) (isListening p) v (micError p) (isPreparing p)).

Definition setMicError (v : option string) : Cmd :=
  onPage (fun p => mkPage (aiState p) (ingredients p) (analyzing p) (analysisResult p)
    (analysisError p) (isListening p) (isSpeaking p) v (isPreparing p)).

Definition setIsPreparing (v : bool) : Cmd :=
  onPage (fun p => mkPage (aiState p) (ingredients p) (analyzing p) (analysisResult p)
    (analysisError p) (isListening p) (isSpeaking p) (micError p) v).

(** **** Browser operations *)

Definition withClock (t : Z) (b : Browser) : Browser :=
  mkBrowser t (nextId b) (timers b) (analyzeFetches b) (speakFetches b)
    (audios b) (utterances b) (probes b) (recognizing b) (recognitionRef b)
    (synthesisRef b) (speechSynthesisInWindow b) (calls b).

Definition withTimers (n : nat) (l : list Timer) (b : Browser) : Browser :=
  mkBrowser (now b) n l (analyzeFetches b) (speakFetches b)
    (audios b) (utterances b) (probes b) (recognizing b) (recognitionRef b)
    (synthesisRef b) (speechSynthesisInWindow b) (calls b).

Definition withAnalyzeFetches (n : nat) (l : list nat) (b : Browser) : Browser :=
  mkBrowser (now b) n (timers b) l (speakFetches b)
    (audios b) (utterances b) (probes b) (recognizing b) (recognitionRef b)
    (synthesisRef b) (speechSynthesisInWindow b) (calls b).

Definition withSpeakFetches (n : nat) (l : list (nat * string)) (b : Browser) : Browser :=
  mkBrowser (now b) n (timers b) (analyzeFetches b) l
    (audios b) (utterances b) (probes b) (recognizing b) (recognitionRef b)
    (synthesisRef b) (speechSynthesisInWindow b) (calls b).

Definition withAudios (l : list nat) (b : Browser) : Browser :=
  mkBrowser (now b) (nextId b) (timers b) (analyzeFetches b) (speakFetches b)
    l (utterances b) (probes b) (recognizing b) (recognitionRef b)
    (synthesisRef b) (speechSynthesisInWindow b) (calls b).

Definition withUtterances (n : nat) (l : list (nat * string)) (b : Browser) : Browser :=
  mkBrowser (now b) n (timers b) (analyzeFetches b) (speakFetches b)
    (audios b) l (probes b) (recognizing b) (recognitionRef b)
    (synthesisRef b) (speechSynthesisInWindow b) (calls b).

Definition withProbes (n : nat) (l : list nat) (b : Browser) : Browser :=
  mkBrowser (now b) n (timers b) (analyzeFetches b) (speakFetches b)
    (audios b) (utterances b) l (recognizing b) (recognitionRef b)
    (synthesisRef b) (speechSynthesisInWindow b) (calls b).

Definition withRecognizing (v : bool) (b : Browser) : Browser :=
  mkBrowser (now b) (nextId b) (timers b) (analyzeFetches b) (speakFetches b)
    (audios b) (utterances b) (probes b) v (recognitionRef b)
    (synthesisRef b) (speechSynthesisInWindow b) (calls b).

Definition withCalls (l : list Call) (b : Browser) : Browser :=
  mkBrowser (now b) (nextId b) (timers b) (analyzeFetches b) (speakFetches b)
    (audios b) (utterances b) (probes b) (recognizing b) (recognitionRef b)
    (synthesisRef b) (speechSynthesisInWindow b) l.

Definition call (c : Call) : Cmd :=
  onBrowser (fun b => withCalls (calls b ++ [c]) b).

(** [setAiState(v)]; the assignment is also recorded in [calls]. *)
Definition setAiState (v : AIState) : Cmd :=
  withAiState v ;;
  call (SetAiState v).

Fixpoint callMany (n : nat) (c : Call) : Cmd :=
  match n with
  | O => skip
  | S n' => call c ;; callMany n' c
  end.

(** [setTimeout(act, delay)]; [own] says which cleanup, if any, holds the
    handle. *)
Definition setTimeoutOwned (own : TimerOwner) (act : TimerAction) (delay : Z) : Cmd :=
  onBrowser (fun b =>
    withTimers (S (nextId b))
               (timers b ++ [mkTimer (nextId b) (now b + delay) own act]) b).

Definition setTimeout (act : TimerAction) (delay : Z) : Cmd :=
  setTimeoutOwned OwnNone act delay.

(** [clearTimeout] of the timer an effect holds. *)
Definition clearTimeoutOf (own : TimerOwner) : Cmd :=
  onBrowser (fun b =>
    withTimers (nextId b)
               (filter (fun t => negb (owner_eqb (t_owner t) own)) (timers b)) b).

Definition fetchAnalyze (ingr : string) : Cmd :=
  onBrowser (fun b => withAnalyzeFetches (S (nextId b)) (analyzeFetches b ++ [nextId b]) b) ;;
  call (FetchAnalyze ingr).

Definition fetchSpeak (text : string) : Cmd :=
  onBrowser (fun b => withSpeakFetches (S (nextId b)) (speakFetches b ++ [(nextId b, text)]) b) ;;
  call (FetchSpeak text).

Definition removeId (id : nat) (l : list nat) : list nat :=
  filter (fun i => negb (Nat.eqb i id)) l.

Definition removeKey {A} (id : nat) (l : list (nat * A)) : list (nat * A) :=
  filter (fun e => negb (Nat.eqb (fst e) id)) l.

Fixpoint lookupKey {A} (id : nat) (l : list (nat * A)) : option A :=
  match l with
  | [] => None
  | (i, a) :: l' => if Nat.eqb i id then Some a else lookupKey id l'
  end.

Definition hasId (id : nat) (l : list nat) : bool := existsb (Nat.eqb id) l.

(** *** Messages *)

Definition numberToString (n : nat) : string :=
  NilEmpty.string_of_uint (Nat.to_uint n).

(** The [catch] of the permission request in [handleStartListening]. *)
Definition probeErrorMessage (e : Js.Error) : string :=
  if String.eqb (Js.name e) "NotAllowedError"
     || String.eqb (Js.name e) "PermissionDeniedError"
  then "Microphone permission denied. Please allow microphone access in your browser settings and try again."
  else if String.eqb (Js.name e) "NotFoundError"
          || String.eqb (Js.name e) "DevicesNotFoundError"
  then "No microphone found. Please connect a microphone and try again."
  else if String.eqb (Js.name e) "NotReadableError"
          || String.eqb (Js.name e) "TrackStartError"
  then "Microphone is being used by another application. Please close other apps using the microphone."
  else if Js.truthyString (Js.message e) then Js.message e
  else "Microphone access denied.".

(** The [catch] around [recognitionRef.current.start()]. *)
Definition startErrorMessage (e : Js.Error) : string :=
  if String.eqb (Js.name e) "InvalidStateError"
  then "Speech recognition is already running. Please wait."
  else if Js.truthyString (Js.message e) then Js.message e
  else "Failed to start speech recognition.".

(** [recognition.onerror] *)
Definition recognitionErrorMessage (err : string) : string :=
  if String.eqb err "no-speech" then "No speech detected. Please try again."
  else if String.eqb err "audio-capture"
  then "Microphone not found or not accessible. Please check your microphone permissions."
  else if String.eqb err "not-allowed"
  then "Microphone permission denied. Please allow microphone access in your browser settings."
  else if String.eqb err "network"
  then "Network error. Please check your internet connection."
  else if String.eqb err "aborted" then "Speech recognition was aborted."
  else if String.eqb err "service-not-allowed"
  then "Speech recognition service not allowed. Please check your browser settings."
  else ("Speech recognition error: " ++ err ++ ". Please try again.")%string.

(** [audio.onerror] *)
Definition mediaErrorMessage (err : option MediaError) : string :=
  match err with
  | None => "Failed to play audio."
  | Some e =>
      match code e with
      | 1 => "Audio playback was aborted."
      | 2 => "Network error while loading audio."
      | 3 => "Audio format not supported or corrupted. The API may have returned invalid audio data. Please check your ElevenLabs API key."
      | 4 => "Audio format not supported by your browser. The API may have returned an invalid format. Please check your ElevenLabs API configuration."
      | c => ("Audio playback error (code " ++ numberToString c ++ "): "
              ++ (if Js.truthyString (me_message e) then me_message e else "Unknown error")
              ++ ". Please check your ElevenLabs API key in .env.local")%string
      end
  end.

(** The [catch] around [audio.play()]. *)
Definition playErrorMessage (e : Js.Error) : string :=
  if String.eqb (Js.name e) "NotAllowedError"
  then "Audio playback blocked by browser. Please click to interact with the page first, then try again."
  else if String.eqb (Js.name e) "NotSupportedError"
  then "Audio format not supported. The API may have returned an invalid audio format. Please check your ElevenLabs API key and configuration."
  else if Js.truthyString (Js.message e) then ("Audio playback error: " ++ Js.message e)%string
  else "Failed to play audio. Please try again.".

(** The message for a failed /api/speak reply without the fallback flag. *)
Definition speakFailureMessage (errorData : ErrorData) (status : nat) : string :=
  match error errorData with
  | Some m =>
      if Js.truthyString m then m
      else if Nat.eqb status 401
      then "Text-to-speech API key not configured. Please add ELEVENLABS_API_KEY to .env.local"
      else "Failed to generate speech. Please try again."
  | None =>
      if Nat.eqb status 401
      then "Text-to-speech API key not configured. Please add ELEVENLABS_API_KEY to .env.local"
      else "Failed to generate speech. Please try again."
  end.

Definition emptyInputMessage : string := "Please enter ingredients to analyze".
Definition analysisFailedMessage : string := "Something went wrong. Please try again.".

(** *** The handlers *)

(** [!ingredients.trim()] *)
Definition blank (ingr : string) : bool := negb (Js.truthyString (Js.trim ingr)).

Definition handleCopilotClick : Cmd :=
  setAiState laugh ;;
  setTimeout ActResetIdle 3000.

(** Fallback: the browser's built-in speech synthesis. *)
Definition speakWithBrowserTTS (text : string) : Cmd :=
  fun s =>
    if negb (speechSynthesisInWindow (browser s)) then
      (setAnalysisError "Your browser doesn't support speech synthesis. Please use Chrome, Edge, or Safari." ;;
       setAiState idle) s
    else
      (setAiState speaking ;;
       call SynthCancel ;;
       onBrowser (fun b => withUtterances (S (nextId b))
                                          (utterances b ++ [(nextId b, text)]) b) ;;
       call (SynthSpeak text)) s.

Definition utterance_onend : Cmd := setAiState idle.

Definition utterance_onerror : Cmd :=
  setAnalysisError "Failed to speak text. Please try again." ;;
  setAiState idle.

(** [speakText] up to its first [await]. *)
Definition speakText (text : string) : Cmd :=
  setAiState speaking ;;
  fetchSpeak text.

Definition unknownError : ErrorData := mkErrorData false (Some "Unknown error").

Definition isAudioType (contentType : option string) : bool :=
  match contentType with
  | Some ct => Js.includes ct "audio"
  | None => false
  end.

(** [speakText] after [fetch] has resolved to [res]; [id] names the Audio
    element it may create. *)
Definition speakText_resolved (text : string) (id : nat) (res : SpeakResponse) : Cmd :=
  if negb (res_ok res) then
    let errorData := match res_json res with Some d => d | None => unknownError end in
    if useBrowserTTS errorData then
      speakWithBrowserTTS text
    else
      setAnalysisError (speakFailureMessage errorData (res_status res)) ;;
      setAiState idle
  else if negb (isAudioType (res_contentType res)) then
    setAnalysisError "Invalid audio response. Please check your API configuration." ;;
    setAiState idle
  else if Nat.eqb (res_blobSize res) 0 then
    setAnalysisError "Empty audio response. Please try again." ;;
    setAiState idle
  else
    onBrowser (fun b => withAudios (audios b ++ [id]) b) ;;
    call (AudioPlay id) ;;
    match res_play res with
    | None => skip
    | Some playError =>
        setAnalysisError (playErrorMessage playError) ;;
        setAiState idle
    end.

(** The outer [catch] of [speakText]. *)
Definition speakText_rejected : Cmd :=
  setAnalysisError "Failed to generate speech. Please check your internet connection and try again." ;;
  setAiState idle.

Definition audio_onended : Cmd := setAiState idle.

Definition audio_onerror (err : option MediaError) : Cmd :=
  setAnalysisError (mediaErrorMessage err) ;;
  setAiState idle.

Definition handleStopSpeaking : Cmd :=
  fun s =>
    if synthesisRef (browser s) then
      (call SynthCancel ;; setSpeaking false ;; setAiState idle) s
    else s.

(** [handleAnalyze] up to its first [await]. *)
Definition handleAnalyze : Cmd :=
  fun s =>
    if blank (ingredients (page s)) then
      (setAnalysisError emptyInputMessage ;;
       setAiState warning ;;
       setTimeout ActResetIdle 3000) s
    else
      (setIsPreparing true ;;
       setTimeout ActPrepareOff 400 ;;
       setAiState thinking ;;
       setAnalyzing true ;;
       setAnalysisError EmptyString ;;
       setAnalysisResult None ;;
       fetchAnalyze (ingredients (page s))) s.

(** [data.isUncertain || (data.confidence && data.confidence < 0.7)] *)
Definition uncertainOrLow (data : AnalysisData) : bool :=
  Js.truthyOptBool (d_isUncertain data)
  || (Js.truthyOptNumber (d_confidence data)
      && match d_confidence data with
         | Some c => PrimFloat.ltb c 0.7
         | None => false
         end).

Definition speakOrIdle (data : AnalysisData) : Cmd :=
  match d_text data with
  | Some text => if Js.truthyString text then speakText text else setAiState idle
  | None => setAiState idle
  end.

(** [handleAnalyze] after [fetch] and [response.json()] have resolved. *)
Definition handleAnalyze_resolved (r : AnalyzeResponse) : Cmd :=
  let data := ar_data r in
  if negb (ar_ok r) then
    setAnalysisError analysisFailedMessage ;;
    setAnalyzing false ;;
    setAiState warning ;;
    setTimeout ActResetIdle 5000
  else
    setAnalysisResult (d_text data) ;;
    setAnalyzing false ;;
    if uncertainOrLow data then
      setAiState unsure ;;
      speakOrIdle data
    else
      speakOrIdle data.

(** The [catch] of [handleAnalyze]. *)
Definition handleAnalyze_rejected : Cmd :=
  setAnalysisError analysisFailedMessage ;;
  setAnalyzing false ;;
  setAiState warning ;;
  setTimeout ActResetIdle 5000.

(** [stopThrows]: whether [recognitionRef.current.stop()] throws. *)
Definition handleStopListening (stopThrows : bool) : Cmd :=
  fun s =>
    if recognitionRef (browser s) && isListening (page s) then
      if stopThrows then
        (setListening false ;; setAiState idle ;; call RecognitionAbort) s
      else
        (call RecognitionStop ;; call RecognitionAbort ;;
         setListening false ;; setAiState idle ;; setMicError None) s
    else s.

(** [handleStartListening] up to its [await]. *)
Definition handleStartListening (stopThrows : bool) : Cmd :=
  fun s =>
    if negb (recognitionRef (browser s)) then
      setMicError (Some "Speech recognition not initialized. Please refresh the page.") s
    else if isListening (page s) then
      handleStopListening stopThrows s
    else
      (onBrowser (fun b => withProbes (S (nextId b)) (probes b ++ [nextId b]) b) ;;
       call GetUserMedia) s.

(** [handleStartListening] after [getUserMedia] has resolved to a stream of
    [tracks] tracks; [startError] is what [recognitionRef.current.start()]
    throws, if it does. *)
Definition handleStartListening_granted (tracks : nat) (startError : option Js.Error) : Cmd :=
  callMany tracks TrackStop ;;
  match startError with
  | None =>
      call RecognitionStart ;;
      onBrowser (withRecognizing true) ;;
      setMicError None ;;
      setAiState listening
  | Some e =>
      setMicError (Some (startErrorMessage e)) ;;
      setListening false ;;
      setAiState idle
  end.

(** [handleStartListening] after [getUserMedia] has rejected. *)
Definition handleStartListening_denied (e : Js.Error) : Cmd :=
  setMicError (Some (probeErrorMessage e)) ;;
  setListening false ;;
  setAiState idle.

(** The callbacks of the recognition object. [transcript] is [None] when
    reading [event.results[0][0].transcript] throws. *)
Definition recognition_onresult (transcript : option string) : Cmd :=
  match transcript with
  | Some t =>
      setIngredients (fun prev =>
        (prev ++ (if Js.truthyString prev then " " else EmptyString) ++ t)%string) ;;
      setListening false ;;
      setAiState idle ;;
      setMicError None
  | None =>
      setMicError (Some "Failed to process speech. Please try again.") ;;
      setListening false ;;
      setAiState idle
  end.

Definition recognition_onerror (err : string) : Cmd :=
  setListening false ;;
  setAiState idle ;;
  setMicError (Some (recognitionErrorMessage err)).

Definition recognition_onstart : Cmd :=
  setMicError None ;;
  setListening true ;;
  setAiState listening.

Definition recognition_onend : Cmd :=
  onBrowser (withRecognizing false) ;;
  setListening false ;;
  setAiState idle.

(** *** Effects *)

(** The effect on [[aiState]]: the 10-second fallback while speaking.  Its
    cleanup clears the timer whenever [aiState] changes. *)
Definition speakingEffect (prev : AIState) : Cmd :=
  fun s =>
    if AIState_eqb prev (aiState (page s)) then s
    else
      (clearTimeoutOf OwnSpeakingEffect ;;
       if AIState_eqb (aiState (page s)) speaking
       then setTimeoutOwned OwnSpeakingEffect (ActSpeakingFallback (aiState (page s))) 10000
       else skip) s.

Definition sameTypingDeps (p q : Page) : bool :=
  String.eqb (ingredients p) (ingredients q)
  && Bool.eqb (analyzing p) (analyzing q)
  && Bool.eqb (isListening p) (isListening q).

(** The effect on [[ingredients, analyzing, listening]]. *)
Definition typingEffect (prev : Page) : Cmd :=
  fun s =>
    let p := page s in
    if sameTypingDeps prev p then s
    else
      (clearTimeoutOf OwnTypingEffect ;;
       if negb (blank (ingredients p)) && negb (analyzing p) && negb (isListening p)
       then setTimeoutOwned OwnTypingEffect (ActTyping (ingredients p) (analyzing p)) 500
       else if blank (ingredients p) && AIState_eqb (aiState p) listening
               && negb (analyzing p)
       then setAiState idle
       else skip) s.

(** The effects that follow a render: [prev] is the state of the previous
    render.  A state change made by the typing effect causes one more
    render, after which the [aiState] effect runs again. *)
Definition effects (prev : Page) : Cmd :=
  speakingEffect (aiState prev) ;;
  (fun s1 => (typingEffect prev ;; speakingEffect (aiState (page s1))) s1).

(** *** Timers firing *)

Definition runTimer (act : TimerAction) : Cmd :=
  match act with
  | ActResetIdle => setAiState idle
  | ActSpeakingFallback seen =>
      if AIState_eqb seen speaking then setAiState idle else skip
  | ActTyping ingr an =>
      if negb (blank ingr) && negb an then setAiState listening else skip
  | ActPrepareOff => setIsPreparing false
  end.

(** The timer that fires next, if one is due by [target]: the earliest, and
    among equals the one set first. *)
Fixpoint nextTimer (target : Z) (l : list Timer) : option Timer :=
  match l with
  | [] => None
  | t :: l' =>
      match nextTimer target l' with
      | Some u =>
          if (t_due t <=? target)%Z && (t_due t <=? t_due u)%Z then Some t else Some u
      | None => if (t_due t <=? target)%Z then Some t else None
      end
  end.

Definition fireTimer (t : Timer) : Cmd :=
  fun s =>
    (onBrowser (fun b =>
       withClock (Z.max (now b) (t_due t))
         (withTimers (nextId b)
            (filter (fun u => negb (Nat.eqb (t_id u) (t_id t))) (timers b)) b)) ;;
     runTimer (t_act t) ;;
     effects (page s)) s.

Fixpoint advance (fuel : nat) (target : Z) (s : Sys) : Sys :=
  match fuel with
  | O => onBrowser (withClock target) s
  | S fuel' =>
      match nextTimer target (timers (browser s)) with
      | None => onBrowser (withClock target) s
      | Some t => advance fuel' target (fireTimer t s)
      end
  end.

(** [ms] milliseconds pass with no other event: the timers due in that
    time fire in order. *)
Definition elapse (ms : Z) (s : Sys) : Sys :=
  if (ms <? 0)%Z then s
  else advance (List.length (timers (browser s))) (now (browser s) + ms) s.

(** *** Events *)

Inductive Event : Type :=
| CopilotClick
| Typing (value : string)
| AnalyzeClick
| AnalyzeResolved (id : nat) (r : AnalyzeResponse)
| AnalyzeRejected (id : nat)
| SpeakResolved (id : nat) (res : SpeakResponse)
| SpeakRejected (id : nat)
| AudioEnded (id : nat)
| AudioError (id : nat) (err : option MediaError)
| UtteranceEnd (id : nat)
| UtteranceError (id : nat)
| StartListeningClick (stopThrows : bool)
| StopListeningClick (stopThrows : bool)
| ProbeGranted (id : nat) (tracks : nat) (startError : option Js.Error)
| ProbeDenied (id : nat) (e : Js.Error)
| RecognitionOnStart
| RecognitionOnResult (transcript : option string)
| RecognitionOnError (err : string)
| RecognitionOnEnd
| StopSpeakingClick
| Elapse (ms : Z).

(** Whether the page can receive the event: the control is rendered and
    enabled, or the operation the event completes is in flight. *)
Definition enabled (ev : Event) (s : Sys) : bool :=
  let p := page s in
  let b := browser s in
  match ev with
  | CopilotClick | Typing _ => true
  | AnalyzeClick =>
      negb (blank (ingredients p) || analyzing p || isListening p)
  | AnalyzeResolved id _ | AnalyzeRejected id => hasId id (analyzeFetches b)
  | SpeakResolved id _ | SpeakRejected id =>
      match lookupKey id (speakFetches b) with Some _ => true | None => false end
  | AudioEnded id | AudioError id _ => hasId id (audios b)
  | UtteranceEnd id | UtteranceError id =>
      match lookupKey id (utterances b) with Some _ => true | None => false end
  | StartListeningClick _ => recognitionRef b && negb (isListening p)
  | StopListeningClick _ => recognitionRef b && isListening p
  | ProbeGranted id _ _ | ProbeDenied id _ => hasId id (probes b)
  | RecognitionOnStart | RecognitionOnResult _ | RecognitionOnError _
  | RecognitionOnEnd => recognizing b
  | StopSpeakingClick => isSpeaking p
  | Elapse ms => (0 <=? ms)%Z
  end.

(** The callback that the event runs.  A completion for an operation that
    is not in flight has no callback to run. *)
Definition handle (ev : Event) : Cmd :=
  fun s =>
    let b := browser s in
    match ev with
    | CopilotClick => handleCopilotClick s
    | Typing value => setIngredients (fun _ => value) s
    | AnalyzeClick => handleAnalyze s
    | AnalyzeResolved id r =>
        if hasId id (analyzeFetches b) then
          (onBrowser (fun b => withAnalyzeFetches (nextId b) (removeId id (analyzeFetches b)) b) ;;
           handleAnalyze_resolved r) s
        else s
    | AnalyzeRejected id =>
        if hasId id (analyzeFetches b) then
          (onBrowser (fun b => withAnalyzeFetches (nextId b) (removeId id (analyzeFetches b)) b) ;;
           handleAnalyze_rejected) s
        else s
    | SpeakResolved id res =>
        match lookupKey id (speakFetches b) with
        | Some text =>
            (onBrowser (fun b => withSpeakFetches (nextId b) (removeKey id (speakFetches b)) b) ;;
             speakText_resolved text id res) s
        | None => s
        end
    | SpeakRejected id =>
        match lookupKey id (speakFetches b) with
        | Some _ =>
            (onBrowser (fun b => withSpeakFetches (nextId b) (removeKey id (speakFetches b)) b) ;;
             speakText_rejected) s
        | None => s
        end
    | AudioEnded id =>
        if hasId id (audios b) then
          (onBrowser (fun b => withAudios (removeId id (audios b)) b) ;; audio_onended) s
        else s
    | AudioError id err =>
        if hasId id (audios b) then
          (onBrowser (fun b => withAudios (removeId id (audios b)) b) ;; audio_onerror err) s
        else s
    | UtteranceEnd id =>
        match lookupKey id (utterances b) with
        | Some _ =>
            (onBrowser (fun b => withUtterances (nextId b) (removeKey id (utterances b)) b) ;;
             utterance_onend) s
        | None => s
        end
    | UtteranceError id =>
        match lookupKey id (utterances b) with
        | Some _ =>
            (onBrowser (fun b => withUtterances (nextId b) (removeKey id (utterances b)) b) ;;
             utterance_onerror) s
        | None => s
        end
    | StartListeningClick stopThrows => handleStartListening stopThrows s
    | StopListeningClick stopThrows => handleStopListening stopThrows s
    | ProbeGranted id tracks startError =>
        if hasId id (probes b) then
          (onBrowser (fun b => withProbes (nextId b) (removeId id (probes b)) b) ;;
           handleStartListening_granted tracks startError) s
        else s
    | ProbeDenied id e =>
        if hasId id (probes b) then
          (onBrowser (fun b => withProbes (nextId b) (removeId id (probes b)) b) ;;
           handleStartListening_denied e) s
        else s
    | RecognitionOnStart => if recognizing b then recognition_onstart s else s
    | RecognitionOnResult t => if recognizing b then recognition_onresult t s else s
    | RecognitionOnError err => if recognizing b then recognition_onerror err s else s
    | RecognitionOnEnd => if recognizing b then recognition_onend s else s
    | StopSpeakingClick => handleStopSpeaking s
    | Elapse _ => s
    end.

(** One turn of the event loop: the callback, then the render and its
    effects.  Time passing fires the timers that come due. *)
Definition fire (ev : Event) : Cmd :=
  fun s =>
    match ev with
    | Elapse ms => elapse ms s
    | _ => (handle ev ;; effects (page s)) s
    end.

Fixpoint exec (evs : list Event) (s : Sys) : Sys :=
  match evs with
  | [] => s
  | ev :: evs' => exec evs' (fire ev s)
  end.

(** [exec] restricted to the events the page can receive. *)
Fixpoint run (evs : list Event) (s : Sys) : option Sys :=
  match evs with
  | [] => Some s
  | ev :: evs' => if enabled ev s then run evs' (fire ev s) else None
  end.

(** *** Page load *)

Inductive RecognitionSupport : Type :=
| RecognitionAvailable        (* the constructor exists and succeeds *)
| RecognitionInitFails        (* the constructor throws *)
| RecognitionMissing.         (* no SpeechRecognition in window *)

Definition initialMicError (r : RecognitionSupport) : option string :=
  match r with
  | RecognitionAvailable => None
  | RecognitionInitFails =>
      Some "Failed to initialize speech recognition. Your browser may not support this feature."
  | RecognitionMissing =>
      Some "Speech recognition is not supported in your browser. Please use Chrome, Edge, or Safari."
  end.

(** The state after the first render and the mount effects. *)
Definition init (r : RecognitionSupport) (synthesis : bool) : Sys :=
  mkSys
    (mkPage idle EmptyString false None EmptyString false false (initialMicError r) false)
    (mkBrowser 0 0 [] [] [] [] [] [] false
       (match r with RecognitionAvailable => true | _ => false end)
       synthesis synthesis []).

(** *** The page as a client of the speak route *)

(** [res.ok] *)
Definition isOk (status : nat) : bool :=
  Nat.leb 200 status && Nat.leb status 299.

(** [res.headers.get(name)]: header names compare without case. *)
Definition headersGet (name : string) (hs : list (string * string)) : option string :=
  match find (fun h => String.eqb (AnalyzeRoute.lowerAZ (fst h)) (AnalyzeRoute.lowerAZ name)) hs with
  | Some h => Some (snd h)
  | None => None
  end.

(** What [speakText] reads from a response of the speak route; how the
    body parses as JSON and whether playback starts are left to the
    environment. *)
Definition received (r : SpeakRoute.NextResponse)
           (json : option ErrorData) (play : option Js.Error) : SpeakResponse :=
  mkSpeakResponse (isOk (SpeakRoute.status r)) (SpeakRoute.status r) json
    (headersGet "content-type" (SpeakRoute.headers r))
    (List.length (SpeakRoute.body r)) play.

(** *** What a completion callback assigns *)

(** The value that the callback of a completion event assigns to
    [aiState] last; [None] for events that complete nothing and for
    callbacks that assign nothing.  [synth] is
    ["speechSynthesis" in window]. *)
Definition completionTarget (synth : bool) (ev : Event) : option AIState :=
  match ev with
  | AnalyzeResolved _ r =>
      if negb (ar_ok r) then Some warning
      else if Js.truthyOptString (d_text (ar_data r)) then Some speaking
      else Some idle
  | AnalyzeRejected _ => Some warning
  | SpeakResolved _ res =>
      if negb (res_ok res) then
        if useBrowserTTS (match res_json res with Some d => d | None => unknownError end)
        then Some (if synth then speaking else idle)
        else Some idle
      else if negb (isAudioType (res_contentType res)) then Some idle
      else if Nat.eqb (res_blobSize res) 0 then Some idle
      else match res_play res with Some _ => Some idle | None => None end
  | SpeakRejected _ => Some idle
  | AudioEnded _ | AudioError _ _ => Some idle
  | UtteranceEnd _ | UtteranceError _ => Some idle
  | ProbeGranted _ _ None => Some listening
  | ProbeGranted _ _ (Some _) => Some idle
  | ProbeDenied _ _ => Some idle
  | RecognitionOnStart => Some listening
  | RecognitionOnResult _ | RecognitionOnError _ | RecognitionOnEnd => Some idle
  | _ => None
  end.

(** *** Views of the state used to state invariants *)

(** A recorded assignment to [aiState] assigns one of the seven values. *)
Definition validCall (c : Call) : Prop :=
  match c with
  | SetAiState v => In v allStates
  | _ => True
  end.

(** The state holds one of the seven values, and so did every assignment
    made so far. *)
Definition wellStated (s : Sys) : Prop :=
  In (aiState (page s)) allStates /\ Forall validCall (calls (browser s)).


Definition isRecognitionStart (c : Call) : bool :=
  match c with RecognitionStart => true | _ => false end.

Definition isGetUserMedia (c : Call) : bool :=
  match c with GetUserMedia => true | _ => false end.

(** The part of the state that concerns voice capture: the recognition
    sessions started, the permission probes requested, and the probes in
    flight. *)
Definition captureView (s : Sys) : list Call * list Call * list nat :=
  (filter isRecognitionStart (calls (browser s)),
   filter isGetUserMedia (calls (browser s)),
   probes (browser s)).

(** Every started recognition session has used up a permission probe of
    its own. *)
Definition probedBeforeStart (s : Sys) : Prop :=
  List.length (filter isRecognitionStart (calls (browser s)))
  + List.length (probes (browser s))
  <= List.length (filter isGetUserMedia (calls (browser s))).

(** *** Stating the staleness policy *)

(** An operation [id] has been superseded when an operation of its class
    that was started later (ids grow with time) is in flight. *)
Definition laterIn (id : nat) (l : list nat) : bool :=
  existsb (fun j => Nat.ltb id j) l.

Definition playbacks (b : Browser) : list nat :=
  map fst (speakFetches b) ++ audios b ++ map fst (utterances b).

(** The event completes an operation that is in flight but is no longer
    the most recently started one of its class. *)
Definition superseded (ev : Event) (s : Sys) : bool :=
  let b := browser s in
  match ev with
  | AnalyzeResolved id _ | AnalyzeRejected id =>
      hasId id (analyzeFetches b) && laterIn id (analyzeFetches b)
  | SpeakResolved id _ | SpeakRejected id =>
      hasId id (map fst (speakFetches b)) && laterIn id (playbacks b)
  | AudioEnded id | AudioError id _ =>
      hasId id (audios b) && laterIn id (playbacks b)
  | UtteranceEnd id | UtteranceError id =>
      hasId id (map fst (utterances b)) && laterIn id (playbacks b)
  | ProbeGranted id _ _ | ProbeDenied id _ =>
      hasId id (probes b) && laterIn id (probes b)
  | _ => false
  end.

(** The policy: on every state the page can reach, a superseded completion
    leaves [aiState] as it is. *)
Definition staleCompletionsDiscarded : Prop :=
  forall (r : RecognitionSupport) (synth : bool) (evs : list Event) (s : Sys) (ev : Event),
    run evs (init r synth) = Some s ->
    superseded ev s = true ->
    aiState (page (fire ev s)) = aiState (page s).

End Dashboard.

(** ** Concrete inputs used in examples *)

Module Scenarios.

Import Dashboard.

(** What [fetch] rejects with when the service cannot be reached. *)
Definition fetchFailed : Js.Error := Js.mkError "TypeError" "fetch failed".

(** An upstream reply: 401 with the JSON body [{}]. *)
Definition unauthorized : SpeakRoute.UpstreamResponse :=
  SpeakRoute.mkUpstream 401 (Some "application/json") (Js.Resolved [123; 125]).

Definition start : Sys := init RecognitionAvailable true.

Definition reply (confidence : float) (isUncertain : bool) : AnalyzeResponse :=
  mkAnalyzeResponse true (mkData (Some "Sugar is fine") (Some confidence) (Some isUncertain)).

(** A playable reply of /api/speak. *)
Definition audioReply : SpeakResponse :=
  mkSpeakResponse true 200 None (Some "audio/mpeg") 10 None.

(** A failed reply of /api/speak that asks for the browser fallback. *)
Definition fallbackReply : SpeakResponse :=
  mkSpeakResponse false 401 (Some (mkErrorData true (Some "Unauthorized")))
    (Some "application/json") 0 None.

(** The user analyses "sugar"; the answer is being spoken (audio 3).  The
    user then analyses "salt"; its answer starts to play (audio 9) while
    audio 3 has not ended. *)
Definition twoPlaybacks : list Event :=
  [ Typing "sugar"; Elapse 100; AnalyzeClick; Elapse 800;
    AnalyzeResolved 2 (reply 0.95 false); Elapse 300;
    SpeakResolved 3 audioReply; Elapse 2000;
    Typing "salt"; Elapse 100; AnalyzeClick; Elapse 800;
    AnalyzeResolved 8 (reply 0.95 false); Elapse 300;
    SpeakResolved 9 audioReply; Elapse 100 ].

(** The user clicks the mascot, and one second later types and submits
    "sugar". *)
Definition clickThenAnalyze : list Event :=
  [ CopilotClick; Elapse 1000; Typing "sugar"; Elapse 200; AnalyzeClick ].

(** The user submits "sugar"; request 2 is in flight. *)
Definition analysisInFlight : list Event :=
  [ Typing "sugar"; Elapse 100; AnalyzeClick; Elapse 800 ].

(** ... and its answer is requested from /api/speak (request 3). *)
Definition speakInFlight : list Event :=
  analysisInFlight ++ [ AnalyzeResolved 2 (reply 0.95 false); Elapse 300 ].

(** The recording button was pressed; probe 0 is in flight. *)
Definition probeInFlight : list Event := [ StartListeningClick false ].

Definition notAllowed : Js.Error := Js.mkError "NotAllowedError" "Permission denied".

End Scenarios.

(** ** The process-image route *)

Module ProcessImageRoute.

(** A [File] of a multipart form. *)
Record File := mkFile { f_name : string; f_type : string; f_size : N }.

(** The JSON bodies the route sends. *)
Inductive Body : Type :=
| ErrorBody (error : string)
| ResultBody (labels : list string) (confidence : float)
             (filename : string) (size : N) (type : string).

Record Response := mkResponse { status : nat; body : Body }.

(** [{ data: { user }, error: authError }] of [supabase.auth.getUser()]. *)
Record AuthResult := mkAuth { user : option string; authError : option Js.Error }.

(** [formData.get("image")]: no such field, a text field, or a file. *)
Inductive FormEntry : Type :=
| NoEntry
| StringEntry (value : string)
| FileEntry (file : File).

(** [10 * 1024 * 1024] *)
Definition maxSize : N := 10 * 1024 * 1024.

Definition isImageType (type : string) : bool := String.prefix "image/" type.

Definition internalError : Response := mkResponse 500 (ErrorBody "Internal server error").

Definition dummyLabels : list string := ["cat"; "animal"; "pet"; "feline"].
Definition dummyConfidence : float := 0.92%float.

(** [POST].  [auth] is the outcome of creating the client and asking it for
    the user, [form] the outcome of [request.formData()] followed by
    [get("image")]; the form is read only after the user is known.  A text
    field has no [type], so [file.type.startsWith] throws on it. *)
Definition POST (auth : Js.Outcome AuthResult) (form : Js.Outcome FormEntry) : Response :=
  match auth with
  | Js.Rejected _ => internalError
  | Js.Resolved a =>
      match authError a, user a with
      | None, Some _ =>
          match form with
          | Js.Rejected _ => internalError
          | Js.Resolved NoEntry => mkResponse 400 (ErrorBody "No image file provided")
          | Js.Resolved (StringEntry value) =>
              if Js.truthyString value then internalError
              else mkResponse 400 (ErrorBody "No image file provided")
          | Js.Resolved (FileEntry file) =>
              if negb (isImageType (f_type file)) then
                mkResponse 400 (ErrorBody "File must be an image")
              else if (maxSize <? f_size file)%N then
                mkResponse 400 (ErrorBody "File size must be less than 10MB")
              else
                mkResponse 200
                  (ResultBody dummyLabels dummyConfidence
                              (f_name file) (f_size file) (f_type file))
          end
      | _, _ => mkResponse 401 (ErrorBody "Unauthorized")
      end
  end.

End ProcessImageRoute.

(** ** The image upload of the dashboard page *)

Module Upload.

Import ProcessImageRoute.

(** The state variables of the upload card, the reads and requests in
    flight, and how often the file picker was opened. *)
Record State := mkState {
  selectedFile : option File;
  preview : option string;
  processing : bool;
  result : option Body;
  error : string;
  readers : list nat;                  (* FileReader loads in flight *)
  uploads : list (nat * File);         (* /api/process-image requests in flight *)
  nextId : nat;
  pickerClicks : nat                   (* fileInputRef.current.click() *)
}.

Definition init : State := mkState None None false None EmptyString [] [] 0 0.

(** [handleFileChange]; [file] is [e.target.files?.[0]]. *)
Definition handleFileChange (file : option File) (s : State) : State :=
  match file with
  | None => s
  | Some f =>
      if negb (isImageType (f_type f)) then
        mkState (selectedFile s) (preview s) (processing s) (result s)
                "Please select an image file"
                (readers s) (uploads s) (nextId s) (pickerClicks s)
      else if (maxSize <? f_size f)%N then
        mkState (selectedFile s) (preview s) (processing s) (result s)
                "File size must be less than 10MB"
                (readers s) (uploads s) (nextId s) (pickerClicks s)
      else
        mkState (Some f) (preview s) (processing s) None EmptyString
                (readers s ++ [nextId s]) (uploads s) (S (nextId s)) (pickerClicks s)
  end.

(** [reader.onloadend] *)
Definition reader_onloadend (dataUrl : string) (s : State) : State :=
  mkState (selectedFile s) (Some dataUrl) (processing s) (result s) (error s)
          (readers s) (uploads s) (nextId s) (pickerClicks s).

(** [handleUpload] up to its first [await]. *)
Definition handleUpload (s : State) : State :=
  match selectedFile s with
  | None =>
      mkState (selectedFile s) (preview s) (processing s) (result s)
              "Please select an image file"
              (readers s) (uploads s) (nextId s) (pickerClicks s)
  | Some f =>
      mkState (selectedFile s) (preview s) true None EmptyString
              (readers s) (uploads s ++ [(nextId s, f)]) (S (nextId s)) (pickerClicks s)
  end.

(** [data.error || "Failed to process image"] *)
Definition failureMessage (data : Body) : string :=
  match data with
  | ErrorBody e => if Js.truthyString e then e else "Failed to process image"
  | ResultBody _ _ _ _ _ => "Failed to process image"
  end.

(** [handleUpload] after [fetch] and [response.json()] have resolved. *)
Definition handleUpload_resolved (ok : bool) (data : Body) (s : State) : State :=
  if negb ok then
    mkState (selectedFile s) (preview s) false (result s) (failureMessage data)
            (readers s) (uploads s) (nextId s) (pickerClicks s)
  else
    mkState (selectedFile s) (preview s) false (Some data) (error s)
            (readers s) (uploads s) (nextId s) (pickerClicks s).

(** The [catch] of [handleUpload]. *)
Definition handleUpload_rejected (s : State) : State :=
  mkState (selectedFile s) (preview s) false (result s)
          "An error occurred. Please try again."
          (readers s) (uploads s) (nextId s) (pickerClicks s).

Definition handleUploadButtonClick (s : State) : State :=
  match selectedFile s with
  | None =>
      mkState (selectedFile s) (preview s) (processing s) (result s) (error s)
              (readers s) (uploads s) (nextId s) (S (pickerClicks s))
  | Some _ => handleUpload s
  end.

Definition handleReset (s : State) : State :=
  mkState None None (processing s) None EmptyString
          (readers s) (uploads s) (nextId s) (pickerClicks s).

Inductive Event : Type :=
| FileChosen (file : option File)
| PreviewLoaded (id : nat) (dataUrl : string)
| ProcessClick                       (* the Process button: [handleUpload] *)
| UploadButtonClick                  (* the round button *)
| ResetClick
| UploadResolved (id : nat) (ok : bool) (data : Body)
| UploadRejected (id : nat).

Definition dropReader (id : nat) (s : State) : State :=
  mkState (selectedFile s) (preview s) (processing s) (result s) (error s)
          (Dashboard.removeId id (readers s)) (uploads s) (nextId s) (pickerClicks s).

Definition dropUpload (id : nat) (s : State) : State :=
  mkState (selectedFile s) (preview s) (processing s) (result s) (error s)
          (readers s) (Dashboard.removeKey id (uploads s)) (nextId s) (pickerClicks s).

Definition handle (ev : Event) (s : State) : State :=
  match ev with
  | FileChosen file => handleFileChange file s
  | PreviewLoaded id dataUrl =>
      if Dashboard.hasId id (readers s) then reader_onloadend dataUrl (dropReader id s) else s
  | ProcessClick => handleUpload s
  | UploadButtonClick => handleUploadButtonClick s
  | ResetClick => handleReset s
  | UploadResolved id ok data =>
      match Dashboard.lookupKey id (uploads s) with
      | Some _ => handleUpload_resolved ok data (dropUpload id s)
      | None => s
      end
  | UploadRejected id =>
      match Dashboard.lookupKey id (uploads s) with
      | Some _ => handleUpload_rejected (dropUpload id s)
      | None => s
      end
  end.

(** Whether the page can receive the event: the [disabled] attributes of
    the buttons, and completions only for what is in flight. *)
Definition enabled (ev : Event) (s : State) : bool :=
  match ev with
  | FileChosen _ => true
  | PreviewLoaded id _ => Dashboard.hasId id (readers s)
  | ProcessClick =>
      match selectedFile s with Some _ => negb (processing s) | None => false end
  | UploadButtonClick => negb (processing s)
  | ResetClick =>
      match selectedFile s with Some _ => negb (processing s) | None => false end
  | UploadResolved id _ _ | UploadRejected id =>
      match Dashboard.lookupKey id (uploads s) with Some _ => true | None => false end
  end.

Fixpoint exec (evs : list Event) (s : State) : State :=
  match evs with
  | [] => s
  | ev :: evs' => exec evs' (handle ev s)
  end.

Fixpoint run (evs : list Event) (s : State) : option State :=
  match evs with
  | [] => Some s
  | ev :: evs' => if enabled ev s then run evs' (handle ev s) else None
  end.

(** A file that both the page and the route accept. *)
Definition acceptable (f : File) : bool :=
  isImageType (f_type f) && negb (maxSize <? f_size f)%N.

(** What the page reads from a response of the route. *)
Definition responseOk (r : Response) : bool := Dashboard.isOk (status r).

End Upload.

(** ** What the page shows for a state *)

Module Presentation.

Import Dashboard.

(** [copilotAnimations], an object used as a map from state to video. *)
Definition copilotAnimations : list (string * string) :=
  [ ("idle", "/copilot/idle.webm");
    ("listening", "/copilot/listening.webm");
    ("thinking", "/copilot/thinking.webm");
    ("speaking", "/copilot/speaking.webm");
    ("unsure", "/copilot/unsure.webm");
    ("warning", "/copilot/warning.webm");
    ("laugh", "/copilot/laugh.webm") ].

(** [map[key]]; [None] is [undefined]. *)
Fixpoint property (map : list (string * string)) (key : string) : option string :=
  match map with
  | [] => None
  | (k, v) :: rest => if String.eqb k key then Some v else property rest key
  end.

(** The [src] that [Copilot] gives its video: [copilotAnimations[state]]. *)
Definition copilotSrc (state : AIState) : option string :=
  property copilotAnimations state.

Inductive Mood : Type := Negative | Positive.

Definition negativeKeywords : list string :=
  [ "high sugar"; "artificial"; "preservative"; "processed"; "additives"; "synthetic" ].

Definition positiveKeywords : list string :=
  [ "organic"; "natural"; "whole"; "healthy"; "nutritious"; "fresh" ].

Section WithLowerCase.

Variable toLowerCase : string -> string.

(** [emotionalMood]; [None] is [null]. *)
Definition emotionalMood (analysisResult : option string) : option Mood :=
  match analysisResult with
  | None => None
  | Some r =>
      if negb (Js.truthyString r) then None
      else
        let text := toLowerCase r in
        let hasNegative := existsb (fun keyword => Js.includes text keyword) negativeKeywords in
        let hasPositive := existsb (fun keyword => Js.includes text keyword) positiveKeywords in
        if hasNegative then Some Negative
        else if hasPositive then Some Positive
        else None
  end.

End WithLowerCase.

End Presentation.

(** ** Text helpers of the page *)

Module Text.

Definition newline : ascii := ascii_of_nat 10.

(** [text.split("\n")] *)
Fixpoint splitLines (text : string) : list string :=
  match text with
  | EmptyString => [EmptyString]
  | String c rest =>
      if Ascii.eqb c newline then EmptyString :: splitLines rest
      else
        match splitLines rest with
        | line :: lines => String c line :: lines
        | [] => [String c EmptyString]
        end
  end.

(** [parts.join(sep)] *)
Fixpoint join (sep : string) (parts : list string) : string :=
  match parts with
  | [] => EmptyString
  | [p] => p
  | p :: rest => (p ++ sep ++ join sep rest)%string
  end.

(** [shortenForSpeech] *)
Definition shortenForSpeech (text : string) : string :=
  join ". " (firstn 5 (splitLines text)).

(** Whether a string has a line break. *)
Fixpoint hasNewline (text : string) : bool :=
  match text with
  | EmptyString => false
  | String c rest => Ascii.eqb c newline || hasNewline rest
  end.

End Text.

(** ** Views of the page used to state its invariants *)

Module Invariants.

Import Dashboard.

(** The states in which a callback can leave the page. *)
Definition shownStates : list AIState :=
  [idle; listening; thinking; speaking; warning; laugh].

(** The part of the state that concerns the analysis request. *)
Definition analysisView (s : Sys) : bool * list nat :=
  (analyzing (page s), analyzeFetches (browser s)).

(** [analyzing] is set exactly while one request is in flight. *)
Definition oneAnalysis (s : Sys) : Prop :=
  (analyzing (page s) = false /\ analyzeFetches (browser s) = [])
  \/ (analyzing (page s) = true /\ exists id, analyzeFetches (browser s) = [id]).

(** The text that the page sends to be spoken when the event is the
    arrival of an analysis answer. *)
Definition answerOf (ev : Event) : option string :=
  match ev with
  | AnalyzeResolved _ r =>
      if ar_ok r then
        match d_text (ar_data r) with
        | Some text => if Js.truthyString text then Some text else None
        | None => None
        end
      else None
  | _ => None
  end.

Definition spokenCall (P : string -> Prop) (c : Call) : Prop :=
  match c with
  | FetchSpeak t | SynthSpeak t => P t
  | _ => True
  end.

(** Every text sent to /api/speak or to the browser's synthesis so far,
    and every text of a request or an utterance in flight, satisfies [P]. *)
Definition speaksOnly (P : string -> Prop) (s : Sys) : Prop :=
  Forall (fun e => P (snd e)) (speakFetches (browser s))
  /\ Forall (fun e => P (snd e)) (utterances (browser s))
  /\ Forall (spokenCall P) (calls (browser s)).

(** The pending timers whose handle the cleanup [own] holds. *)
Definition ownedBy (own : TimerOwner) (l : list Timer) : list Timer :=
  filter (fun t => owner_eqb (t_owner t) own) l.

(** How a pending timer was set, at a time no later than [c]: the
    [aiState] effect sets the 10-second fallback while the state is
    [speaking]; the typing effect sets the 500 ms timer for non-blank input
    while no analysis runs; the timers whose handle is dropped reset the
    state or end the preparing pose. *)
Definition timerSet (c : Z) (t : Timer) : Prop :=
  match t_owner t with
  | OwnSpeakingEffect =>
      t_act t = ActSpeakingFallback speaking /\ (t_due t <= c + 10000)%Z
  | OwnTypingEffect =>
      (exists ingr, t_act t = ActTyping ingr false /\ blank ingr = false)
      /\ (t_due t <= c + 500)%Z
  | OwnNone => t_act t = ActResetIdle \/ t_act t = ActPrepareOff
  end.

(** The discipline of the timer list [l], given the next handle [n] and
    the time [c]: handles are distinct and were issued before [n]; every
    timer was set as [timerSet] says; each effect holds at most one
    timer. *)
Definition disciplined (l : list Timer) (n : nat) (c : Z) : Prop :=
  NoDup (map t_id l)
  /\ (forall t, In t l -> t_id t < n)
  /\ (forall t, In t l -> timerSet c t)
  /\ List.length (ownedBy OwnSpeakingEffect l) <= 1
  /\ List.length (ownedBy OwnTypingEffect l) <= 1.

Definition timersDisciplined (s : Sys) : Prop :=
  disciplined (timers (browser s)) (nextId (browser s)) (now (browser s)).

(** The [aiState] effect holds a timer. *)
Definition fallbackPending (s : Sys) : Prop :=
  exists t, In t (timers (browser s)) /\ t_owner t = OwnSpeakingEffect.

(** While the page is speaking, the fallback timer is pending. *)
Definition armed (s : Sys) : Prop :=
  aiState (page s) = speaking -> fallbackPending s.


(** As [armed], for a fallback timer due by [D]; or the page has left
    [speaking] for [idle] or [listening]. *)
Definition fallbackDueBy (D : Z) (s : Sys) : Prop :=
  (aiState (page s) = speaking
   /\ exists t, In t (timers (browser s)) /\ t_owner t = OwnSpeakingEffect
                /\ (t_due t <= D)%Z)
  \/ In (aiState (page s)) [idle; listening].

(** The two places where the page shows an error. *)
Inductive Field : Type := MicErrorField | AnalysisErrorField.

Definition shownError (f : Field) (s : Sys) : string :=
  match f with
  | MicErrorField => match micError (page s) with Some m => m | None => EmptyString end
  | AnalysisErrorField => analysisError (page s)
  end.

(** The completions that are failures, with the field that is to show
    them: a rejected or non-OK analysis; a rejected /api/speak request, a
    non-OK reply that does not ask for the fallback (or asks for it in a
    browser without speech synthesis), a reply that is not audio or is
    empty, a playback that does not start; an audio or utterance error; a
    refused microphone, a recognition that does not start, a recognition
    error, an unreadable result. *)
Definition failureOf (s : Sys) (ev : Event) : option Field :=
  match ev with
  | AnalyzeRejected _ => Some AnalysisErrorField
  | AnalyzeResolved _ r => if ar_ok r then None else Some AnalysisErrorField
  | SpeakRejected _ => Some AnalysisErrorField
  | SpeakResolved _ res =>
      if negb (res_ok res) then
        if useBrowserTTS (match res_json res with Some d => d | None => unknownError end)
        then if speechSynthesisInWindow (browser s) then None else Some AnalysisErrorField
        else Some AnalysisErrorField
      else if negb (isAudioType (res_contentType res)) then Some AnalysisErrorField
      else if Nat.eqb (res_blobSize res) 0 then Some AnalysisErrorField
      else match res_play res with Some _ => Some AnalysisErrorField | None => None end
  | AudioError _ _ | UtteranceError _ => Some AnalysisErrorField
  | ProbeDenied _ _ | ProbeGranted _ _ (Some _) => Some MicErrorField
  | RecognitionOnError _ | RecognitionOnResult None => Some MicErrorField
  | _ => None
  end.

(** Something is being fetched from /api/speak, played or uttered. *)
Definition playbackInFlight (s : Sys) : Prop := playbacks (browser s) <> [].

(** The state names work that is going on: [thinking] only while an
    analysis request is in flight, [speaking] only while a speech request,
    an audio element or an utterance is. *)
Definition stateReflectsWork (s : Sys) : Prop :=
  (aiState (page s) = thinking ->
   analyzing (page s) = true /\ analyzeFetches (browser s) <> [])
  /\ (aiState (page s) = speaking -> playbackInFlight s).


(** A reply of /api/speak that can be played arrived for request [id]. *)
Definition playableReply (evs : list Event) (id : nat) : Prop :=
  exists res, In (SpeakResolved id res) evs
              /\ res_ok res = true
              /\ isAudioType (res_contentType res) = true
              /\ res_blobSize res <> 0.

(** A non-OK reply of /api/speak that asks for the browser's voice
    arrived. *)
Definition fallbackRequested (evs : list Event) : Prop :=
  exists id res, In (SpeakResolved id res) evs
                 /\ res_ok res = false
                 /\ useBrowserTTS (match res_json res with
                                   | Some d => d
                                   | None => unknownError
                                   end) = true.

(** The call is one that the replies among [evs] account for. *)
Definition accountedFor (evs : list Event) (c : Call) : Prop :=
  match c with
  | AudioPlay id => playableReply evs id
  | SynthSpeak _ => fallbackRequested evs
  | _ => True
  end.

(** In the list of calls, each text handed to the browser's speech
    synthesis was sent to /api/speak before. *)
Definition synthAfterFetch (l : list Call) : Prop :=
  forall l1 t l2, l = l1 ++ SynthSpeak t :: l2 -> In (FetchSpeak t) l1.

(** ... and the text of every /api/speak request in flight was sent. *)
Definition fetchedFirst (s : Sys) : Prop :=
  Forall (fun e => In (FetchSpeak (snd e)) (calls (browser s))) (speakFetches (browser s))
  /\ synthAfterFetch (calls (browser s)).

Definition isSynthSpeak (c : Call) : bool :=
  match c with SynthSpeak _ => true | _ => false end.

(** Since [s0] no time has passed, and every timer pending in [s] was
    pending in [s0] or is due [d] ms after [s0] or later. *)
Definition setNoEarlierThan (s0 : Sys) (d : Z) (s : Sys) : Prop :=
  now (browser s) = now (browser s0)
  /\ forall t, In t (timers (browser s)) ->
               In t (timers (browser s0)) \/ (now (browser s0) + d <= t_due t)%Z.

End Invariants.

(** ** The analyze route as the page sees it *)

Module Wire.
Import Dashboard.

(** A number after [JSON.stringify] and [JSON.parse]: NaN and the
    infinities arrive as [null], which is falsy like a missing field, and
    [-0] arrives as [0]. *)
Definition jsonNumber (x : float) : option float :=
  if PrimFloat.is_nan x || PrimFloat.is_infinity x then None
  else if PrimFloat.eqb x 0 then Some 0%float
  else Some x.

(** What [handleAnalyze] receives when the analyze route answers with
    [result]: [NextResponse.json] sends status 200. *)
Definition analyzeReply (result : AnalyzeRoute.AnalysisResult) : AnalyzeResponse :=
  mkAnalyzeResponse true
    (mkData (Some (AnalyzeRoute.text result))
            (jsonNumber (AnalyzeRoute.confidence result))
            (Some (AnalyzeRoute.isUncertain result))).

End Wire.

(** ** More concrete inputs used in examples *)

Module Examples.

Import Dashboard Scenarios ProcessImageRoute.

(** A 200 kB picture. *)
Definition photo : File := mkFile "label.png" "image/png" 204800.

Definition signedIn : AuthResult := mkAuth (Some "user-1") None.
Definition signedOut : AuthResult := mkAuth None None.

(** The user picks [photo]; its preview has loaded. *)
Definition photoChosen : list Upload.Event :=
  [ Upload.FileChosen (Some photo); Upload.PreviewLoaded 0 "data:image/png;base64,iVBORw0KGgo=" ].

(** ... and presses Process: request 1 is in flight. *)
Definition photoSent : list Upload.Event := photoChosen ++ [ Upload.ProcessClick ].

(** An answer of three lines. *)
Definition threeLines : list string :=
  [ "Sugar is fine in small amounts"; "Palm oil is worth a look"; "Okay for occasional use" ].

(** The typing timer that the first keystroke sets. *)
Definition firstTypingTimer : Timer :=
  mkTimer 0 500 OwnTypingEffect (ActTyping "sugar" false).

Definition hedged : string := "It is unclear and it might matter.".

(** The answer to "sugar" comes back from /api/speak as a failure that asks
    for the browser's voice. *)
Definition fallbackSpoken : list Event :=
  speakInFlight ++ [ SpeakResolved 3 fallbackReply ].



End Examples.

(** * Properties *)

(** ** The analyze route *)

Module AnalyzeFacts.

Import AnalyzeRoute.

Lemma filter_length_bound {A} (f : A -> bool) (l : list A) :
  List.length (filter f l) <= List.length l.
Proof.
  induction l as [|a l IH]; simpl; [lia|].
  destruct (f a); simpl; lia.
Qed.

Lemma uncertaintyCount_le_14 toLowerCase text :
  uncertaintyCount toLowerCase text <= 14.
Proof.
  unfold uncertaintyCount.
  apply (filter_length_bound _ uncertaintyKeywords).
Qed.

(** A property of the counts 0..14 is checked by running the fourteen
    cases. *)
Ltac each_count n :=
  do 15 (destruct n as [|n]; [vm_compute; repeat split; reflexivity|]);
  exfalso; lia.

Lemma confidenceOf_bounds n :
  n <= 14 ->
  PrimFloat.leb 0 (confidenceOf n) = true /\ PrimFloat.leb (confidenceOf n) 1 = true.
Proof. intros H. each_count n. Qed.

Lemma confidenceOf_low_iff n :
  n <= 14 ->
  PrimFloat.ltb (confidenceOf n) 0.7 = Nat.leb 3 n.
Proof. intros H. each_count n. Qed.

Lemma count_split (f : string -> bool) :
  List.length (filter f uncertaintyKeywords)
  = (if f "unclear" then 2 else 0) + List.length (filter f otherKeywords).
Proof.
  change uncertaintyKeywords with
    (["uncertain"] ++ ["unclear"]
       ++ ["not sure"; "might"; "possibly"; "perhaps"; "maybe"; "could be"]
       ++ ["unclear"]
       ++ ["unknown"; "hard to tell"; "difficult to determine"; "not certain"; "ambiguous"]).
  change otherKeywords with
    (["uncertain"]
       ++ ["not sure"; "might"; "possibly"; "perhaps"; "maybe"; "could be"]
       ++ ["unknown"; "hard to tell"; "difficult to determine"; "not certain"; "ambiguous"]).
  rewrite !filter_app, !length_app.
  change (filter f ["unclear"]) with (if f "unclear" then ["unclear"] else []).
  destruct (f "unclear"); simpl List.length at 2 4; lia.
Qed.

(** C8. For every response text the confidence returned by the analyze
    route is [Math.max(0, 1 - uncertaintyCount * 0.15)], and that number is
    at least 0 and at most 1. *)
Theorem confidence_in_unit_interval (toLowerCase : string -> string) (text : string) :
  let r := respond toLowerCase text in
  confidence r
    = Js.Math_max 0 (1 - Js.numberOfNat (uncertaintyCount toLowerCase text) * 0.15)%float
  /\ PrimFloat.leb 0 (confidence r) = true
  /\ PrimFloat.leb (confidence r) 1 = true.
Proof.
  cbv zeta. split; [reflexivity|].
  apply confidenceOf_bounds, uncertaintyCount_le_14.
Qed.

(** C10. The returned [isUncertain] is true exactly when the keyword count
    is at least 3; the count tallies lexicon entries, so a text containing
    "unclear" adds 2 for it; and [confidence < 0.7] holds exactly when the
    count is at least 3, so that disjunct adds nothing. *)
Theorem isUncertain_iff_count_ge_3 (toLowerCase : string -> string) (text : string) :
  let r := respond toLowerCase text in
  let n := uncertaintyCount toLowerCase text in
  isUncertain r = Nat.leb 3 n
  /\ PrimFloat.ltb (confidence r) 0.7 = Nat.leb 3 n
  /\ n = (if Js.includes (toLowerCase text) "unclear" then 2 else 0)
         + List.length (filter (fun keyword => Js.includes (toLowerCase text) keyword)
                               otherKeywords).
Proof.
  cbv zeta.
  pose proof (uncertaintyCount_le_14 toLowerCase text) as Hle.
  pose proof (confidenceOf_low_iff _ Hle) as Hlow.
  split; [|split].
  - unfold respond; simpl. unfold isUncertainOf. rewrite Hlow.
    apply Bool.orb_diag.
  - exact Hlow.
  - unfold uncertaintyCount.
    apply (count_split (fun keyword => Js.includes (toLowerCase text) keyword)).
Qed.

Example unclear_counts_twice :
  uncertaintyCount lowerAZ "The evidence is UNCLEAR." = 2
  /\ isUncertain (respond lowerAZ "The evidence is UNCLEAR.") = false
  /\ isUncertain (respond lowerAZ "It is unclear and it might matter.") = true.
Proof. vm_compute. repeat split; reflexivity. Qed.

End AnalyzeFacts.

(** ** The speak route *)

Module SpeakFacts.

Import SpeakRoute.
Import Dashboard.
Import Scenarios.
Local Open Scope cmd_scope.

(** A request whose body is not JSON gets no response from the handler:
    [await req.json()] rejects and nothing catches it. *)
Lemma POST_rejects_bad_body (V : Type) upstream e :
  POST V upstream (BodyNotJson e) = Js.Rejected e.
Proof. reflexivity. Qed.

(** A failed [fetch] (no connection to the service) is not caught
    either. *)
Lemma POST_rejects_when_fetch_rejects (V : Type) upstream text e :
  upstream text = Js.Rejected e ->
  POST V upstream (BodyValue text) = Js.Rejected e.
Proof. intros H. simpl. rewrite H. reflexivity. Qed.

(** C9 as stated fails: the route does not always respond with status
    200.  For a well-formed request, when the synthesis service cannot be
    reached the handler throws and returns nothing. *)
Lemma speak_route_does_not_always_respond :
  ~ (forall (upstream : option string -> Js.Outcome UpstreamResponse)
            (req : RequestBody string),
        exists r, POST string upstream req = Js.Resolved r /\ status r = 200).
Proof.
  intros H.
  destruct (H (fun _ => Js.Rejected fetchFailed) (BodyValue (Some "hello")))
    as [r [Hr _]].
  discriminate Hr.
Qed.

Lemma headersGet_audio :
  headersGet "content-type" [("Content-Type", "audio/mpeg")] = Some "audio/mpeg".
Proof. reflexivity. Qed.

(** C9, amended. Whenever the request body carries a value and the upstream
    fetch and body read resolve, the route responds with status 200,
    Content-Type audio/mpeg and the upstream bytes, whatever the upstream
    status and content type.  Every response the route returns has that
    shape, so [speakText] sees [res.ok] and an audio content type: it takes
    neither the failure branch nor the browser fallback, and goes on to
    the blob check and playback. *)
Theorem speak_route_response_shape (V : Type)
        (upstream : option V -> Js.Outcome UpstreamResponse) :
  (forall text response audio,
      upstream text = Js.Resolved response ->
      up_body response = Js.Resolved audio ->
      POST V upstream (BodyValue text)
      = Js.Resolved (mkNextResponse 200 [("Content-Type", "audio/mpeg")] audio))
  /\
  (forall req r,
      POST V upstream req = Js.Resolved r ->
      status r = 200
      /\ headers r = [("Content-Type", "audio/mpeg")]
      /\ (exists text response,
            req = BodyValue text
            /\ upstream text = Js.Resolved response
            /\ up_body response = Js.Resolved (body r))
      /\ forall json play spoken id,
            res_ok (received r json play) = true
            /\ speakText_resolved spoken id (received r json play)
               = if Nat.eqb (List.length (body r)) 0 then
                   setAnalysisError "Empty audio response. Please try again." ;;
                   setAiState idle
                 else
                   onBrowser (fun b => withAudios (audios b ++ [id]) b) ;;
                   call (AudioPlay id) ;;
                   match play with
                   | None => skip
                   | Some playError =>
                       setAnalysisError (playErrorMessage playError) ;;
                       setAiState idle
                   end).
Proof.
  split.
  - intros text response audio Hup Hbody. simpl. rewrite Hup, Hbody. reflexivity.
  - intros req r H.
    destruct req as [e| |text]; simpl in H; try discriminate.
    destruct (upstream text) as [response|e] eqn:Hup; try discriminate.
    destruct (up_body response) as [audio|e] eqn:Hbody; try discriminate.
    injection H as <-. simpl.
    split; [reflexivity|]. split; [reflexivity|]. split.
    + exists text, response. auto.
    + intros json play spoken id. split; [reflexivity|].
      unfold speakText_resolved, received.
      cbn [res_ok res_contentType res_blobSize res_play SpeakRoute.status
           SpeakRoute.headers SpeakRoute.body].
      rewrite headersGet_audio.
      reflexivity.
Qed.

(** An upstream 401 with a JSON body still goes out as 200 audio/mpeg. *)
Lemma speak_route_response_shape_witness :
  POST string (fun _ => Js.Resolved unauthorized) (BodyValue (Some "hello"))
  = Js.Resolved (mkNextResponse 200 [("Content-Type", "audio/mpeg")] [123; 125]).
Proof.
  apply (proj1 (speak_route_response_shape string (fun _ => Js.Resolved unauthorized))
               (Some "hello") unauthorized [123; 125]); reflexivity.
Defined.

End SpeakFacts.

(** ** The dashboard page *)

Module DashboardFacts.

Import Dashboard.
Import Scenarios.
Local Open Scope cmd_scope.

(** *** Basic facts *)

Lemma AIState_eqb_refl a : AIState_eqb a a = true.
Proof. apply String.eqb_refl. Qed.

Lemma AIState_eqb_eq a b : AIState_eqb a b = true <-> a = b.
Proof. apply String.eqb_eq. Qed.

Lemma allStates_NoDup : NoDup allStates.
Proof.
  unfold allStates, idle, listening, thinking, speaking, unsure, warning, laugh.
  repeat (constructor; [simpl; intuition discriminate|]).
  constructor.
Qed.

Lemma sameTypingDeps_same p q :
  ingredients p = ingredients q ->
  analyzing p = analyzing q ->
  isListening p = isListening q ->
  sameTypingDeps p q = true.
Proof.
  intros H1 H2 H3. unfold sameTypingDeps. rewrite H1, H2, H3.
  rewrite String.eqb_refl, !Bool.eqb_reflx. reflexivity.
Qed.

(** When the typing dependencies did not change, the effects leave the
    page alone and only the 10-second timer is cleared or set. *)
Lemma effects_same_deps prev s :
  sameTypingDeps prev (page s) = true ->
  page (effects prev s) = page s
  /\ browser (effects prev s)
     = if AIState_eqb (aiState prev) (aiState (page s)) then browser s
       else if AIState_eqb (aiState (page s)) speaking
       then withTimers (S (nextId (browser s)))
              (filter (fun t => negb (owner_eqb (t_owner t) OwnSpeakingEffect))
                      (timers (browser s))
                 ++ [mkTimer (nextId (browser s)) (now (browser s) + 10000)
                       OwnSpeakingEffect (ActSpeakingFallback (aiState (page s)))])
              (browser s)
       else withTimers (nextId (browser s))
              (filter (fun t => negb (owner_eqb (t_owner t) OwnSpeakingEffect))
                      (timers (browser s)))
              (browser s).
Proof.
  intros H. destruct s as [p b].
  unfold effects, seq, typingEffect, speakingEffect. simpl in *.
  destruct (AIState_eqb (aiState prev) (aiState p)) eqn:E1; simpl.
  - rewrite H. rewrite AIState_eqb_refl. auto.
  - destruct (AIState_eqb (aiState p) speaking) eqn:E2; simpl; rewrite H; simpl;
      rewrite AIState_eqb_refl; simpl; split; reflexivity.
Qed.

(** Unless the handler left the page in [listening], the effects do not
    assign [aiState]; in every case they touch only the timers and the
    record of calls. *)
Lemma effects_not_listening prev s :
  aiState (page s) <> listening ->
  page (effects prev s) = page s
  /\ exists n l, browser (effects prev s) = withTimers n l (browser s).
Proof.
  intros Hne. destruct s as [p b]. destruct b.
  assert (Hl : AIState_eqb (aiState p) listening = false).
  { destruct (AIState_eqb (aiState p) listening) eqn:E; [|reflexivity].
    apply AIState_eqb_eq in E. contradiction. }
  unfold effects, seq, typingEffect, speakingEffect.
  cbn [page browser] in *.
  destruct (AIState_eqb (aiState prev) (aiState p));
    [|destruct (AIState_eqb (aiState p) speaking)];
    cbn; destruct (sameTypingDeps prev p); cbn;
    rewrite ?AIState_eqb_refl, ?Hl, ?andb_false_r; cbn;
    repeat match goal with
           | |- context [if ?c then _ else _] => destruct c; cbn
           end;
    rewrite ?AIState_eqb_refl;
    (split; [reflexivity|eexists; eexists; reflexivity]).
Qed.

(** *** Timers *)

Lemma nextTimer_none target l :
  (forall t, In t l -> (target < t_due t)%Z) -> nextTimer target l = None.
Proof.
  induction l as [|t l IH]; intros H; simpl; [reflexivity|].
  rewrite IH by (intros u Hu; apply H; right; exact Hu).
  destruct (Z.leb_spec (t_due t) target) as [Hle|Hgt]; [|reflexivity].
  specialize (H t (or_introl eq_refl)). lia.
Qed.

Lemma nextTimer_last target l u :
  (forall t, In t l -> (target < t_due t)%Z) ->
  (t_due u <= target)%Z ->
  nextTimer target (l ++ [u]) = Some u.
Proof.
  induction l as [|t l IH]; intros H Hu; simpl.
  - destruct (Z.leb_spec (t_due u) target); [reflexivity|lia].
  - rewrite IH by (auto; intros v Hv; apply H; right; exact Hv).
    destruct (Z.leb_spec (t_due t) target) as [Hle|Hgt]; [|reflexivity].
    specialize (H t (or_introl eq_refl)). lia.
Qed.

Lemma advance_none fuel target s :
  nextTimer target (timers (browser s)) = None ->
  advance fuel target s = onBrowser (withClock target) s.
Proof. intros H. destruct fuel; simpl; [reflexivity|]. rewrite H. reflexivity. Qed.

(** A timer whose callback is [() => setAiState("idle")] leaves the page
    idle when it fires, and sets no new timer. *)
Lemma fireTimer_reset_idle t s :
  t_act t = ActResetIdle ->
  aiState (page (fireTimer t s)) = idle
  /\ forall u, In u (timers (browser (fireTimer t s))) ->
               In u (timers (browser s)) /\ t_id u <> t_id t.
Proof.
  intros Hact. destruct s as [p b].
  unfold fireTimer, seq. rewrite Hact. cbn [runTimer page].
  match goal with |- context [effects p ?x] => set (s1 := x) end.
  assert (Hdeps : sameTypingDeps p (page s1) = true)
    by (apply sameTypingDeps_same; reflexivity).
  destruct (effects_same_deps p s1 Hdeps) as (Hp & Hbr).
  rewrite Hp, Hbr. clear Hp Hbr.
  split; [reflexivity|].
  assert (Hin : forall u, In u (timers (browser s1)) ->
                          In u (timers b) /\ t_id u <> t_id t).
  { intros u Hu. cbn in Hu. apply filter_In in Hu. destruct Hu as [Hu Hid].
    split; [exact Hu|]. apply negb_true_iff, Nat.eqb_neq in Hid. exact Hid. }
  change (aiState (page s1)) with idle. cbn [AIState_eqb].
  intros u Hu.
  destruct (AIState_eqb (aiState p) idle); [apply Hin; exact Hu|].
  cbn [timers withTimers] in Hu. apply filter_In in Hu. apply Hin. tauto.
Qed.

(** The timer that [nextTimer] picks is one of the list and is due. *)
Lemma nextTimer_some target l t :
  nextTimer target l = Some t -> In t l /\ (t_due t <= target)%Z.
Proof.
  revert t. induction l as [|u l IH]; intros t; simpl; [discriminate|].
  destruct (nextTimer target l) as [v|].
  - destruct (IH v eq_refl) as [Hin Hdue].
    destruct ((t_due u <=? target)%Z && (t_due u <=? t_due v)%Z) eqn:E;
      intros Heq; injection Heq as <-.
    + apply andb_true_iff in E. destruct E as [E _]. apply Z.leb_le in E. auto.
    + auto.
  - destruct (Z.leb_spec (t_due u) target); [|discriminate].
    intros Heq; injection Heq as <-. auto.
Qed.

Lemma nextTimer_none_inv target l :
  nextTimer target l = None -> forall t, In t l -> (target < t_due t)%Z.
Proof.
  induction l as [|u l IH]; simpl; [intros _ t []|].
  destruct (nextTimer target l) as [v|].
  - destruct (_ && _); discriminate.
  - destruct (Z.leb_spec (t_due u) target); [discriminate|].
    intros _ t [<-|Hin]; [lia|]. apply IH; auto.
Qed.

Lemma filter_shorter {A} (f : A -> bool) l x :
  In x l -> f x = false -> List.length (filter f l) < List.length l.
Proof.
  induction l as [|a l IH]; simpl; [intros []|].
  intros [->|Hin] Hx.
  - rewrite Hx. pose proof (filter_length_le f l). lia.
  - specialize (IH Hin Hx). destruct (f a); simpl; lia.
Qed.

(** Firing a timer removes it and sets no new one. *)
Lemma fireTimer_fewer_timers t s :
  In t (timers (browser s)) ->
  List.length (timers (browser (fireTimer t s))) < List.length (timers (browser s)).
Proof.
  intros Hin. destruct s as [p b]. cbn [browser] in *.
  unfold fireTimer. unfold seq at 1 2.
  set (b1 := withClock (Z.max (now b) (t_due t))
               (withTimers (nextId b)
                  (filter (fun u => negb (Nat.eqb (t_id u) (t_id t))) (timers b)) b)).
  assert (Hlen : List.length (timers b1) < List.length (timers b)).
  { subst b1. cbn [timers withClock withTimers].
    apply (filter_shorter _ _ t Hin). rewrite Nat.eqb_refl. reflexivity. }
  assert (Hfilter : forall (l : list Timer) f, List.length (filter f l) <= List.length l)
    by (intros; apply filter_length_le).
  change (onBrowser _ {| page := p; browser := b |}) with (mkSys p b1).
  cbn [page]. clearbody b1.
  assert (Hcase :
            runTimer (t_act t) (mkSys p b1) = mkSys p b1
            \/ (exists v, runTimer (t_act t) (mkSys p b1) = setAiState v (mkSys p b1)
                          /\ AIState_eqb v speaking = false)
            \/ runTimer (t_act t) (mkSys p b1) = setIsPreparing false (mkSys p b1)).
  { destruct (t_act t); cbn [runTimer].
    - right. left. exists idle. split; reflexivity.
    - destruct (AIState_eqb seen speaking); [|left; reflexivity].
      right. left. exists idle. split; reflexivity.
    - destruct (negb (blank ingr) && negb an); [|left; reflexivity].
      right. left. exists listening. split; reflexivity.
    - right. right. reflexivity. }
  destruct Hcase as [->|[(v & -> & Hv)| ->]].
  - destruct (effects_same_deps p (mkSys p b1)) as (_ & Hb);
      [apply sameTypingDeps_same; reflexivity|].
    rewrite Hb. cbn [page browser]. rewrite AIState_eqb_refl. exact Hlen.
  - destruct (effects_same_deps p (setAiState v (mkSys p b1))) as (_ & Hb);
      [apply sameTypingDeps_same; reflexivity|].
    rewrite Hb. change (aiState (page (setAiState v (mkSys p b1)))) with v.
    rewrite Hv.
    change (timers (browser (setAiState v (mkSys p b1)))) with (timers b1).
    destruct (AIState_eqb (aiState p) v); cbn [timers withTimers].
    + exact Hlen.
    + specialize (Hfilter (timers b1)
                          (fun t0 => negb (owner_eqb (t_owner t0) OwnSpeakingEffect))).
      lia.
  - destruct (effects_same_deps p (setIsPreparing false (mkSys p b1))) as (_ & Hb);
      [apply sameTypingDeps_same; reflexivity|].
    rewrite Hb. cbn [page browser setIsPreparing onPage aiState]. rewrite AIState_eqb_refl.
    exact Hlen.
Qed.

(** With as much fuel as there are timers, [advance] fires every timer that
    is due. *)
Lemma advance_fires_all_due fuel target s :
  List.length (timers (browser s)) <= fuel ->
  forall t, In t (timers (browser (advance fuel target s))) -> (target < t_due t)%Z.
Proof.
  revert s. induction fuel as [|fuel IH]; intros s Hlen; cbn [advance].
  - destruct (timers (browser s)) eqn:E; [|cbn in Hlen; lia].
    intros t Hin. cbn in Hin. rewrite E in Hin. destruct Hin.
  - destruct (nextTimer target (timers (browser s))) as [u|] eqn:E.
    + apply IH. destruct (nextTimer_some _ _ _ E) as [Hin _].
      pose proof (fireTimer_fewer_timers u s Hin). lia.
    + intros t Hin. cbn in Hin. exact (nextTimer_none_inv _ _ E t Hin).
Qed.

Lemma elapse_fires_all_due ms s :
  (0 <= ms)%Z ->
  forall t, In t (timers (browser (elapse ms s))) -> (now (browser s) + ms < t_due t)%Z.
Proof.
  intros Hms. unfold elapse. destruct (Z.ltb_spec ms 0); [lia|].
  apply advance_fires_all_due. lia.
Qed.

(** *** White space *)

Lemma trimEnd_keeps_head c s :
  Js.isWhiteSpace c = false -> Js.trimEnd (String c s) <> EmptyString.
Proof.
  intros Hc. simpl. destruct (Js.trimEnd s); [rewrite Hc|]; discriminate.
Qed.

(** [!ingredients.trim()] holds exactly for the strings made of white
    space only, the empty string among them. *)
Lemma blank_iff_all_white s :
  blank s = forallb Js.isWhiteSpace (list_ascii_of_string s).
Proof.
  unfold blank, Js.trim.
  induction s as [|c s IH]; [reflexivity|].
  cbn [Js.trimStart list_ascii_of_string forallb].
  destruct (Js.isWhiteSpace c) eqn:Hc; [exact IH|].
  pose proof (trimEnd_keeps_head c s Hc) as Hne.
  destruct (Js.trimEnd (String c s)); [contradiction|reflexivity].
Qed.

(** *** The state is always one of the seven values *)

Lemma ws_onPage f s :
  (forall p, aiState (f p) = aiState p) -> wellStated s -> wellStated (onPage f s).
Proof. intros H [H1 H2]. split; [cbn; rewrite H; exact H1|exact H2]. Qed.

Lemma ws_onBrowser f s :
  (forall b, calls (f b) = calls b) -> wellStated s -> wellStated (onBrowser f s).
Proof. intros H [H1 H2]. split; [exact H1|cbn; rewrite H; exact H2]. Qed.

Lemma ws_call c s : validCall c -> wellStated s -> wellStated (call c s).
Proof.
  intros Hc [H1 H2]. split; [exact H1|].
  cbn. apply Forall_app. split; [exact H2|]. constructor; [exact Hc|constructor].
Qed.

Lemma ws_setAiState v s : In v allStates -> wellStated s -> wellStated (setAiState v s).
Proof.
  intros Hv [H1 H2]. split; [exact Hv|].
  cbn. apply Forall_app. split; [exact H2|]. constructor; [exact Hv|constructor].
Qed.

Lemma ws_callMany n c s : validCall c -> wellStated s -> wellStated (callMany n c s).
Proof.
  intros Hc. revert s. induction n as [|n IH]; intros s Hs; cbn; [exact Hs|].
  unfold seq. apply IH, ws_call; assumption.
Qed.

Ltac ws_step :=
  first [ apply ws_setAiState; [unfold allStates; simpl; auto 10|]
        | apply ws_callMany; [exact I|]
        | apply ws_call; [exact I|]
        | apply ws_onPage; [reflexivity|]
        | apply ws_onBrowser; [reflexivity|] ].

(** The handlers, opened up to their setters; [setAiState] stays closed. *)
Ltac open_handlers :=
  unfold effects, speakingEffect, typingEffect, runTimer,
    handleCopilotClick, handleAnalyze, handleAnalyze_resolved, handleAnalyze_rejected,
    speakOrIdle, speakText, speakText_resolved, speakText_rejected, speakWithBrowserTTS,
    audio_onended, audio_onerror, utterance_onend, utterance_onerror,
    handleStopSpeaking, handleStopListening, handleStartListening,
    handleStartListening_granted, handleStartListening_denied,
    recognition_onresult, recognition_onerror, recognition_onstart, recognition_onend,
    fetchAnalyze, fetchSpeak, setTimeout, setTimeoutOwned, clearTimeoutOf,
    setIngredients, setAnalyzing, setAnalysisResult,
    setAnalysisError, setListening, setSpeaking, setMicError, setIsPreparing,
    seq, skip.

Ltac ws :=
  do 2 open_handlers;
  repeat match goal with
         | |- context [if ?c then _ else _] => destruct c
         | |- context [match ?c with Some _ => _ | None => _ end] => destruct c
         end;
  repeat ws_step; assumption.

Lemma wellStated_effects prev s : wellStated s -> wellStated (effects prev s).
Proof. intros Hs. ws. Qed.

Lemma wellStated_handle ev s : wellStated s -> wellStated (handle ev s).
Proof. intros Hs. destruct ev; unfold handle; ws. Qed.

Lemma wellStated_fireTimer t s : wellStated s -> wellStated (fireTimer t s).
Proof.
  intros Hs. unfold fireTimer. unfold seq at 1 2. apply wellStated_effects.
  destruct (t_act t); ws.
Qed.

Lemma wellStated_advance fuel target s :
  wellStated s -> wellStated (advance fuel target s).
Proof.
  revert s. induction fuel as [|fuel IH]; intros s Hs; cbn [advance].
  - exact Hs.
  - destruct (nextTimer target (timers (browser s))).
    + apply IH, wellStated_fireTimer, Hs.
    + exact Hs.
Qed.

Lemma wellStated_fire ev s : wellStated s -> wellStated (fire ev s).
Proof.
  intros Hs. unfold fire.
  assert (H : wellStated ((handle ev ;; effects (page s)) s))
    by (unfold seq; apply wellStated_effects, wellStated_handle, Hs).
  destruct ev; try exact H.
  unfold elapse. destruct (ms <? 0)%Z; [exact Hs|apply wellStated_advance, Hs].
Qed.

Lemma wellStated_exec evs s : wellStated s -> wellStated (exec evs s).
Proof.
  revert s. induction evs as [|ev evs IH]; intros s Hs; cbn; [exact Hs|].
  apply IH, wellStated_fire, Hs.
Qed.

(** C2. The page starts in ["idle"]; after any sequence of events [aiState]
    is one of the seven values, which are distinct; and every assignment
    made to it on the way assigned one of the seven. *)
Theorem aiState_always_one_of_seven
        (r : RecognitionSupport) (synth : bool) (evs : list Event) :
  aiState (page (init r synth)) = idle
  /\ In (aiState (page (exec evs (init r synth)))) allStates
  /\ (forall v, In (SetAiState v) (calls (browser (exec evs (init r synth)))) ->
                In v allStates)
  /\ NoDup allStates
  /\ List.length allStates = 7.
Proof.
  assert (Hws : wellStated (exec evs (init r synth))).
  { apply wellStated_exec. split; [left; reflexivity|constructor]. }
  destruct Hws as [Hin Hcalls].
  split; [reflexivity|].
  split; [exact Hin|].
  split; [|split; [apply allStates_NoDup|reflexivity]].
  intros v Hv. rewrite Forall_forall in Hcalls. exact (Hcalls _ Hv).
Qed.

(** An execution for C2: the state after [twoPlaybacks]. *)
Lemma aiState_always_one_of_seven_witness :
  In (aiState (page (exec twoPlaybacks start))) allStates
  /\ In speaking allStates.
Proof.
  destruct (aiState_always_one_of_seven RecognitionAvailable true twoPlaybacks)
    as (_ & Hin & Hset & _).
  split; [exact Hin|].
  apply Hset. vm_compute. auto 20.
Defined.

(** *** Empty input *)

Lemma fire_analyze_blank s :
  blank (ingredients (page s)) = true ->
  let s' := fire AnalyzeClick s in
  page s' = mkPage warning (ingredients (page s)) (analyzing (page s))
              (analysisResult (page s)) emptyInputMessage (isListening (page s))
              (isSpeaking (page s)) (micError (page s)) (isPreparing (page s))
  /\ calls (browser s') = calls (browser s) ++ [SetAiState warning]
  /\ analyzeFetches (browser s') = analyzeFetches (browser s)
  /\ now (browser s') = now (browser s)
  /\ exists L,
       timers (browser s')
       = L ++ [mkTimer (nextId (browser s)) (now (browser s) + 3000) OwnNone ActResetIdle]
       /\ forall t, In t L -> In t (timers (browser s)).
Proof.
  intros Hb s'. subst s'. destruct s as [p b].
  unfold fire, seq, handle, handleAnalyze. cbn [page browser] in *. rewrite Hb.
  match goal with |- context [effects p ?x] => set (s1 := x) end.
  assert (Hdeps : sameTypingDeps p (page s1) = true)
    by (apply sameTypingDeps_same; reflexivity).
  destruct (effects_same_deps p s1 Hdeps) as (Hp & Hbr).
  rewrite Hp, Hbr. clear Hp Hbr.
  split; [reflexivity|].
  cbn [page s1 seq setAnalysisError setAiState withAiState call setTimeout
       setTimeoutOwned onPage onBrowser browser aiState].
  destruct (AIState_eqb (aiState p) warning); cbn.
  - do 3 (split; [reflexivity|]).
    exists (timers b). split; [reflexivity|auto].
  - do 3 (split; [reflexivity|]).
    exists (filter (fun t => negb (owner_eqb (t_owner t) OwnSpeakingEffect)) (timers b)).
    split.
    + rewrite filter_app. reflexivity.
    + intros t Ht. apply filter_In in Ht. tauto.
Qed.

(** Calling [handleAnalyze] with empty or white-space-only input starts no
    analysis request: it assigns [warning] and the message, and calls
    nothing else.  When no timer set earlier is due in the next three
    seconds and no event arrives, the state is still [warning] at every
    instant before 3000 ms and is [idle] at 3000 ms. *)
Lemma blank_analyze_holds_warning (s : Sys) :
  forallb Js.isWhiteSpace (list_ascii_of_string (ingredients (page s))) = true ->
  (forall t, In t (timers (browser s)) -> (now (browser s) + 3000 < t_due t)%Z) ->
  let s' := fire AnalyzeClick s in
  aiState (page s') = warning
  /\ analysisError (page s') = "Please enter ingredients to analyze"
  /\ calls (browser s') = calls (browser s) ++ [SetAiState warning]
  /\ analyzeFetches (browser s') = analyzeFetches (browser s)
  /\ (forall ms, (0 <= ms < 3000)%Z -> aiState (page (fire (Elapse ms) s')) = warning)
  /\ aiState (page (fire (Elapse 3000) s')) = idle.
Proof.
  intros Hb Hlate s'. rewrite <- blank_iff_all_white in Hb.
  destruct (fire_analyze_blank s Hb) as (Hp & Hc & Hf & Hn & L & Ht & HL).
  fold s' in Hp, Hc, Hf, Hn, Ht. clearbody s'.
  split; [rewrite Hp; reflexivity|].
  split; [rewrite Hp; reflexivity|].
  split; [exact Hc|]. split; [exact Hf|].
  split.
  - intros ms Hms. unfold fire, elapse.
    destruct (Z.ltb_spec ms 0) as [Hneg|_]; [lia|].
    rewrite advance_none.
    + unfold onBrowser. cbn [page]. rewrite Hp. reflexivity.
    + apply nextTimer_none. intros t Hin. rewrite Ht in Hin.
      apply in_app_or in Hin. destruct Hin as [Hin|[<-|[]]].
      * specialize (Hlate t (HL t Hin)). lia.
      * cbn [t_due]. lia.
  - unfold fire, elapse. cbn [Z.ltb Z.compare].
    rewrite Ht, length_app, Nat.add_comm. cbn [List.length Nat.add advance].
    rewrite Ht, nextTimer_last.
    + set (new := mkTimer _ _ _ _).
      destruct (fireTimer_reset_idle new s' eq_refl) as (Hidle & Hrest).
      rewrite advance_none.
      * unfold onBrowser. cbn [page]. exact Hidle.
      * apply nextTimer_none. intros u Hu. apply Hrest in Hu. destruct Hu as [Hu Hid].
        rewrite Ht in Hu. apply in_app_or in Hu. destruct Hu as [Hu|[<-|[]]].
        -- specialize (Hlate u (HL u Hu)). lia.
        -- exfalso. apply Hid. reflexivity.
    + intros t Hin. specialize (Hlate t (HL t Hin)). lia.
    + cbn [t_due]. lia.
Qed.


(** *** Voice capture *)

Lemma cv_onPage f s : captureView (onPage f s) = captureView s.
Proof. reflexivity. Qed.

Lemma cv_onBrowser f s :
  (forall b, calls (f b) = calls b /\ probes (f b) = probes b) ->
  captureView (onBrowser f s) = captureView s.
Proof.
  intros H. unfold captureView, onBrowser. cbn [browser].
  destruct (H (browser s)) as [-> ->]. reflexivity.
Qed.

Lemma cv_call c s :
  isRecognitionStart c = false ->
  isGetUserMedia c = false ->
  captureView (call c s) = captureView s.
Proof.
  intros H1 H2. unfold captureView, call, onBrowser. cbn.
  rewrite !filter_app. cbn. rewrite H1, H2, !app_nil_r. reflexivity.
Qed.

Ltac cv_step :=
  first [ rewrite cv_onPage
        | rewrite cv_call by reflexivity
        | rewrite cv_onBrowser by (intros; split; reflexivity) ].

Ltac open_cmds := do 2 open_handlers; unfold setAiState, withAiState, seq.

Ltac split_ifs :=
  repeat match goal with
         | |- context [if ?c then _ else _] => destruct c
         | |- context [match ?c with Some _ => _ | None => _ end] => destruct c
         end.

(** Commands that neither probe nor start recognition leave the capture
    view as it is. *)
Ltac cv := open_cmds; split_ifs; repeat cv_step; reflexivity.

Lemma captureView_effects prev s : captureView (effects prev s) = captureView s.
Proof. cv. Qed.

Lemma captureView_fireTimer t s : captureView (fireTimer t s) = captureView s.
Proof.
  unfold fireTimer. unfold seq at 1 2. rewrite captureView_effects.
  destruct (t_act t); cv.
Qed.

Lemma captureView_advance fuel target s :
  captureView (advance fuel target s) = captureView s.
Proof.
  revert s. induction fuel as [|fuel IH]; intros s; cbn [advance].
  - reflexivity.
  - destruct (nextTimer target (timers (browser s))).
    + rewrite IH. apply captureView_fireTimer.
    + reflexivity.
Qed.

Lemma probedBeforeStart_view s s' :
  captureView s' = captureView s -> probedBeforeStart s -> probedBeforeStart s'.
Proof.
  unfold captureView, probedBeforeStart. intros H. injection H as -> -> ->. auto.
Qed.

Lemma callMany_calls n c s :
  callMany n c s = onBrowser (fun b => withCalls (calls b ++ repeat c n) b) s.
Proof.
  revert s. induction n as [|n IH]; intros [p b]; cbn.
  - unfold skip, onBrowser, withCalls. cbn. rewrite app_nil_r. destruct b; reflexivity.
  - unfold seq. rewrite IH. unfold call, onBrowser, withCalls. cbn.
    rewrite <- app_assoc. reflexivity.
Qed.

Lemma filter_repeat_TrackStop (f : Call -> bool) n :
  f TrackStop = false -> filter f (repeat TrackStop n) = [].
Proof. intros H. induction n; cbn; [reflexivity|]. rewrite H. exact IHn. Qed.

Lemma removeId_shorter id l :
  hasId id l = true -> List.length (removeId id l) < List.length l.
Proof.
  unfold hasId, removeId. induction l as [|i l IH]; cbn; [discriminate|].
  rewrite (Nat.eqb_sym id i).
  destruct (Nat.eqb i id) eqn:E; cbn.
  - intros _. pose proof (filter_length_le (fun j => negb (Nat.eqb j id)) l). lia.
  - intros H. specialize (IH H). lia.
Qed.

(** Every turn of the event loop keeps [probedBeforeStart]. *)
Lemma probedBeforeStart_fire ev s :
  probedBeforeStart s -> probedBeforeStart (fire ev s).
Proof.
  intros HI.
  destruct ev; unfold fire;
    try (apply (probedBeforeStart_view s); [|exact HI];
         unfold seq at 1; rewrite captureView_effects; unfold handle; cv).
  - (* StartListeningClick *)
    unfold seq at 1. apply (probedBeforeStart_view (handle (StartListeningClick stopThrows) s));
      [apply captureView_effects|].
    unfold handle, handleStartListening.
    destruct (negb (recognitionRef (browser s)));
      [apply (probedBeforeStart_view s); [cv|exact HI]|].
    destruct (isListening (page s));
      [apply (probedBeforeStart_view s); [cv|exact HI]|].
    unfold probedBeforeStart in *. unfold seq, call, onBrowser. cbn.
    rewrite !filter_app, !length_app. cbn. lia.
  - (* ProbeGranted *)
    unfold seq at 1. apply (probedBeforeStart_view (handle (ProbeGranted id tracks startError) s));
      [apply captureView_effects|].
    unfold handle. destruct (hasId id (probes (browser s))) eqn:Hid; [|exact HI].
    pose proof (removeId_shorter _ _ Hid) as Hlt.
    unfold handleStartListening_granted, seq. rewrite callMany_calls.
    unfold probedBeforeStart in *.
    destruct startError; unfold seq, call, onBrowser, setAiState, setMicError, setListening,
      withAiState, onPage; cbn;
      rewrite !filter_app, ?filter_repeat_TrackStop by reflexivity;
      rewrite !length_app; cbn; lia.
  - (* ProbeDenied *)
    unfold seq at 1. apply (probedBeforeStart_view (handle (ProbeDenied id e) s));
      [apply captureView_effects|].
    unfold handle. destruct (hasId id (probes (browser s))) eqn:Hid; [|exact HI].
    pose proof (removeId_shorter _ _ Hid) as Hlt.
    unfold handleStartListening_denied, probedBeforeStart in *.
    unfold seq, call, onBrowser, setAiState, setMicError, setListening, withAiState, onPage.
    cbn. rewrite !filter_app, !length_app. cbn. lia.
  - (* Elapse *)
    apply (probedBeforeStart_view s); [|exact HI].
    unfold elapse. destruct (ms <? 0)%Z; [reflexivity|apply captureView_advance].
Qed.

Lemma probedBeforeStart_exec evs s :
  probedBeforeStart s -> probedBeforeStart (exec evs s).
Proof.
  revert s. induction evs as [|ev evs IH]; intros s HI; cbn; [exact HI|].
  apply IH, probedBeforeStart_fire, HI.
Qed.

Lemma probeErrorMessage_classes :
  probeErrorMessage (Js.mkError "NotAllowedError" "x")
  = "Microphone permission denied. Please allow microphone access in your browser settings and try again."
  /\ probeErrorMessage (Js.mkError "NotFoundError" "x")
     = "No microphone found. Please connect a microphone and try again."
  /\ probeErrorMessage (Js.mkError "NotReadableError" "x")
     = "Microphone is being used by another application. Please close other apps using the microphone."
  /\ probeErrorMessage (Js.mkError "OtherError" "x") = "x"
  /\ probeErrorMessage (Js.mkError "OtherError" EmptyString) = "Microphone access denied.".
Proof. repeat split; reflexivity. Qed.

(** The message that the [catch] of the permission request chooses, by
    the name of the error. *)
Lemma probeErrorMessage_classified e :
  (Js.name e = "NotAllowedError" \/ Js.name e = "PermissionDeniedError" ->
   probeErrorMessage e
   = "Microphone permission denied. Please allow microphone access in your browser settings and try again.")
  /\ (Js.name e = "NotFoundError" \/ Js.name e = "DevicesNotFoundError" ->
      probeErrorMessage e
      = "No microphone found. Please connect a microphone and try again.")
  /\ (Js.name e = "NotReadableError" \/ Js.name e = "TrackStartError" ->
      probeErrorMessage e
      = "Microphone is being used by another application. Please close other apps using the microphone.")
  /\ (~ In (Js.name e)
           [ "NotAllowedError"; "PermissionDeniedError"; "NotFoundError";
             "DevicesNotFoundError"; "NotReadableError"; "TrackStartError" ] ->
      probeErrorMessage e
      = if Js.truthyString (Js.message e) then Js.message e
        else "Microphone access denied.").
Proof.
  unfold probeErrorMessage.
  split; [|split; [|split]].
  - intros [->| ->]; reflexivity.
  - intros [->| ->]; reflexivity.
  - intros [->| ->]; reflexivity.
  - intros Hn.
    repeat match goal with
           | |- context [String.eqb (Js.name e) ?k] =>
               destruct (String.eqb_spec (Js.name e) k) as [Heq|_];
               [exfalso; apply Hn; rewrite Heq; simpl; auto 10|]
           end.
    reflexivity.
Qed.

(** C7. Pressing the record button (recognition initialised, not yet
    listening) only requests the microphone.  When the request is granted
    the handler stops every track of the stream and only then starts
    recognition.  When it is denied or fails, recognition is not started,
    [micError] gets the message for the kind of failure (permission
    denied, no microphone, microphone in use, and otherwise the error's
    own message or a default), and [aiState] is [idle].  Over any sequence
    of events, every recognition session started has used up a permission
    probe of its own. *)
Theorem start_listening_probes_then_releases (s : Sys) :
  (forall stopThrows,
      recognitionRef (browser s) = true ->
      isListening (page s) = false ->
      let s1 := fire (StartListeningClick stopThrows) s in
      calls (browser s1) = calls (browser s) ++ [GetUserMedia]
      /\ probes (browser s1) = probes (browser s) ++ [nextId (browser s)]
      /\ recognizing (browser s1) = recognizing (browser s)
      /\ page s1 = page s)
  /\ (forall id tracks,
      hasId id (probes (browser s)) = true ->
      let s2 := fire (ProbeGranted id tracks None) s in
      calls (browser s2)
      = calls (browser s) ++ repeat TrackStop tracks
          ++ [RecognitionStart; SetAiState listening]
      /\ recognizing (browser s2) = true
      /\ aiState (page s2) = listening)
  /\ (forall id e,
      hasId id (probes (browser s)) = true ->
      let s3 := fire (ProbeDenied id e) s in
      calls (browser s3) = calls (browser s) ++ [SetAiState idle]
      /\ recognizing (browser s3) = recognizing (browser s)
      /\ micError (page s3) = Some (probeErrorMessage e)
      /\ aiState (page s3) = idle
      /\ (Js.name e = "NotAllowedError" \/ Js.name e = "PermissionDeniedError" ->
          micError (page s3)
          = Some "Microphone permission denied. Please allow microphone access in your browser settings and try again.")
      /\ (Js.name e = "NotFoundError" \/ Js.name e = "DevicesNotFoundError" ->
          micError (page s3)
          = Some "No microphone found. Please connect a microphone and try again.")
      /\ (Js.name e = "NotReadableError" \/ Js.name e = "TrackStartError" ->
          micError (page s3)
          = Some "Microphone is being used by another application. Please close other apps using the microphone.")
      /\ (~ In (Js.name e)
               [ "NotAllowedError"; "PermissionDeniedError"; "NotFoundError";
                 "DevicesNotFoundError"; "NotReadableError"; "TrackStartError" ] ->
          micError (page s3)
          = Some (if Js.truthyString (Js.message e) then Js.message e
                  else "Microphone access denied.")))
  /\ (forall r synth evs, probedBeforeStart (exec evs (init r synth))).
Proof.
  split; [|split; [|split]].
  - intros st Href Hl s1. subst s1. unfold fire, seq, handle, handleStartListening.
    rewrite Href, Hl. cbn [negb].
    match goal with |- context [effects ?q ?x] => set (s1 := x) end.
    destruct (effects_same_deps (page s) s1) as (Hp & Hb);
      [apply sameTypingDeps_same; reflexivity|].
    rewrite Hp, Hb. change (aiState (page s1)) with (aiState (page s)).
    rewrite AIState_eqb_refl. repeat split.
  - intros id tracks Hid s2. subst s2. unfold fire, seq, handle.
    rewrite Hid. unfold handleStartListening_granted, seq. rewrite callMany_calls.
    match goal with |- context [effects ?q ?x] => set (s1 := x) end.
    destruct (effects_same_deps (page s) s1) as (Hp & Hb);
      [apply sameTypingDeps_same; reflexivity|].
    rewrite Hp, Hb.
    assert (Hc : calls (browser s1)
                 = calls (browser s) ++ repeat TrackStop tracks
                     ++ [RecognitionStart; SetAiState listening])
      by (cbn; rewrite <- !app_assoc; reflexivity).
    assert (Hr : recognizing (browser s1) = true) by reflexivity.
    split; [|split; [|reflexivity]].
    + destruct (AIState_eqb _ _); [exact Hc|].
      destruct (AIState_eqb _ _); exact Hc.
    + destruct (AIState_eqb _ _); [exact Hr|].
      destruct (AIState_eqb _ _); exact Hr.
  - intros id e Hid s3. subst s3. unfold fire, seq, handle.
    rewrite Hid. unfold handleStartListening_denied, seq.
    match goal with |- context [effects ?q ?x] => set (s1 := x) end.
    destruct (effects_not_listening (page s) s1) as (Hp & n & l & Hb);
      [cbn; discriminate|].
    rewrite Hp, Hb.
    change (micError (page s1)) with (Some (probeErrorMessage e)).
    destruct (probeErrorMessage_classified e) as (H1 & H2 & H3 & H4).
    do 4 (split; [reflexivity|]).
    split; [intros H; rewrite (H1 H); reflexivity|].
    split; [intros H; rewrite (H2 H); reflexivity|].
    split; [intros H; rewrite (H3 H); reflexivity|].
    intros H. rewrite (H4 H). reflexivity.
  - intros r synth evs. apply probedBeforeStart_exec.
    unfold probedBeforeStart. cbn. lia.
Qed.

(** The record button on a fresh page, then a two-track stream. *)
Lemma start_listening_probes_then_releases_witness :
  calls (browser (exec (probeInFlight ++ [ProbeGranted 0 2 None]) start))
  = [GetUserMedia; TrackStop; TrackStop; RecognitionStart; SetAiState listening]
  /\ calls (browser (exec (probeInFlight ++ [ProbeDenied 0 notAllowed]) start))
     = [GetUserMedia; SetAiState idle]
  /\ micError (page (exec (probeInFlight ++ [ProbeDenied 0 notAllowed]) start))
     = Some "Microphone permission denied. Please allow microphone access in your browser settings and try again.".
Proof.
  pose proof (start_listening_probes_then_releases (exec probeInFlight start))
    as (_ & Hgranted & Hdenied & _).
  destruct (Hgranted 0 2 eq_refl) as (Hc & _).
  destruct (Hdenied 0 notAllowed eq_refl) as (Hc' & _ & Hm & _).
  split; [exact Hc|]. split; [exact Hc'|exact Hm].
Defined.

(** *** The browser fallback *)

Lemma lookupKey_app_same {A} id (x : A) l :
  lookupKey id (l ++ [(id, x)]) <> None.
Proof.
  induction l as [|[i a] l IH]; cbn.
  - rewrite Nat.eqb_refl. discriminate.
  - destruct (Nat.eqb i id); [discriminate|exact IH].
Qed.

(** The end of an utterance makes the page idle and sets no message. *)
Lemma utterance_end_idles s u text :
  lookupKey u (utterances (browser s)) = Some text ->
  aiState (page (fire (UtteranceEnd u) s)) = idle
  /\ analysisError (page (fire (UtteranceEnd u) s)) = analysisError (page s).
Proof.
  intros H. unfold fire, seq, handle. rewrite H.
  match goal with |- context [effects ?q ?x] => set (s1 := x) end.
  destruct (effects_not_listening (page s) s1) as (Hp & _); [cbn; discriminate|].
  rewrite Hp. split; reflexivity.
Qed.

(** In a browser without speech synthesis [speakWithBrowserTTS] cannot
    speak: it reports that and leaves the page idle. *)
Lemma fallback_without_synthesis s text :
  speechSynthesisInWindow (browser s) = false ->
  analysisError (page (speakWithBrowserTTS text s))
  = "Your browser doesn't support speech synthesis. Please use Chrome, Edge, or Safari."
  /\ aiState (page (speakWithBrowserTTS text s)) = idle
  /\ utterances (browser (speakWithBrowserTTS text s)) = utterances (browser s).
Proof.
  intros H. unfold speakWithBrowserTTS. rewrite H. repeat split.
Qed.

(** C6. When /api/speak answers a request for [text] with a non-OK status
    and a JSON body carrying [useBrowserTTS], [speakText] hands the same
    [text] to [speakWithBrowserTTS] and sets no message of its own.  In a
    browser with speech synthesis the message is left as it was, the text
    is queued as an utterance, and the page is idle, still without a
    message, when that utterance ends. *)
Theorem fallback_signal_uses_browser_tts
        (s : Sys) (id : nat) (text : string) (res : SpeakResponse) (d : ErrorData) :
  lookupKey id (speakFetches (browser s)) = Some text ->
  res_ok res = false ->
  res_json res = Some d ->
  useBrowserTTS d = true ->
  let s' := fire (SpeakResolved id res) s in
  handle (SpeakResolved id res) s
  = speakWithBrowserTTS text
      (onBrowser (fun b => withSpeakFetches (nextId b) (removeKey id (speakFetches b)) b) s)
  /\ (speechSynthesisInWindow (browser s) = true ->
      analysisError (page s') = analysisError (page s)
      /\ aiState (page s') = speaking
      /\ calls (browser s')
         = calls (browser s) ++ [SetAiState speaking; SynthCancel; SynthSpeak text]
      /\ utterances (browser s') = utterances (browser s) ++ [(nextId (browser s), text)]
      /\ aiState (page (fire (UtteranceEnd (nextId (browser s))) s')) = idle
      /\ analysisError (page (fire (UtteranceEnd (nextId (browser s))) s'))
         = analysisError (page s)).
Proof.
  intros Hk Hok Hj Hflag s'.
  assert (Hh : handle (SpeakResolved id res) s
               = speakWithBrowserTTS text
                   (onBrowser (fun b => withSpeakFetches (nextId b)
                                          (removeKey id (speakFetches b)) b) s)).
  { unfold handle. rewrite Hk. unfold seq, speakText_resolved.
    rewrite Hok, Hj, Hflag. reflexivity. }
  split; [exact Hh|]. intros Hsynth.
  assert (Hs' : page s' = page (handle (SpeakResolved id res) s)
                /\ exists n l, browser s'
                               = withTimers n l (browser (handle (SpeakResolved id res) s))).
  { subst s'. unfold fire, seq. apply effects_not_listening.
    rewrite Hh. unfold speakWithBrowserTTS.
    cbn [onBrowser browser withSpeakFetches speechSynthesisInWindow].
    rewrite Hsynth. cbn. discriminate. }
  destruct Hs' as (Hp & n & l & Hb). clearbody s'.
  rewrite Hh in Hp, Hb. unfold speakWithBrowserTTS in Hp, Hb.
  cbn [onBrowser browser withSpeakFetches speechSynthesisInWindow] in Hp, Hb.
  rewrite Hsynth in Hp, Hb. cbn in Hp, Hb.
  assert (Hu : utterances (browser s')
               = utterances (browser s) ++ [(nextId (browser s), text)])
    by (rewrite Hb; reflexivity).
  split; [rewrite Hp; reflexivity|].
  split; [rewrite Hp; reflexivity|].
  split; [rewrite Hb; cbn; rewrite <- !app_assoc; reflexivity|].
  split; [exact Hu|].
  destruct (lookupKey (nextId (browser s)) (utterances (browser s'))) as [t|] eqn:Hl.
  - destruct (utterance_end_idles s' _ _ Hl) as (H1 & H2).
    split; [exact H1|]. rewrite H2, Hp. reflexivity.
  - exfalso. rewrite Hu in Hl. exact (lookupKey_app_same _ _ _ Hl).
Qed.

(** The answer to "sugar" is requested from /api/speak, which replies 401
    with the fallback flag. *)
Lemma fallback_signal_uses_browser_tts_witness :
  let s := exec speakInFlight start in
  let s' := fire (SpeakResolved 3 fallbackReply) s in
  analysisError (page s') = EmptyString
  /\ calls (browser s')
     = calls (browser s) ++ [SetAiState speaking; SynthCancel; SynthSpeak "Sugar is fine"]
  /\ aiState (page (fire (UtteranceEnd (nextId (browser s))) s')) = idle
  /\ analysisError (page (fire (UtteranceEnd (nextId (browser s))) s')) = EmptyString.
Proof.
  intros s s'.
  destruct (fallback_signal_uses_browser_tts s 3 "Sugar is fine" fallbackReply
              (mkErrorData true (Some "Unauthorized")))
    as (_ & H); try reflexivity.
  destruct (H eq_refl) as (He & _ & Hc & _ & Hi & He').
  split; [exact He|]. split; [exact Hc|]. split; [exact Hi|exact He'].
Defined.

(** *** Completions of superseded operations *)

Lemma run_exec evs s s' : run evs s = Some s' -> s' = exec evs s.
Proof.
  revert s. induction evs as [|ev evs IH]; intros s; cbn.
  - intros H. injection H as <-. reflexivity.
  - destruct (enabled ev s); [apply IH|discriminate].
Qed.

Lemma twoPlaybacks_runs : run twoPlaybacks start = Some (exec twoPlaybacks start).
Proof. vm_compute. reflexivity. Qed.

(** C1 as stated fails.  After [twoPlaybacks] audio 3 and the later audio 9
    both play and the page is [speaking]; the end of audio 3 makes it
    [idle]. *)
Lemma stale_playback_end_alters_state : ~ staleCompletionsDiscarded.
Proof.
  intros H.
  specialize (H RecognitionAvailable true twoPlaybacks (exec twoPlaybacks start)
                (AudioEnded 3) twoPlaybacks_runs eq_refl).
  vm_compute in H. discriminate H.
Qed.

(** C1, amended. No completion is discarded: whenever the operation that
    an event completes is in flight, its callback runs and assigns
    [aiState] the value fixed by the event alone, whether or not an
    operation of the same class was started after it. *)
Theorem completion_applies_unconditionally (ev : Event) (s : Sys) (t : AIState) :
  enabled ev s = true ->
  completionTarget (speechSynthesisInWindow (browser s)) ev = Some t ->
  aiState (page (handle ev s)) = t.
Proof.
  intros He Ht. destruct s as [p b].
  destruct ev; cbn [completionTarget] in Ht; try discriminate Ht;
    cbn [enabled page browser] in He; cbn [handle browser page];
    try rewrite He.
  all: try (injection Ht as <-; reflexivity).
  - (* AnalyzeResolved *)
    unfold handleAnalyze_resolved, speakOrIdle, Js.truthyOptString in *.
    destruct (ar_ok r); cbn in Ht |- *; [|injection Ht as <-; reflexivity].
    destruct (uncertainOrLow (ar_data r));
      destruct (d_text (ar_data r)) as [text|]; cbn in Ht |- *;
      try destruct (Js.truthyString text); injection Ht as <-; reflexivity.
  - (* SpeakResolved *)
    destruct (lookupKey id (speakFetches b)) as [text|]; [|discriminate He].
    unfold speakText_resolved, speakWithBrowserTTS in *.
    destruct (res_ok res); cbn in Ht |- *.
    + destruct (isAudioType (res_contentType res)); cbn in Ht |- *;
        [|injection Ht as <-; reflexivity].
      destruct (Nat.eqb (res_blobSize res) 0); cbn in Ht |- *;
        [injection Ht as <-; reflexivity|].
      destruct (res_play res); [injection Ht as <-; reflexivity|discriminate Ht].
    + destruct (useBrowserTTS _); cbn in Ht |- *; [|injection Ht as <-; reflexivity].
      destruct (speechSynthesisInWindow b); injection Ht as <-; reflexivity.
  - destruct (lookupKey id (speakFetches b));
      [injection Ht as <-; reflexivity|discriminate He].
  - destruct (lookupKey id (utterances b));
      [injection Ht as <-; reflexivity|discriminate He].
  - destruct (lookupKey id (utterances b));
      [injection Ht as <-; reflexivity|discriminate He].
  - destruct startError; injection Ht as <-; reflexivity.
  - destruct transcript; injection Ht as <-; reflexivity.
Qed.

(** The superseded audio 3 of [twoPlaybacks]: its [ended] callback assigns
    [idle]. *)
Lemma completion_applies_unconditionally_witness :
  superseded (AudioEnded 3) (exec twoPlaybacks start) = true
  /\ aiState (page (handle (AudioEnded 3) (exec twoPlaybacks start))) = idle.
Proof.
  split; [reflexivity|].
  apply (completion_applies_unconditionally (AudioEnded 3) (exec twoPlaybacks start) idle);
    reflexivity.
Defined.

(** *** Auto-reset timers *)

(** The 10-second fallback is cleared by its effect's cleanup as soon as
    [aiState] changes to a value other than [speaking]. *)
Lemma speakingEffect_clears prev s t :
  AIState_eqb prev (aiState (page s)) = false ->
  AIState_eqb (aiState (page s)) speaking = false ->
  In t (timers (browser (speakingEffect prev s))) ->
  t_owner t <> OwnSpeakingEffect.
Proof.
  intros Hch Hsp. unfold speakingEffect. rewrite Hch, Hsp.
  unfold seq, skip, clearTimeoutOf, onBrowser. cbn.
  intros Hin Hown. apply filter_In in Hin. destruct Hin as [_ Hin].
  rewrite Hown in Hin. discriminate Hin.
Qed.

(** C3 at a failing run.  The mascot is clicked at 0 ms ([laugh], reset
    timer due at 3000 ms); "sugar" is submitted at 1200 ms ([thinking],
    request 3 in flight).  The state is [thinking] up to 2999 ms; at
    3000 ms the laugh timer fires and assigns [idle] although the state it
    was set for is gone and request 3 is still in flight. *)
Theorem laugh_timer_overwrites_thinking :
  let s := exec clickThenAnalyze start in
  run clickThenAnalyze start = Some s
  /\ aiState (page s) = thinking
  /\ analyzeFetches (browser s) = [3]
  /\ In (mkTimer 0 3000 OwnNone ActResetIdle) (timers (browser s))
  /\ now (browser s) = 1200%Z
  /\ aiState (page (fire (Elapse 1799) s)) = thinking
  /\ aiState (page (fire (Elapse 1800) s)) = idle
  /\ analyzing (page (fire (Elapse 1800) s)) = true
  /\ analyzeFetches (browser (fire (Elapse 1800) s)) = [3].
Proof.
  vm_compute. repeat split; auto.
Qed.

(** *** Uncertain answers *)

(** When the test of [handleAnalyze] holds, [unsure] is assigned before
    anything else is done with the answer. *)
Lemma uncertain_reply_assigns_unsure_first id r s :
  hasId id (analyzeFetches (browser s)) = true ->
  ar_ok r = true ->
  uncertainOrLow (ar_data r) = true ->
  exists rest,
    calls (browser (handle (AnalyzeResolved id r) s))
    = calls (browser s) ++ SetAiState unsure :: rest.
Proof.
  intros Hid Hok Hu. unfold handle. rewrite Hid.
  unfold seq at 1. unfold handleAnalyze_resolved. rewrite Hok, Hu. cbn [negb].
  unfold speakOrIdle.
  destruct (d_text (ar_data r)) as [text|]; [destruct (Js.truthyString text)|];
    cbn; rewrite <- ?app_assoc; eexists; reflexivity.
Qed.

(** An answer that is not flagged, whose confidence is not below 0.7 and
    whose text is not empty is spoken, and [speaking] is the only state
    assigned. *)
Lemma confident_reply_speaks id text c s :
  hasId id (analyzeFetches (browser s)) = true ->
  PrimFloat.ltb c 0.7 = false ->
  Js.truthyString text = true ->
  calls (browser (handle (AnalyzeResolved id
                            (mkAnalyzeResponse true (mkData (Some text) (Some c) (Some false)))) s))
  = calls (browser s) ++ [SetAiState speaking; FetchSpeak text].
Proof.
  intros Hid Hc Ht. unfold handle. rewrite Hid.
  unfold seq at 1. unfold handleAnalyze_resolved, uncertainOrLow, speakOrIdle.
  cbn [ar_ok ar_data d_text d_confidence d_isUncertain negb Js.truthyOptBool orb].
  rewrite Hc, andb_false_r, Ht.
  cbn. rewrite <- !app_assoc. reflexivity.
Qed.

End DashboardFacts.

(** ** The process-image route *)

Module ProcessImageFacts.
Import ProcessImageRoute.

Lemma POST_status_cases auth form : In (status (POST auth form)) [200; 400; 401; 500].
Proof.
  unfold POST. destruct auth as [a|e]; [|simpl; auto].
  destruct (authError a), (user a); simpl; auto.
  destruct form as [[|v|f]|e]; simpl; auto.
  - destruct (Js.truthyString v); simpl; auto.
  - destruct (negb (isImageType (f_type f))); simpl; auto.
    destruct (maxSize <? f_size f)%N; simpl; auto.
Qed.

(** X1. The process-image route answers 200 exactly when the caller is
    signed in and the form field [image] is a file whose type starts with
    ["image/"] and whose size is at most 10 MB (10485760 bytes, inclusive);
    the body then echoes the file's name, size and type beside the fixed
    labels and confidence; and the status is always one of 200, 400, 401
    and 500, because every exception is caught. *)
Theorem process_image_accepts_exactly
        (auth : Js.Outcome AuthResult) (form : Js.Outcome FormEntry) :
  (status (POST auth form) = 200
   <-> exists a u f,
        auth = Js.Resolved a /\ authError a = None /\ user a = Some u
        /\ form = Js.Resolved (FileEntry f)
        /\ String.prefix "image/" (f_type f) = true
        /\ (f_size f <= 10485760)%N)
  /\ (forall f,
        status (POST auth form) = 200 ->
        form = Js.Resolved (FileEntry f) ->
        body (POST auth form)
        = ResultBody ["cat"; "animal"; "pet"; "feline"] 0.92
                     (f_name f) (f_size f) (f_type f))
  /\ In (status (POST auth form)) [200; 400; 401; 500].
Proof.
  split; [|split; [|apply POST_status_cases]].
  - split.
    + unfold POST. destruct auth as [a|e]; [|discriminate].
      destruct (authError a) eqn:Ea, (user a) eqn:Eu; try discriminate.
      destruct form as [[|v|f]|e]; try discriminate.
      * destruct (Js.truthyString v); discriminate.
      * unfold isImageType.
        destruct (String.prefix "image/" (f_type f)) eqn:Et; [|discriminate].
        cbn [negb]. destruct (N.ltb_spec maxSize (f_size f)) as [Hgt|Hle]; [discriminate|].
        intros _. exists a, s, f. change maxSize with 10485760%N in Hle. auto 10.
    + intros (a & u & f & -> & Ea & Eu & -> & Et & Hs).
      unfold POST, isImageType. rewrite Ea, Eu, Et. cbn [negb].
      destruct (N.ltb_spec maxSize (f_size f)) as [Hgt|Hle]; [|reflexivity].
      change maxSize with 10485760%N in Hgt. lia.
  - intros f H200 ->. revert H200. unfold POST.
    destruct auth as [a|e]; [|discriminate].
    destruct (authError a), (user a); try discriminate.
    destruct (negb (isImageType (f_type f))); [discriminate|].
    destruct (maxSize <? f_size f)%N; [discriminate|]. reflexivity.
Qed.

(** X2. Without a signed-in user the route answers 401 "Unauthorized"
    before it reads the form: the answer is the same whatever was sent. *)
Theorem process_image_checks_user_first
        (a : AuthResult) (form form' : Js.Outcome FormEntry) :
  (authError a <> None \/ user a = None) ->
  POST (Js.Resolved a) form = mkResponse 401 (ErrorBody "Unauthorized")
  /\ POST (Js.Resolved a) form = POST (Js.Resolved a) form'.
Proof.
  intros H. unfold POST.
  destruct (authError a), (user a); try (split; reflexivity).
  destruct H as [H|H]; [contradiction|discriminate].
Qed.

(** Signed out, with and without a picture. *)
Lemma process_image_checks_user_first_witness :
  POST (Js.Resolved Examples.signedOut) (Js.Resolved (FileEntry Examples.photo))
  = mkResponse 401 (ErrorBody "Unauthorized")
  /\ POST (Js.Resolved Examples.signedOut) (Js.Resolved (FileEntry Examples.photo))
     = POST (Js.Resolved Examples.signedOut) (Js.Resolved NoEntry).
Proof.
  apply (process_image_checks_user_first Examples.signedOut).
  right. reflexivity.
Defined.

End ProcessImageFacts.

(** ** The image upload *)

Module UploadFacts.
Import ProcessImageRoute Upload.

Lemma In_removeKey {A} id (l : list (nat * A)) e :
  In e (Dashboard.removeKey id l) -> In e l.
Proof. unfold Dashboard.removeKey. intros H. apply filter_In in H. tauto. Qed.

Lemma acceptable_handle ev s :
  ((forall f, selectedFile s = Some f -> acceptable f = true)
   /\ (forall id f, In (id, f) (uploads s) -> acceptable f = true)) ->
  (forall f, selectedFile (handle ev s) = Some f -> acceptable f = true)
  /\ (forall id f, In (id, f) (uploads (handle ev s)) -> acceptable f = true).
Proof.
  intros [Hsel Hup].
  assert (Hdrop : forall id i f, In (i, f) (Dashboard.removeKey id (uploads s)) ->
                                 acceptable f = true)
    by (intros id i f H; apply In_removeKey in H; eauto).
  destruct ev as [[f0|]|id url| | | |id ok data|id]; cbn [handle].
  - unfold handleFileChange, acceptable in *.
    destruct (isImageType (f_type f0)) eqn:Et; cbn [negb]; [|split; assumption].
    destruct (N.ltb maxSize (f_size f0)) eqn:Es; [split; assumption|].
    split; [|exact Hup]. cbn [selectedFile]. intros f Hf. injection Hf as <-. rewrite Et, Es. reflexivity.
  - split; assumption.
  - destruct (Dashboard.hasId id (readers s)); split; assumption.
  - unfold handleUpload. destruct (selectedFile s) as [f0|] eqn:E; cbn.
    + split; [exact Hsel|]. intros id f Hin. apply in_app_or in Hin.
      destruct Hin as [Hin|[Heq|[]]]; [eauto|]. injection Heq as _ <-. auto.
    + split; [intros f Hf; discriminate|exact Hup].
  - unfold handleUploadButtonClick, handleUpload. destruct (selectedFile s) as [f0|] eqn:E; cbn.
    + split; [exact Hsel|]. intros id f Hin. apply in_app_or in Hin.
      destruct Hin as [Hin|[Heq|[]]]; [eauto|]. injection Heq as _ <-. auto.
    + split; [intros f Hf; discriminate|exact Hup].
  - cbn. split; [intros f Hf; discriminate|exact Hup].
  - destruct (Dashboard.lookupKey id (uploads s)); [|split; assumption].
    unfold handleUpload_resolved. destruct (negb ok); cbn; split; eauto.
  - destruct (Dashboard.lookupKey id (uploads s)); [|split; assumption].
    cbn; split; eauto.
Qed.

Lemma acceptable_exec evs s :
  ((forall f, selectedFile s = Some f -> acceptable f = true)
   /\ (forall id f, In (id, f) (uploads s) -> acceptable f = true)) ->
  (forall f, selectedFile (exec evs s) = Some f -> acceptable f = true)
  /\ (forall id f, In (id, f) (uploads (exec evs s)) -> acceptable f = true).
Proof.
  revert s. induction evs as [|ev evs IH]; intros s Hs; cbn; [exact Hs|].
  apply IH, acceptable_handle, Hs.
Qed.

Lemma acceptable_init :
  (forall f, selectedFile init = Some f -> acceptable f = true)
  /\ (forall id f, In (id, f) (uploads init) -> acceptable f = true).
Proof. split; [intros f Hf; discriminate|intros id f []]. Qed.

Lemma acceptable_spec f :
  acceptable f = true ->
  String.prefix "image/" (f_type f) = true /\ (f_size f <= 10485760)%N.
Proof.
  intros H. unfold acceptable, isImageType in H. apply andb_true_iff in H.
  destruct H as [H1 H2]. split; [exact H1|].
  apply negb_true_iff, N.ltb_ge in H2. exact H2.
Qed.

(** X3. Whatever the user does, the file that the upload card holds and
    every file it has sent to /api/process-image is an image of at most
    10 MB: the page never sends a file that the route would refuse for
    its type or size. *)
Theorem upload_sends_only_acceptable_files (evs : list Event) :
  let s := exec evs init in
  (forall f, selectedFile s = Some f ->
             String.prefix "image/" (f_type f) = true /\ (f_size f <= 10485760)%N)
  /\ (forall id f, In (id, f) (uploads s) ->
                   String.prefix "image/" (f_type f) = true /\ (f_size f <= 10485760)%N).
Proof.
  cbv zeta. destruct (acceptable_exec evs init acceptable_init) as [H1 H2].
  split; [intros f Hf|intros id f Hf]; apply acceptable_spec; eauto.
Qed.

(** *** One upload at a time *)

Lemma removeKey_single {A} id (i : nat) (f : A) :
  Dashboard.lookupKey id [(i, f)] <> None -> Dashboard.removeKey id [(i, f)] = [].
Proof.
  cbn. destruct (Nat.eqb i id); [reflexivity|]. intros H. contradiction.
Qed.

Lemma one_upload_handle ev s :
  enabled ev s = true ->
  ((processing s = false /\ uploads s = [])
   \/ (processing s = true /\ exists id f, uploads s = [(id, f)])) ->
  (processing (handle ev s) = false /\ uploads (handle ev s) = [])
  \/ (processing (handle ev s) = true /\ exists id f, uploads (handle ev s) = [(id, f)]).
Proof.
  intros He Hs.
  destruct ev as [[f0|]|id url| | | |id ok data|id]; cbn [handle enabled] in *.
  - unfold handleFileChange.
    destruct (negb (isImageType (f_type f0))); [exact Hs|].
    destruct (N.ltb maxSize (f_size f0)); exact Hs.
  - exact Hs.
  - rewrite He. unfold reader_onloadend, dropReader. exact Hs.
  - unfold handleUpload. destruct (selectedFile s) as [f0|]; [|discriminate].
    apply negb_true_iff in He. destruct Hs as [[_ Hu]|[Hp _]]; [|congruence].
    right. cbn. rewrite Hu. split; [reflexivity|]. do 2 eexists. reflexivity.
  - unfold handleUploadButtonClick, handleUpload.
    apply negb_true_iff in He. destruct Hs as [[Hp Hu]|[Hp _]]; [|congruence].
    destruct (selectedFile s) as [f0|]; cbn.
    + right. rewrite Hu. split; [reflexivity|]. do 2 eexists. reflexivity.
    + left. auto.
  - exact Hs.
  - destruct (Dashboard.lookupKey id (uploads s)) as [f1|] eqn:El; [|discriminate].
    left. destruct Hs as [[_ Hu]|[_ (i & f & Hu)]].
    + rewrite Hu in El. discriminate.
    + unfold handleUpload_resolved. rewrite Hu in El.
      destruct (negb ok); cbn; rewrite Hu; (split; [reflexivity|]);
        apply removeKey_single; rewrite El; discriminate.
  - destruct (Dashboard.lookupKey id (uploads s)) as [f1|] eqn:El; [|discriminate].
    left. destruct Hs as [[_ Hu]|[_ (i & f & Hu)]].
    + rewrite Hu in El. discriminate.
    + rewrite Hu in El. cbn. rewrite Hu. split; [reflexivity|].
      apply removeKey_single; rewrite El; discriminate.
Qed.

Lemma one_upload_run evs s s' :
  run evs s = Some s' ->
  ((processing s = false /\ uploads s = [])
   \/ (processing s = true /\ exists id f, uploads s = [(id, f)])) ->
  (processing s' = false /\ uploads s' = [])
  \/ (processing s' = true /\ exists id f, uploads s' = [(id, f)]).
Proof.
  revert s. induction evs as [|ev evs IH]; intros s; cbn.
  - intros H; injection H as <-; auto.
  - destruct (enabled ev s) eqn:He; [|discriminate].
    intros Hr Hs. apply (IH _ Hr). apply one_upload_handle; assumption.
Qed.

(** X4. Driven through its buttons, the upload card has at most one
    request in flight, [processing] is true exactly while there is one,
    and both buttons that start an upload are then disabled. *)
Theorem processing_iff_one_upload_in_flight (evs : list Event) (s : State) :
  run evs init = Some s ->
  (processing s = true <-> uploads s <> [])
  /\ List.length (uploads s) <= 1
  /\ (processing s = true -> enabled ProcessClick s = false
                             /\ enabled UploadButtonClick s = false).
Proof.
  intros Hr.
  destruct (one_upload_run evs init s Hr) as [[Hp Hu]|[Hp (i & f & Hu)]].
  - left. split; reflexivity.
  - rewrite Hp, Hu. split; [split; [discriminate|intros H; contradiction]|].
    split; [cbn; lia|discriminate].
  - rewrite Hu. split; [split; [intros _; discriminate|intros _; exact Hp]|].
    split; [cbn; lia|]. intros _. cbn. rewrite Hp.
    destruct (selectedFile s); split; reflexivity.
Qed.

Lemma upload_run_exec evs s s' : run evs s = Some s' -> s' = exec evs s.
Proof.
  revert s. induction evs as [|ev evs IH]; intros s; cbn.
  - intros H. injection H as <-. reflexivity.
  - destruct (enabled ev s); [apply IH|discriminate].
Qed.

Lemma upload_lookupKey_single {A} (i : nat) (f : A) : Dashboard.lookupKey i [(i, f)] = Some f.
Proof. cbn. rewrite Nat.eqb_refl. reflexivity. Qed.

(** X5. Round trip of an upload: when a file is selected and nothing is
    in flight, pressing Process sends exactly that file; for a signed-in
    user the route answers 200, and the page then shows the route's result
    for that file, with no error, and is no longer processing. *)
Theorem upload_round_trip
        (evs : list Event) (s : State) (f : File) (a : AuthResult) (u : string) :
  run evs init = Some s ->
  selectedFile s = Some f ->
  processing s = false ->
  authError a = None ->
  user a = Some u ->
  let s1 := handle ProcessClick s in
  let r := POST (Js.Resolved a) (Js.Resolved (FileEntry f)) in
  let s2 := handle (UploadResolved (nextId s) (responseOk r) (body r)) s1 in
  uploads s1 = [(nextId s, f)]
  /\ status r = 200
  /\ result s2 = Some (ResultBody ["cat"; "animal"; "pet"; "feline"] 0.92
                                  (f_name f) (f_size f) (f_type f))
  /\ error s2 = EmptyString
  /\ processing s2 = false
  /\ uploads s2 = [].
Proof.
  intros Hr Hsel Hp Ha Hu.
  assert (Hacc : acceptable f = true).
  { pose proof (upload_run_exec _ _ _ Hr) as ->.
    destruct (acceptable_exec evs init acceptable_init) as [H _]. exact (H f Hsel). }
  assert (Hup : uploads s = []).
  { destruct (one_upload_run evs init s Hr) as [[_ H]|[H _]];
      [left; split; reflexivity|exact H|congruence]. }
  assert (Hpost : POST (Js.Resolved a) (Js.Resolved (FileEntry f))
                  = mkResponse 200 (ResultBody dummyLabels dummyConfidence
                                               (f_name f) (f_size f) (f_type f))).
  { unfold POST. rewrite Ha, Hu. unfold acceptable in Hacc.
    apply andb_true_iff in Hacc. destruct Hacc as [H1 H2].
    rewrite H1. apply negb_true_iff in H2. rewrite H2. reflexivity. }
  cbv zeta. rewrite Hpost.
  assert (Hs1 : handle ProcessClick s
                = mkState (Some f) (preview s) true None EmptyString (readers s)
                          [(nextId s, f)] (S (nextId s)) (pickerClicks s)).
  { cbn [handle]. unfold handleUpload. rewrite Hsel, Hup. reflexivity. }
  rewrite Hs1. cbn [handle uploads]. rewrite upload_lookupKey_single.
  unfold responseOk, handleUpload_resolved, dropUpload, Dashboard.removeKey.
  cbn. rewrite Nat.eqb_refl. repeat split.
Qed.

(** The user picks a picture and presses Process. *)
Lemma processing_iff_one_upload_in_flight_witness :
  (processing (exec Examples.photoSent init) = true
   <-> uploads (exec Examples.photoSent init) <> [])
  /\ List.length (uploads (exec Examples.photoSent init)) <= 1
  /\ (processing (exec Examples.photoSent init) = true ->
      enabled ProcessClick (exec Examples.photoSent init) = false
      /\ enabled UploadButtonClick (exec Examples.photoSent init) = false).
Proof.
  apply (processing_iff_one_upload_in_flight Examples.photoSent).
  vm_compute. reflexivity.
Defined.

(** The picture goes to the route and its result comes back. *)
Lemma upload_round_trip_witness :
  let s := exec Examples.photoChosen init in
  let s1 := handle ProcessClick s in
  let r := POST (Js.Resolved Examples.signedIn) (Js.Resolved (FileEntry Examples.photo)) in
  let s2 := handle (UploadResolved (nextId s) (responseOk r) (body r)) s1 in
  uploads s1 = [(nextId s, Examples.photo)]
  /\ status r = 200
  /\ result s2 = Some (ResultBody ["cat"; "animal"; "pet"; "feline"] 0.92
                                  "label.png" 204800 "image/png")
  /\ error s2 = EmptyString
  /\ processing s2 = false
  /\ uploads s2 = [].
Proof.
  apply (upload_round_trip Examples.photoChosen (exec Examples.photoChosen init)
           Examples.photo Examples.signedIn "user-1").
  - vm_compute. reflexivity.
  - reflexivity.
  - reflexivity.
  - reflexivity.
  - reflexivity.
Defined.

End UploadFacts.

(** ** The text helpers *)

Module TextFacts.
Import Text.

Ltac text_simpl := cbn [splitLines hasNewline join firstn String.append orb].
Ltac text_simpl_in H := cbn [splitLines hasNewline join firstn String.append orb] in H.

Lemma hasNewline_append a b :
  hasNewline (a ++ b)%string = hasNewline a || hasNewline b.
Proof.
  induction a as [|c a IH]; text_simpl; [reflexivity|].
  rewrite IH, orb_assoc. reflexivity.
Qed.

Lemma splitLines_not_nil text : splitLines text <> [].
Proof.
  destruct text as [|c rest]; text_simpl; [discriminate|].
  destruct (Ascii.eqb c newline); [discriminate|].
  destruct (splitLines rest); discriminate.
Qed.

(** No piece of a split has a line break. *)
Lemma splitLines_no_newline text :
  Forall (fun line => hasNewline line = false) (splitLines text).
Proof.
  induction text as [|c rest IH]; text_simpl.
  - constructor; [reflexivity|constructor].
  - destruct (Ascii.eqb c newline) eqn:E.
    + constructor; [reflexivity|exact IH].
    + destruct (splitLines rest) as [|line lines].
      * constructor; [text_simpl; rewrite E; reflexivity|constructor].
      * inversion IH as [|x l H1 H2]; subst.
        constructor; [text_simpl; rewrite E; exact H1|exact H2].
Qed.

(** A text without line break is its own only line. *)
Lemma splitLines_single text :
  hasNewline text = false -> splitLines text = [text].
Proof.
  induction text as [|c rest IH]; text_simpl; [reflexivity|].
  destruct (Ascii.eqb c newline); text_simpl; [discriminate|].
  intros H. rewrite (IH H). reflexivity.
Qed.

(** Splitting at line breaks and joining with line breaks gives the text
    back. *)
Lemma join_splitLines text :
  join (String newline EmptyString) (splitLines text) = text.
Proof.
  induction text as [|c rest IH]; text_simpl; [reflexivity|].
  pose proof (splitLines_not_nil rest) as Hnn.
  destruct (splitLines rest) as [|l ls] eqn:E; [contradiction|].
  destruct (Ascii.eqb_spec c newline) as [->|Hne].
  - text_simpl. text_simpl_in IH. rewrite IH. reflexivity.
  - destruct ls; text_simpl; text_simpl_in IH; rewrite <- IH; reflexivity.
Qed.

Lemma join_no_newline sep parts :
  hasNewline sep = false ->
  Forall (fun line => hasNewline line = false) parts ->
  hasNewline (join sep parts) = false.
Proof.
  intros Hsep H. induction H as [|p rest Hp Hrest IH]; [reflexivity|].
  destruct rest as [|q rest']; [exact Hp|].
  change (join sep (p :: q :: rest')) with (p ++ sep ++ join sep (q :: rest'))%string.
  rewrite !hasNewline_append, Hp, Hsep, IH. reflexivity.
Qed.

Lemma Forall_firstn {A} (P : A -> Prop) n l : Forall P l -> Forall P (firstn n l).
Proof.
  intros H. revert n. induction H; intros [|n]; cbn; constructor; auto.
Qed.

Lemma splitLines_append line rest :
  hasNewline line = false ->
  splitLines (line ++ String newline rest)%string = line :: splitLines rest.
Proof.
  induction line as [|c line IH]; intros H.
  - text_simpl. rewrite Ascii.eqb_refl. reflexivity.
  - text_simpl_in H. apply orb_false_iff in H. destruct H as [Hc Hl].
    change (splitLines (String c (line ++ String newline rest)) = String c line :: splitLines rest).
    cbn [splitLines]. rewrite Hc, (IH Hl). reflexivity.
Qed.

(** Joining lines with line breaks and splitting gives the lines back. *)
Lemma splitLines_join lines :
  lines <> [] ->
  Forall (fun line => hasNewline line = false) lines ->
  splitLines (join (String newline EmptyString) lines) = lines.
Proof.
  intros Hne H. induction H as [|p rest Hp Hrest IH]; [contradiction|].
  destruct rest as [|q rest'].
  - apply splitLines_single, Hp.
  - change (join (String newline EmptyString) (p :: q :: rest'))
      with (p ++ String newline (join (String newline EmptyString) (q :: rest')))%string.
    rewrite (splitLines_append _ _ Hp), IH; [reflexivity|discriminate].
Qed.

(** X6. [shortenForSpeech] joins the first five lines of a text with
    [". "] and drops the others; the result has no line break, so
    shortening it again changes nothing, and a text of one line is
    returned as it is. *)
Theorem shortenForSpeech_keeps_first_five_lines (lines : list string) :
  lines <> [] ->
  Forall (fun line => hasNewline line = false) lines ->
  let text := join (String newline EmptyString) lines in
  shortenForSpeech text = join ". " (firstn 5 lines)
  /\ hasNewline (shortenForSpeech text) = false
  /\ shortenForSpeech (shortenForSpeech text) = shortenForSpeech text
  /\ (List.length lines = 1 -> shortenForSpeech text = text).
Proof.
  intros Hne Hlines text.
  assert (H0 : shortenForSpeech text = join ". " (firstn 5 lines)).
  { unfold shortenForSpeech, text. rewrite (splitLines_join _ Hne Hlines). reflexivity. }
  assert (H1 : hasNewline (shortenForSpeech text) = false).
  { rewrite H0. apply join_no_newline; [reflexivity|]. apply Forall_firstn, Hlines. }
  assert (H2 : forall t, hasNewline t = false -> shortenForSpeech t = t).
  { intros t Ht. unfold shortenForSpeech. rewrite (splitLines_single t Ht). reflexivity. }
  split; [exact H0|]. split; [exact H1|]. split; [apply H2, H1|].
  intros Hlen. destruct lines as [|l [|l' ls]]; try discriminate.
  inversion Hlines; subst. apply H2. assumption.
Qed.

(** Every text is the join of its lines, which have no line break. *)
Lemma text_is_join_of_lines text :
  splitLines text <> []
  /\ Forall (fun line => hasNewline line = false) (splitLines text)
  /\ join (String newline EmptyString) (splitLines text) = text.
Proof.
  split; [apply splitLines_not_nil|].
  split; [apply splitLines_no_newline|apply join_splitLines].
Qed.

(** An answer of three lines. *)
Lemma shortenForSpeech_keeps_first_five_lines_witness :
  shortenForSpeech (join (String newline EmptyString) Examples.threeLines)
  = "Sugar is fine in small amounts. Palm oil is worth a look. Okay for occasional use"
  /\ hasNewline (shortenForSpeech (join (String newline EmptyString) Examples.threeLines))
     = false.
Proof.
  destruct (shortenForSpeech_keeps_first_five_lines Examples.threeLines) as (H1 & H2 & _).
  - discriminate.
  - repeat constructor.
  - split; [exact H1|exact H2].
Defined.

End TextFacts.

(** ** The mascot's animation *)

Module PresentationFacts.
Import Dashboard Presentation DashboardFacts.

Lemma copilotSrc_of_state v :
  In v allStates -> copilotSrc v = Some ("/copilot/" ++ v ++ ".webm")%string.
Proof.
  unfold allStates. cbn [In].
  intros H. repeat (destruct H as [<-|H]; [reflexivity|]). destruct H.
Qed.

(** X7. After every sequence of events [copilotAnimations] has an entry
    for the state of the page, so the mascot's video always has a source:
    the file named after the state under /copilot. *)
Theorem copilot_always_has_an_animation
        (r : RecognitionSupport) (synth : bool) (evs : list Event) :
  copilotSrc (aiState (page (exec evs (init r synth))))
  = Some ("/copilot/" ++ aiState (page (exec evs (init r synth))) ++ ".webm")%string.
Proof.
  apply copilotSrc_of_state.
  assert (H : wellStated (exec evs (init r synth))).
  { apply wellStated_exec. split; [left; reflexivity|constructor]. }
  exact (proj1 H).
Qed.

End PresentationFacts.

(** ** Invariants of the page *)

Module InvariantFacts.
Import Dashboard Scenarios DashboardFacts Invariants.
Local Open Scope cmd_scope.

Ltac open_all :=
  do 2 open_handlers; rewrite ?callMany_calls;
  unfold setAiState, withAiState, call, seq, skip.

(** *** Proving an invariant of the event loop *)

Lemma fireTimer_now t s :
  now (browser (fireTimer t s)) = Z.max (now (browser s)) (t_due t).
Proof.
  unfold fireTimer. unfold seq at 1 2.
  destruct (t_act t); open_all; split_ifs; reflexivity.
Qed.

Section Advance.

Variable P : Sys -> Prop.
Hypothesis P_timer : forall t s, In t (timers (browser s)) -> P s -> P (fireTimer t s).
Hypothesis P_clock : forall target s,
  (now (browser s) <= target)%Z -> P s -> P (onBrowser (withClock target) s).

Lemma invariant_advance fuel target s :
  (now (browser s) <= target)%Z -> P s -> P (advance fuel target s).
Proof.
  revert s. induction fuel as [|fuel IH]; intros s Hnow Hs; cbn [advance].
  - apply P_clock; assumption.
  - destruct (nextTimer target (timers (browser s))) as [t|] eqn:E.
    + destruct (nextTimer_some _ _ _ E) as [Hin Hdue].
      apply IH; [rewrite fireTimer_now; lia|apply P_timer; assumption].
    + apply P_clock; assumption.
Qed.

Lemma invariant_elapse ms s : P s -> P (elapse ms s).
Proof.
  intros Hs. unfold elapse. destruct (Z.ltb_spec ms 0); [exact Hs|].
  apply invariant_advance; [lia|exact Hs].
Qed.

(** Over every sequence of events. *)
Lemma invariant_exec evs s :
  (forall ev s, P s -> P (effects (page s) (handle ev s))) ->
  P s -> P (exec evs s).
Proof.
  intros P_turn. revert s. induction evs as [|ev evs IH]; intros s Hs; cbn [exec]; [exact Hs|].
  apply IH. unfold fire.
  pose proof (P_turn ev s Hs) as H.
  destruct ev; try exact H. apply invariant_elapse, Hs.
Qed.

(** Over the sequences of events that the page can receive. *)
Lemma invariant_run evs s s' :
  (forall ev s, enabled ev s = true -> P s -> P (effects (page s) (handle ev s))) ->
  run evs s = Some s' -> P s -> P s'.
Proof.
  intros P_turn. revert s. induction evs as [|ev evs IH]; intros s; cbn [run].
  - intros H Hs. injection H as <-. exact Hs.
  - destruct (enabled ev s) eqn:He; [|discriminate].
    intros Hr Hs. apply (IH _ Hr). unfold fire.
    pose proof (P_turn ev s He Hs) as H.
    destruct ev; try exact H. apply invariant_elapse, Hs.
Qed.

End Advance.

(** Invariants that each step of a callback keeps. *)
Section Stepwise.

Variable P : Sys -> Prop.
Hypothesis P_handle : forall ev s, P s -> P (handle ev s).
Hypothesis P_effects : forall prev s, P s -> P (effects prev s).
Hypothesis P_runTimer : forall act s, P s -> P (runTimer act s).
Hypothesis P_browser : forall f s,
  (forall b, analyzeFetches (f b) = analyzeFetches b
             /\ speakFetches (f b) = speakFetches b
             /\ utterances (f b) = utterances b
             /\ calls (f b) = calls b) ->
  P s -> P (onBrowser f s).

Lemma stepwise_exec evs s : P s -> P (exec evs s).
Proof.
  apply invariant_exec.
  - intros t s0 _ Hs. unfold fireTimer. unfold seq at 1 2.
    apply P_effects, P_runTimer, P_browser; [intros b; repeat split|exact Hs].
  - intros target s0 _ Hs. apply P_browser; [intros b; repeat split|exact Hs].
  - intros ev s0 Hs. apply P_effects, P_handle, Hs.
Qed.

End Stepwise.

(** *** The [speaking] flag *)

Lemma isSpeaking_exec evs s :
  isSpeaking (page s) = false -> isSpeaking (page (exec evs s)) = false.
Proof.
  apply (stepwise_exec (fun s => isSpeaking (page s) = false)).
  - intros ev s0 Hs. destruct ev; unfold handle; open_all; split_ifs;
      first [exact Hs | reflexivity].
  - intros prev s0 Hs. open_all. split_ifs; exact Hs.
  - intros act s0 Hs. destruct act; open_all; split_ifs; exact Hs.
  - intros f s0 _ Hs. exact Hs.
Qed.

(** X8. The state variable [speaking] is false after every sequence of
    events, so the Stop button of the speech controls is never rendered
    and [handleStopSpeaking] is never run by a click. *)
Theorem stop_speaking_is_never_offered
        (r : RecognitionSupport) (synth : bool) (evs : list Event) :
  isSpeaking (page (exec evs (init r synth))) = false
  /\ enabled StopSpeakingClick (exec evs (init r synth)) = false.
Proof.
  assert (H : isSpeaking (page (exec evs (init r synth))) = false)
    by (apply isSpeaking_exec; reflexivity).
  split; [exact H|]. cbn [enabled]. exact H.
Qed.

(** *** [unsure] is never the state after a callback *)

Lemma shown_literals :
  In idle shownStates /\ In listening shownStates /\ In thinking shownStates
  /\ In speaking shownStates /\ In warning shownStates /\ In laugh shownStates.
Proof. unfold shownStates. simpl. auto 20. Qed.

Ltac shown Hs :=
  first [ exact Hs
        | exact (proj1 shown_literals)
        | exact (proj1 (proj2 shown_literals))
        | exact (proj1 (proj2 (proj2 shown_literals)))
        | exact (proj1 (proj2 (proj2 (proj2 shown_literals))))
        | exact (proj1 (proj2 (proj2 (proj2 (proj2 shown_literals)))))
        | exact (proj2 (proj2 (proj2 (proj2 (proj2 shown_literals))))) ].

Lemma shown_exec evs s :
  In (aiState (page s)) shownStates -> In (aiState (page (exec evs s))) shownStates.
Proof.
  apply (stepwise_exec (fun s => In (aiState (page s)) shownStates)).
  - intros ev s0 Hs. destruct ev; unfold handle; open_all; split_ifs; shown Hs.
  - intros prev s0 Hs. open_all. split_ifs; shown Hs.
  - intros act s0 Hs. destruct act; open_all; split_ifs; shown Hs.
  - intros f s0 _ Hs. exact Hs.
Qed.

(** X9. After every sequence of events the state is one of idle, listening,
    thinking, speaking, warning and laugh: each assignment of [unsure] is
    followed, in the same callback, by an assignment of [speaking] or
    [idle], so no callback ends with the page in [unsure]. *)
Theorem unsure_never_outlives_its_callback
        (r : RecognitionSupport) (synth : bool) (evs : list Event) :
  In (aiState (page (exec evs (init r synth))))
     [idle; listening; thinking; speaking; warning; laugh]
  /\ AIState_eqb (aiState (page (exec evs (init r synth)))) unsure = false.
Proof.
  assert (Hin : In (aiState (page (exec evs (init r synth)))) shownStates)
    by (apply shown_exec; left; reflexivity).
  split; [exact Hin|].
  unfold shownStates in Hin. simpl in Hin.
  destruct Hin as [<-|[<-|[<-|[<-|[<-|[<-|[]]]]]]]; reflexivity.
Qed.

(** *** No answer is shown while an analysis runs *)

Lemma noStaleAnswer_exec evs s :
  (analyzing (page s) = true -> analysisResult (page s) = None) ->
  analyzing (page (exec evs s)) = true -> analysisResult (page (exec evs s)) = None.
Proof.
  apply (stepwise_exec
           (fun s => analyzing (page s) = true -> analysisResult (page s) = None)).
  - intros ev s0 Hs. destruct ev; unfold handle; open_all; split_ifs;
      first [ exact Hs | exact (fun _ => eq_refl)
            | exact (fun H => False_ind _ (Bool.diff_false_true H)) ].
  - intros prev s0 Hs. open_all. split_ifs; exact Hs.
  - intros act s0 Hs. destruct act; open_all; split_ifs; exact Hs.
  - intros f s0 _ Hs. exact Hs.
Qed.


(** *** One analysis at a time *)

Lemma analysisView_effects prev s : analysisView (effects prev s) = analysisView s.
Proof. unfold analysisView. open_all. split_ifs; reflexivity. Qed.

Lemma analysisView_fireTimer t s : analysisView (fireTimer t s) = analysisView s.
Proof.
  unfold fireTimer. unfold seq at 1 2. rewrite analysisView_effects.
  unfold analysisView. destruct (t_act t); open_all; split_ifs; reflexivity.
Qed.

Lemma oneAnalysis_view s s' : analysisView s' = analysisView s -> oneAnalysis s -> oneAnalysis s'.
Proof.
  unfold analysisView, oneAnalysis. intros H. injection H as -> ->. auto.
Qed.

Lemma removeId_single id i : hasId id [i] = true -> removeId id [i] = [].
Proof.
  cbn. rewrite orb_false_r, Nat.eqb_sym. intros ->. reflexivity.
Qed.

Lemma oneAnalysis_handle ev s :
  enabled ev s = true -> oneAnalysis s -> oneAnalysis (handle ev s).
Proof.
  intros He Hs.
  assert (Hdone : forall id, hasId id (analyzeFetches (browser s)) = true ->
                             removeId id (analyzeFetches (browser s)) = []).
  { intros id Hid. destruct Hs as [[_ Hf]|[_ [i Hf]]]; rewrite Hf in *.
    - discriminate.
    - apply removeId_single, Hid. }
  destruct ev;
    try (apply (oneAnalysis_view s); [|exact Hs];
         unfold analysisView, handle; open_all; split_ifs; reflexivity).
  - (* AnalyzeClick *)
    cbn [enabled] in He. apply negb_true_iff in He.
    apply orb_false_iff in He. destruct He as [He _].
    apply orb_false_iff in He. destruct He as [Hb Ha].
    destruct Hs as [[_ Hf]|[Ha' _]]; [|congruence].
    right. unfold handle, handleAnalyze. rewrite Hb.
    split; [reflexivity|]. exists (S (nextId (browser s))).
    change (analyzeFetches (browser s) ++ [S (nextId (browser s))]
            = [S (nextId (browser s))]).
    rewrite Hf. reflexivity.
  - (* AnalyzeResolved *)
    cbn [enabled] in He. left. unfold handle. rewrite He.
    split.
    + open_all. split_ifs; reflexivity.
    + transitivity (removeId id (analyzeFetches (browser s))); [|apply Hdone, He].
      open_all. split_ifs; reflexivity.
  - (* AnalyzeRejected *)
    cbn [enabled] in He. left. unfold handle. rewrite He.
    split; [reflexivity|]. apply Hdone, He.
Qed.

Lemma oneAnalysis_run evs s s' : run evs s = Some s' -> oneAnalysis s -> oneAnalysis s'.
Proof.
  apply (invariant_run oneAnalysis).
  - intros t s0 _. apply oneAnalysis_view, analysisView_fireTimer.
  - intros target s0 _. apply oneAnalysis_view. reflexivity.
  - intros ev s0 He Hs. apply (oneAnalysis_view (handle ev s0)).
    + apply analysisView_effects.
    + apply oneAnalysis_handle; assumption.
Qed.

(** X10. Driven through its controls, the page has at most one analysis
    request in flight; [analyzing] is true exactly while there is one,
    the Analyze button is then disabled, and no earlier answer and no mood
    derived from one is shown. *)
Theorem analyzing_iff_one_analysis_in_flight
        (r : RecognitionSupport) (synth : bool) (evs : list Event) (s : Sys) :
  run evs (init r synth) = Some s ->
  List.length (analyzeFetches (browser s)) = (if analyzing (page s) then 1 else 0)
  /\ (analyzing (page s) = true ->
      enabled AnalyzeClick s = false
      /\ analysisResult (page s) = None
      /\ forall toLowerCase,
           Presentation.emotionalMood toLowerCase (analysisResult (page s)) = None).
Proof.
  intros Hr.
  assert (H1 : oneAnalysis s)
    by (apply (oneAnalysis_run evs _ _ Hr); left; split; reflexivity).
  split.
  - destruct H1 as [[-> ->]|[-> [i ->]]]; reflexivity.
  - intros Ha.
    assert (Hres : analysisResult (page s) = None).
    { rewrite (run_exec _ _ _ Hr) in *.
      revert Ha. apply noStaleAnswer_exec. discriminate. }
    split; [cbn [enabled]; rewrite Ha, orb_true_r; reflexivity|].
    split; [exact Hres|]. intros toLowerCase. rewrite Hres. reflexivity.
Qed.

(** "sugar" has been submitted and its analysis is in flight. *)
Lemma analyzing_iff_one_analysis_in_flight_witness :
  List.length (analyzeFetches (browser (exec analysisInFlight start))) = 1
  /\ enabled AnalyzeClick (exec analysisInFlight start) = false.
Proof.
  destruct (analyzing_iff_one_analysis_in_flight
              RecognitionAvailable true analysisInFlight (exec analysisInFlight start))
    as (H1 & H2).
  - vm_compute. reflexivity.
  - split; [exact H1|]. apply H2. reflexivity.
Defined.


(** *** What the page speaks *)

Section Spoken.

Variable P : string -> Prop.

Lemma so_onPage f s : speaksOnly P s -> speaksOnly P (onPage f s).
Proof. intros H. exact H. Qed.

Lemma so_onBrowser f s :
  (forall b, speakFetches (f b) = speakFetches b
             /\ utterances (f b) = utterances b
             /\ calls (f b) = calls b) ->
  speaksOnly P s -> speaksOnly P (onBrowser f s).
Proof.
  intros H Hs. unfold speaksOnly, onBrowser. cbn [browser].
  destruct (H (browser s)) as (-> & -> & ->). exact Hs.
Qed.

Lemma so_calls l s :
  Forall (spokenCall P) l ->
  speaksOnly P s -> speaksOnly P (onBrowser (fun b => withCalls (calls b ++ l) b) s).
Proof.
  intros Hl (H1 & H2 & H3). repeat split; [exact H1|exact H2|].
  cbn. apply Forall_app. split; assumption.
Qed.

Lemma so_call c s : spokenCall P c -> speaksOnly P s -> speaksOnly P (call c s).
Proof. intros Hc. apply so_calls. constructor; [exact Hc|constructor]. Qed.

Lemma so_setAiState v s : speaksOnly P s -> speaksOnly P (setAiState v s).
Proof. intros Hs. unfold setAiState, seq. apply so_call; [exact I|]. exact Hs. Qed.

Lemma so_addFetch text s :
  P text ->
  speaksOnly P s ->
  speaksOnly P (onBrowser (fun b => withSpeakFetches (S (nextId b))
                                      (speakFetches b ++ [(nextId b, text)]) b) s).
Proof.
  intros Ht (H1 & H2 & H3). repeat split; [|exact H2|exact H3].
  cbn. apply Forall_app. split; [exact H1|]. constructor; [exact Ht|constructor].
Qed.

Lemma so_addUtterance text s :
  P text ->
  speaksOnly P s ->
  speaksOnly P (onBrowser (fun b => withUtterances (S (nextId b))
                                      (utterances b ++ [(nextId b, text)]) b) s).
Proof.
  intros Ht (H1 & H2 & H3). repeat split; [exact H1| |exact H3].
  cbn. apply Forall_app. split; [exact H2|]. constructor; [exact Ht|constructor].
Qed.

Lemma Forall_removeKey {A} (Q : nat * A -> Prop) id l :
  Forall Q l -> Forall Q (removeKey id l).
Proof.
  intros H. apply Forall_forall. intros e He.
  apply filter_In in He. rewrite Forall_forall in H. apply H, He.
Qed.

Lemma so_dropFetch id s :
  speaksOnly P s ->
  speaksOnly P (onBrowser (fun b => withSpeakFetches (nextId b)
                                      (removeKey id (speakFetches b)) b) s).
Proof.
  intros (H1 & H2 & H3). repeat split; [|exact H2|exact H3].
  cbn. apply Forall_removeKey, H1.
Qed.

Lemma so_dropUtterance id s :
  speaksOnly P s ->
  speaksOnly P (onBrowser (fun b => withUtterances (nextId b)
                                      (removeKey id (utterances b)) b) s).
Proof.
  intros (H1 & H2 & H3). repeat split; [exact H1| |exact H3].
  cbn. apply Forall_removeKey, H2.
Qed.

Lemma lookupKey_Forall {A} (Q : nat * A -> Prop) id l a :
  lookupKey id l = Some a -> Forall Q l -> Q (id, a).
Proof.
  induction l as [|[i x] l IH]; cbn; [discriminate|].
  intros H HQ. inversion HQ as [|? ? Hx Hl]; subst.
  destruct (Nat.eqb_spec i id) as [->|_].
  - injection H as <-. exact Hx.
  - apply IH; assumption.
Qed.

End Spoken.

Ltac so_step :=
  first [ apply so_setAiState
        | apply so_call; [exact I|]
        | apply so_call; [cbn [spokenCall]; assumption|]
        | apply so_calls; [apply Forall_forall; intros ? Hrep;
                           apply repeat_spec in Hrep; subst; exact I|]
        | apply so_onPage
        | apply so_addFetch; [assumption|]
        | apply so_addUtterance; [assumption|]
        | apply so_dropFetch
        | apply so_dropUtterance
        | apply so_onBrowser; [intros; repeat split|] ].

Ltac so := do 2 open_handlers; rewrite ?callMany_calls; split_ifs; repeat so_step; assumption.

Lemma speaksOnly_speakingEffect P prev s :
  speaksOnly P s -> speaksOnly P (speakingEffect prev s).
Proof. intros Hs. unfold speakingEffect. so. Qed.

Lemma speaksOnly_typingEffect P prev s :
  speaksOnly P s -> speaksOnly P (typingEffect prev s).
Proof. intros Hs. unfold typingEffect. so. Qed.

Lemma speaksOnly_effects P prev s : speaksOnly P s -> speaksOnly P (effects prev s).
Proof.
  intros Hs. unfold effects, seq.
  apply speaksOnly_speakingEffect, speaksOnly_typingEffect, speaksOnly_speakingEffect, Hs.
Qed.

Lemma speaksOnly_handle P ev s :
  (forall t, answerOf ev = Some t -> P t) ->
  speaksOnly P s -> speaksOnly P (handle ev s).
Proof.
  intros Hev Hs.
  destruct ev; unfold handle;
    [so|so| so| |so| |so|so|so|so|so|so|so|so|so|so|so|so|so|so|so].
  - (* AnalyzeResolved *)
    destruct (hasId id (analyzeFetches (browser s))); [|exact Hs].
    unfold seq, handleAnalyze_resolved, speakOrIdle.
    cbn [answerOf] in Hev.
    destruct (ar_ok r); cbn [negb]; [|so].
    destruct (d_text (ar_data r)) as [text|]; [|so].
    destruct (Js.truthyString text); [|so].
    specialize (Hev text eq_refl). so.
  - (* SpeakResolved *)
    destruct (lookupKey id (speakFetches (browser s))) as [text|] eqn:E; [|exact Hs].
    pose proof (lookupKey_Forall _ _ _ _ E (proj1 Hs)) as Htext.
    cbn [snd] in Htext. so.
Qed.

Lemma speaksOnly_fire P ev s :
  (forall t, answerOf ev = Some t -> P t) ->
  speaksOnly P s -> speaksOnly P (fire ev s).
Proof.
  intros Hev Hs. unfold fire.
  assert (H : speaksOnly P ((handle ev ;; effects (page s)) s))
    by (unfold seq; apply speaksOnly_effects, speaksOnly_handle; assumption).
  destruct ev; try exact H.
  apply (invariant_elapse (speaksOnly P)); [| |exact Hs].
  - intros t s0 _ Hs0. unfold fireTimer. unfold seq at 1 2.
    apply speaksOnly_effects. destruct (t_act t); so.
  - intros target s0 _ Hs0. so.
Qed.

Lemma speaksOnly_exec P evs s :
  (forall ev t, In ev evs -> answerOf ev = Some t -> P t) ->
  speaksOnly P s -> speaksOnly P (exec evs s).
Proof.
  revert s. induction evs as [|ev evs IH]; intros s Hev Hs; cbn [exec]; [exact Hs|].
  apply IH.
  - intros ev' t Hin. apply Hev. right. exact Hin.
  - apply speaksOnly_fire; [|exact Hs]. intros t. apply Hev. left. reflexivity.
Qed.

Lemma answerOf_spec ev t :
  answerOf ev = Some t ->
  t <> EmptyString
  /\ exists id r, ev = AnalyzeResolved id r /\ ar_ok r = true
                  /\ d_text (ar_data r) = Some t.
Proof.
  destruct ev; try discriminate. cbn [answerOf].
  destruct (ar_ok r) eqn:Eok; [|discriminate].
  destruct (d_text (ar_data r)) as [text|] eqn:Et; [|discriminate].
  destruct text as [|c text]; [discriminate|].
  intros H. injection H as <-. split; [discriminate|].
  exists id, r. auto.
Qed.

End InvariantFacts.

(** ** The timers of the page *)

Module TimerFacts.
Import Dashboard Scenarios DashboardFacts Invariants InvariantFacts.
Local Open Scope cmd_scope.

(** *** Lists of timers *)

Lemma NoDup_map_filter {A B} (g : A -> B) (f : A -> bool) l :
  NoDup (map g l) -> NoDup (map g (filter f l)).
Proof.
  induction l as [|a l IH]; cbn; [auto|].
  intros H. inversion H as [|? ? Hn Hl]; subst.
  destruct (f a); cbn; [|auto].
  constructor; [|auto]. intros Hin. apply Hn.
  apply in_map_iff in Hin. destruct Hin as (x & Hx & Hin).
  apply filter_In in Hin. apply in_map_iff. exists x. tauto.
Qed.

Lemma ownedBy_filter own f l :
  List.length (ownedBy own (filter f l)) <= List.length (ownedBy own l).
Proof.
  unfold ownedBy. induction l as [|a l IH]; cbn; [lia|].
  destruct (f a), (owner_eqb (t_owner a) own) eqn:E; cbn; rewrite ?E; cbn; lia.
Qed.

Lemma owner_eqb_eq a b : owner_eqb a b = true <-> a = b.
Proof. destruct a, b; cbn; split; intros H; try reflexivity; discriminate. Qed.

Lemma ownedBy_cleared own l :
  ownedBy own (filter (fun t => negb (owner_eqb (t_owner t) own)) l) = [].
Proof.
  unfold ownedBy. induction l as [|a l IH]; cbn; [reflexivity|].
  destruct (owner_eqb (t_owner a) own) eqn:E; cbn; [exact IH|].
  rewrite E. exact IH.
Qed.

Lemma ownedBy_app own l m : ownedBy own (l ++ m) = ownedBy own l ++ ownedBy own m.
Proof. apply filter_app. Qed.

Lemma timerSet_mono c c' t : (c <= c')%Z -> timerSet c t -> timerSet c' t.
Proof.
  unfold timerSet. intros Hc. destruct (t_owner t); [| |auto].
  - intros [H1 H2]. split; [exact H1|lia].
  - intros [H1 H2]. split; [exact H1|lia].
Qed.

Lemma timerSet_fallback c t :
  timerSet c t -> t_owner t = OwnSpeakingEffect ->
  t_act t = ActSpeakingFallback speaking /\ (t_due t <= c + 10000)%Z.
Proof. unfold timerSet. intros H Ho. rewrite Ho in H. exact H. Qed.

Lemma disciplined_mono l n c n' c' :
  n <= n' -> (c <= c')%Z -> disciplined l n c -> disciplined l n' c'.
Proof.
  intros Hn Hc (H1 & H2 & H3 & H4 & H5).
  split; [exact H1|]. split; [|split; [|split; assumption]].
  - intros t Ht. specialize (H2 t Ht). lia.
  - intros t Ht. apply (timerSet_mono c); auto.
Qed.

Lemma disciplined_filter f l n c : disciplined l n c -> disciplined (filter f l) n c.
Proof.
  intros (H1 & H2 & H3 & H4 & H5).
  assert (Hin : forall t, In t (filter f l) -> In t l)
    by (intros t Ht; apply filter_In in Ht; tauto).
  split; [apply NoDup_map_filter, H1|]. split; [auto|]. split; [auto|]. split.
  - pose proof (ownedBy_filter OwnSpeakingEffect f l). lia.
  - pose proof (ownedBy_filter OwnTypingEffect f l). lia.
Qed.

Lemma NoDup_ids_snoc l n x :
  NoDup (map t_id l) -> (forall t, In t l -> t_id t < n) -> t_id x = n ->
  NoDup (map t_id (l ++ [x])).
Proof.
  intros H1 H2 Hx. rewrite map_app. cbn.
  apply NoDup_app; [exact H1|constructor; [intros []|constructor]|].
  intros i Hi [<-|[]]. apply in_map_iff in Hi. destruct Hi as (t & Ht & Hin).
  specialize (H2 t Hin). lia.
Qed.

(** One more timer. *)
Lemma disciplined_snoc l n c x :
  disciplined l n c ->
  t_id x = n -> timerSet c x ->
  List.length (ownedBy OwnSpeakingEffect (l ++ [x])) <= 1 ->
  List.length (ownedBy OwnTypingEffect (l ++ [x])) <= 1 ->
  disciplined (l ++ [x]) (S n) c.
Proof.
  intros (H1 & H2 & H3 & _ & _) Hid Hx H4 H5.
  split; [apply (NoDup_ids_snoc _ n); auto|].
  split; [|split; [|split; assumption]].
  - intros t Ht. apply in_app_or in Ht. destruct Ht as [Ht|[<-|[]]]; [|lia].
    specialize (H2 t Ht). lia.
  - intros t Ht. apply in_app_or in Ht. destruct Ht as [Ht|[<-|[]]]; auto.
Qed.

(** A timer whose handle is dropped. *)
Lemma disciplined_add l n c due act :
  act = ActResetIdle \/ act = ActPrepareOff ->
  disciplined l n c -> disciplined (l ++ [mkTimer n due OwnNone act]) (S n) c.
Proof.
  intros Hact H. pose proof H as (_ & _ & _ & H4 & H5).
  apply disciplined_snoc; [exact H|reflexivity|exact Hact| |];
    rewrite ownedBy_app; cbn; rewrite app_nil_r; assumption.
Qed.

(** The fallback timer, set after the cleanup has cleared the one before. *)
Lemma disciplined_rearm l n c :
  disciplined l n c ->
  disciplined
    (filter (fun t => negb (owner_eqb (t_owner t) OwnSpeakingEffect)) l
       ++ [mkTimer n (c + 10000) OwnSpeakingEffect (ActSpeakingFallback speaking)])
    (S n) c.
Proof.
  intros H. apply (disciplined_filter
                     (fun t => negb (owner_eqb (t_owner t) OwnSpeakingEffect))) in H.
  pose proof (ownedBy_cleared OwnSpeakingEffect l) as Hclear.
  pose proof H as (_ & _ & _ & H4 & H5).
  apply disciplined_snoc; [exact H|reflexivity|split; [reflexivity|cbn; lia]| |];
    rewrite ownedBy_app.
  - rewrite Hclear. cbn. lia.
  - cbn. rewrite app_nil_r. exact H5.
Qed.

(** The typing timer, set after the cleanup has cleared the one before. *)
Lemma disciplined_retype l n c ingr :
  blank ingr = false ->
  disciplined l n c ->
  disciplined
    (filter (fun t => negb (owner_eqb (t_owner t) OwnTypingEffect)) l
       ++ [mkTimer n (c + 500) OwnTypingEffect (ActTyping ingr false)])
    (S n) c.
Proof.
  intros Hb H. apply (disciplined_filter
                     (fun t => negb (owner_eqb (t_owner t) OwnTypingEffect))) in H.
  pose proof (ownedBy_cleared OwnTypingEffect l) as Hclear.
  pose proof H as (_ & _ & _ & H4 & H5).
  apply disciplined_snoc; [exact H|reflexivity| | |].
  - split; [exists ingr; auto|cbn; lia].
  - rewrite ownedBy_app. cbn. rewrite app_nil_r. exact H4.
  - rewrite ownedBy_app, Hclear. cbn. lia.
Qed.

(** *** The discipline is kept by every step *)

Lemma td_onPage f s : timersDisciplined s -> timersDisciplined (onPage f s).
Proof. intros H. exact H. Qed.

Lemma td_onBrowser f s :
  (forall b, timers (f b) = timers b /\ now (f b) = now b /\ nextId b <= nextId (f b)) ->
  timersDisciplined s -> timersDisciplined (onBrowser f s).
Proof.
  intros H Hs. unfold timersDisciplined, onBrowser. cbn [browser].
  destruct (H (browser s)) as (-> & -> & Hn).
  apply (disciplined_mono _ _ _ _ _ Hn (Z.le_refl _) Hs).
Qed.

Lemma td_call c s : timersDisciplined s -> timersDisciplined (call c s).
Proof. intros H. exact H. Qed.

Lemma td_setAiState v s : timersDisciplined s -> timersDisciplined (setAiState v s).
Proof. intros H. exact H. Qed.

Lemma td_add act delay s :
  act = ActResetIdle \/ act = ActPrepareOff ->
  timersDisciplined s ->
  timersDisciplined
    (onBrowser (fun b => withTimers (S (nextId b))
                           (timers b ++ [mkTimer (nextId b) (now b + delay) OwnNone act]) b) s).
Proof. intros Hact H. apply disciplined_add; assumption. Qed.

Lemma td_filter f s :
  timersDisciplined s ->
  timersDisciplined
    (onBrowser (fun b => withTimers (nextId b) (filter f (timers b)) b) s).
Proof. intros H. apply disciplined_filter, H. Qed.

Lemma td_clock target s :
  (now (browser s) <= target)%Z ->
  timersDisciplined s -> timersDisciplined (onBrowser (withClock target) s).
Proof. intros Hn H. exact (disciplined_mono _ _ _ _ _ (Nat.le_refl _) Hn H). Qed.

Lemma td_speakingEffect prev s :
  timersDisciplined s -> timersDisciplined (speakingEffect prev s).
Proof.
  intros H. unfold speakingEffect.
  destruct (AIState_eqb prev (aiState (page s))); [exact H|].
  unfold seq, clearTimeoutOf, setTimeoutOwned, skip.
  destruct (AIState_eqb (aiState (page s)) speaking) eqn:E.
  - apply AIState_eqb_eq in E.
    change (aiState (page (onBrowser
              (fun b => withTimers (nextId b)
                 (filter (fun t => negb (owner_eqb (t_owner t) OwnSpeakingEffect))
                    (timers b)) b) s))) with (aiState (page s)).
    rewrite E. apply disciplined_rearm, H.
  - apply td_filter, H.
Qed.

Lemma td_typingEffect prev s :
  timersDisciplined s -> timersDisciplined (typingEffect prev s).
Proof.
  intros H. unfold typingEffect. cbv zeta.
  destruct (sameTypingDeps prev (page s)); [exact H|].
  unfold seq, clearTimeoutOf, setTimeoutOwned, skip.
  destruct (negb (blank (ingredients (page s))) && negb (analyzing (page s))
            && negb (isListening (page s))) eqn:E.
  - apply andb_true_iff in E. destruct E as [E _].
    apply andb_true_iff in E. destruct E as [Eb Ea].
    apply negb_true_iff in Eb, Ea.
    change (analyzing (page (onBrowser
              (fun b => withTimers (nextId b)
                 (filter (fun t => negb (owner_eqb (t_owner t) OwnTypingEffect))
                    (timers b)) b) s))) with (analyzing (page s)).
    change (ingredients (page (onBrowser
              (fun b => withTimers (nextId b)
                 (filter (fun t => negb (owner_eqb (t_owner t) OwnTypingEffect))
                    (timers b)) b) s))) with (ingredients (page s)).
    rewrite Ea. apply disciplined_retype; [exact Eb|exact H].
  - destruct (blank (ingredients (page s)) && AIState_eqb (aiState (page s)) listening
              && negb (analyzing (page s))).
    + apply td_setAiState, td_filter, H.
    + apply td_filter, H.
Qed.

Lemma td_effects prev s : timersDisciplined s -> timersDisciplined (effects prev s).
Proof.
  intros H. unfold effects, seq.
  apply td_speakingEffect, td_typingEffect, td_speakingEffect, H.
Qed.

Ltac td_step :=
  first [ apply td_setAiState
        | apply td_call
        | apply td_onPage
        | apply td_add; [auto|]
        | apply td_onBrowser; [intros; repeat split; cbn; lia|] ].

Ltac open_callbacks :=
  unfold handleCopilotClick, handleAnalyze, handleAnalyze_resolved, handleAnalyze_rejected,
    speakOrIdle, speakText, speakText_resolved, speakText_rejected, speakWithBrowserTTS,
    audio_onended, audio_onerror, utterance_onend, utterance_onerror,
    handleStopSpeaking, handleStopListening, handleStartListening,
    handleStartListening_granted, handleStartListening_denied,
    recognition_onresult, recognition_onerror, recognition_onstart, recognition_onend,
    runTimer,
    fetchAnalyze, fetchSpeak, setTimeout, setTimeoutOwned,
    setIngredients, setAnalyzing, setAnalysisResult,
    setAnalysisError, setListening, setSpeaking, setMicError, setIsPreparing,
    seq, skip.

Ltac td := do 2 open_callbacks; rewrite ?callMany_calls; split_ifs; repeat td_step; assumption.

Lemma td_handle ev s : timersDisciplined s -> timersDisciplined (handle ev s).
Proof. intros Hs. destruct ev; unfold handle; td. Qed.

Lemma td_fireTimer t s : timersDisciplined s -> timersDisciplined (fireTimer t s).
Proof.
  intros Hs. unfold fireTimer. unfold seq at 1 2. apply td_effects.
  assert (H0 : timersDisciplined
                 (onBrowser (fun b => withClock (Z.max (now b) (t_due t))
                    (withTimers (nextId b)
                       (filter (fun u => negb (Nat.eqb (t_id u) (t_id t))) (timers b)) b)) s)).
  { apply (td_clock (Z.max (now (browser s)) (t_due t))
             (onBrowser (fun b => withTimers (nextId b)
                (filter (fun u => negb (Nat.eqb (t_id u) (t_id t))) (timers b)) b) s)).
    - cbn. lia.
    - apply td_filter, Hs. }
  revert H0. generalize (onBrowser (fun b => withClock (Z.max (now b) (t_due t))
                    (withTimers (nextId b)
                       (filter (fun u => negb (Nat.eqb (t_id u) (t_id t))) (timers b)) b)) s).
  intros s0 H0. destruct (t_act t); td.
Qed.

Lemma td_exec evs s : timersDisciplined s -> timersDisciplined (exec evs s).
Proof.
  apply (invariant_exec timersDisciplined).
  - intros t s0 _. apply td_fireTimer.
  - apply td_clock.
  - intros ev s0 Hs. apply td_effects, td_handle, Hs.
Qed.


(** *** The fallback timer is pending while the page speaks *)

Lemma fp_onBrowser f s :
  (forall b, timers (f b) = timers b) ->
  fallbackPending s -> fallbackPending (onBrowser f s).
Proof.
  intros H Hs. unfold fallbackPending, onBrowser. cbn [browser]. rewrite H. exact Hs.
Qed.

Lemma fp_same (c : Cmd) s :
  timers (browser (c s)) = timers (browser s) ->
  fallbackPending s -> fallbackPending (c s).
Proof. intros H Hs. unfold fallbackPending. rewrite H. exact Hs. Qed.

Lemma fp_add n x s :
  fallbackPending s ->
  fallbackPending (onBrowser (fun b => withTimers (n b) (timers b ++ [x b]) b) s).
Proof.
  intros (t & Hin & Ho). exists t. split; [|exact Ho].
  cbn. apply in_or_app. left. exact Hin.
Qed.

Ltac fp_step :=
  first [ apply (fp_same (setAiState _)); [reflexivity|]
        | apply (fp_same (call _)); [reflexivity|]
        | apply (fp_same (onPage _)); [reflexivity|]
        | apply (fp_add (fun b => S (nextId b))
                        (fun b => mkTimer (nextId b) (now b + _) OwnNone _))
        | apply fp_onBrowser; [intros; reflexivity|] ].

Ltac fp := do 2 open_callbacks; rewrite ?callMany_calls; split_ifs; repeat fp_step; assumption.

Lemma fp_handle ev s : fallbackPending s -> fallbackPending (handle ev s).
Proof. intros Hs. destruct ev; unfold handle; fp. Qed.

Lemma armed_speakingEffect_after prev s :
  (prev = speaking -> armed s) -> armed (speakingEffect prev s).
Proof.
  intros H. unfold speakingEffect.
  destruct (AIState_eqb prev (aiState (page s))) eqn:E1.
  - apply AIState_eqb_eq in E1. intros Hsp. apply H; congruence.
  - unfold seq, clearTimeoutOf, setTimeoutOwned, skip.
    destruct (AIState_eqb (aiState (page s)) speaking) eqn:E2.
    + intros _. eexists. split; [cbn; apply in_or_app; right; left; reflexivity|].
      reflexivity.
    + intros Hsp. change (aiState (page s) = speaking) in Hsp.
      apply AIState_eqb_eq in Hsp. congruence.
Qed.

Lemma armed_speakingEffect prev s : armed s -> armed (speakingEffect prev s).
Proof. intros H. apply armed_speakingEffect_after. intros _. exact H. Qed.

Lemma fp_keep own s :
  own <> OwnSpeakingEffect ->
  fallbackPending s ->
  fallbackPending
    (onBrowser (fun b => withTimers (nextId b)
                  (filter (fun t => negb (owner_eqb (t_owner t) own)) (timers b)) b) s).
Proof.
  intros Hown (t & Hin & Ho). exists t. split; [|exact Ho].
  cbn. apply filter_In. split; [exact Hin|]. rewrite Ho.
  destruct own; [contradiction|reflexivity|reflexivity].
Qed.

Lemma armed_typingEffect prev s : armed s -> armed (typingEffect prev s).
Proof.
  intros H. unfold typingEffect. cbv zeta.
  destruct (sameTypingDeps prev (page s)); [exact H|].
  unfold seq, clearTimeoutOf, setTimeoutOwned, skip.
  destruct (negb (blank (ingredients (page s))) && negb (analyzing (page s))
            && negb (isListening (page s))).
  - intros Hsp.
    apply (fp_add (fun b => S (nextId b))
                  (fun b => mkTimer (nextId b) (now b + 500) OwnTypingEffect
                              (ActTyping (ingredients (page s)) (analyzing (page s))))).
    apply fp_keep; [discriminate|]. exact (H Hsp).
  - destruct (blank (ingredients (page s)) && AIState_eqb (aiState (page s)) listening
              && negb (analyzing (page s))).
    + intros Hsp. discriminate Hsp.
    + intros Hsp. apply fp_keep; [discriminate|]. exact (H Hsp).
Qed.

Lemma armed_effects prev s :
  (aiState prev = speaking -> armed s) -> armed (effects prev s).
Proof.
  intros H. unfold effects, seq.
  apply armed_speakingEffect, armed_typingEffect, armed_speakingEffect_after, H.
Qed.

Lemma armed_turn ev s : armed s -> armed (effects (page s) (handle ev s)).
Proof.
  intros H. apply armed_effects. intros Hsp _. apply fp_handle, H, Hsp.
Qed.

(** *** A timer that fires *)

Lemma idleOrListening_effects prev s :
  In (aiState (page s)) [idle; listening] ->
  In (aiState (page (effects prev s))) [idle; listening].
Proof.
  intros Hs. open_all. split_ifs; first [exact Hs | left; reflexivity].
Qed.

(** A timer that fires either leaves the page in [idle] or [listening], or
    is not the fallback set while speaking and changes nothing but the
    list of timers, from which it is gone. *)
Lemma fireTimer_quiet t s :
  In (aiState (page (fireTimer t s))) [idle; listening]
  \/ (aiState (page (fireTimer t s)) = aiState (page s)
      /\ timers (browser (fireTimer t s))
         = filter (fun u => negb (Nat.eqb (t_id u) (t_id t))) (timers (browser s))
      /\ t_act t <> ActSpeakingFallback speaking).
Proof.
  unfold fireTimer. unfold seq at 1 2.
  set (s0 := onBrowser _ s).
  assert (Hquiet : forall s1,
            aiState (page s1) = aiState (page s) ->
            sameTypingDeps (page s) (page s1) = true ->
            timers (browser s1) = timers (browser s0) ->
            aiState (page (effects (page s) s1)) = aiState (page s)
            /\ timers (browser (effects (page s) s1))
               = filter (fun u => negb (Nat.eqb (t_id u) (t_id t))) (timers (browser s))).
  { intros s1 Ha Hd Ht. destruct (effects_same_deps (page s) s1 Hd) as (Hp & Hb).
    rewrite Hp, Hb, Ha, AIState_eqb_refl. split; [reflexivity|]. rewrite Ht. reflexivity. }
  destruct (t_act t) as [|seen|ingr an|]; cbn [runTimer].
  - left. apply idleOrListening_effects. left. reflexivity.
  - destruct (AIState_eqb seen speaking) eqn:E.
    + left. apply idleOrListening_effects. left. reflexivity.
    + right. destruct (Hquiet s0) as (H1 & H2);
        [reflexivity|apply sameTypingDeps_same; reflexivity|reflexivity|].
      unfold skip. split; [exact H1|]. split; [exact H2|].
      intros Heq. injection Heq as ->. rewrite AIState_eqb_refl in E. discriminate.
  - destruct (negb (blank ingr) && negb an).
    + left. apply idleOrListening_effects. right. left. reflexivity.
    + right. destruct (Hquiet s0) as (H1 & H2);
        [reflexivity|apply sameTypingDeps_same; reflexivity|reflexivity|].
      unfold skip. split; [exact H1|]. split; [exact H2|]. discriminate.
  - right. destruct (Hquiet (setIsPreparing false s0)) as (H1 & H2);
      [reflexivity|apply sameTypingDeps_same; reflexivity|reflexivity|].
    split; [exact H1|]. split; [exact H2|]. discriminate.
Qed.

Lemma ids_distinct l (u t : Timer) :
  NoDup (map t_id l) -> In u l -> In t l -> u <> t -> t_id u <> t_id t.
Proof.
  induction l as [|a l IH]; cbn; [intros _ []|].
  intros H Hu Ht Hne. inversion H as [|? ? Hn Hl]; subst.
  destruct Hu as [->|Hu], Ht as [->|Ht].
  - contradiction.
  - intros Heq. apply Hn. rewrite Heq. apply in_map, Ht.
  - intros Heq. apply Hn. rewrite <- Heq. apply in_map, Hu.
  - apply IH; assumption.
Qed.

(** The fallback set while speaking outlives every other timer that
    fires. *)
Lemma fallback_survives t s u :
  timersDisciplined s ->
  In t (timers (browser s)) ->
  t_act t <> ActSpeakingFallback speaking ->
  In u (timers (browser s)) -> t_owner u = OwnSpeakingEffect ->
  In u (filter (fun v => negb (Nat.eqb (t_id v) (t_id t))) (timers (browser s))).
Proof.
  intros (Hnd & _ & Hact & _) Ht Hne Hu Ho.
  apply filter_In. split; [exact Hu|].
  apply negb_true_iff, Nat.eqb_neq.
  apply (ids_distinct _ _ _ Hnd Hu Ht).
  intros ->. destruct (timerSet_fallback _ _ (Hact t Ht) Ho) as [Ha _]. contradiction.
Qed.

Lemma idleOrListening_not_speaking a : In a [idle; listening] -> a <> speaking.
Proof. intros [<-|[<-|[]]]; discriminate. Qed.

Lemma armed_fireTimer t s :
  timersDisciplined s -> In t (timers (browser s)) ->
  armed s -> armed (fireTimer t s).
Proof.
  intros Hd Ht Hs. destruct (fireTimer_quiet t s) as [H|(Ha & Htm & Hne)].
  - intros Hsp. exfalso. exact (idleOrListening_not_speaking _ H Hsp).
  - intros Hsp. rewrite Ha in Hsp. destruct (Hs Hsp) as (u & Hu & Ho).
    exists u. split; [|exact Ho]. rewrite Htm.
    apply fallback_survives; assumption.
Qed.

Lemma armed_exec evs s :
  timersDisciplined s /\ armed s ->
  timersDisciplined (exec evs s) /\ armed (exec evs s).
Proof.
  apply (invariant_exec (fun s => timersDisciplined s /\ armed s)).
  - intros t s0 Hin [Hd Ha]. split; [apply td_fireTimer, Hd|].
    apply armed_fireTimer; assumption.
  - intros target s0 Hn [Hd Ha]. split; [apply td_clock; assumption|exact Ha].
  - intros ev s0 [Hd Ha]. split; [apply td_effects, td_handle, Hd|].
    apply armed_turn, Ha.
Qed.

Lemma armed_init r synth : timersDisciplined (init r synth) /\ armed (init r synth).
Proof.
  split.
  - unfold timersDisciplined, disciplined. destruct r; cbn.
    all: split; [constructor|]; split; [intros t []|]; split; [intros t []|]; split; lia.
  - intros H. discriminate H.
Qed.

(** X12. At most one typing timer and at most one speaking fallback timer
    are pending at any time, timer handles are never reused, and whenever
    the page is in [speaking] its fallback timer is pending and due within
    10 seconds. *)
Theorem effect_timers_are_debounced
        (r : RecognitionSupport) (synth : bool) (evs : list Event) :
  let b := browser (exec evs (init r synth)) in
  List.length (ownedBy OwnTypingEffect (timers b)) <= 1
  /\ List.length (ownedBy OwnSpeakingEffect (timers b)) <= 1
  /\ NoDup (map t_id (timers b))
  /\ (aiState (page (exec evs (init r synth))) = speaking ->
      exists t, ownedBy OwnSpeakingEffect (timers b) = [t]
                /\ t_act t = ActSpeakingFallback speaking
                /\ (t_due t <= now b + 10000)%Z).
Proof.
  cbv zeta.
  destruct (armed_exec evs _ (armed_init r synth)) as [Hd Ha].
  destruct Hd as (H1 & H2 & H3 & H4 & H5).
  split; [exact H5|]. split; [exact H4|]. split; [exact H1|].
  intros Hsp. destruct (Ha Hsp) as (u & Hu & Ho).
  assert (Hin : In u (ownedBy OwnSpeakingEffect
                        (timers (browser (exec evs (init r synth)))))).
  { apply filter_In. split; [exact Hu|]. rewrite Ho. reflexivity. }
  destruct (ownedBy OwnSpeakingEffect (timers (browser (exec evs (init r synth)))))
    as [|t [|t' l]] eqn:E.
  - destruct Hin.
  - destruct Hin as [->|[]]. exists u. split; [reflexivity|].
    apply (timerSet_fallback _ _ (H3 u Hu) Ho).
  - cbn in H4. lia.
Qed.

(** *** Ten seconds of speaking *)

Lemma fallbackDueBy_fireTimer D t s :
  In t (timers (browser s)) ->
  timersDisciplined s /\ fallbackDueBy D s ->
  timersDisciplined (fireTimer t s) /\ fallbackDueBy D (fireTimer t s).
Proof.
  intros Ht [Hd Hs]. split; [apply td_fireTimer, Hd|].
  destruct (fireTimer_quiet t s) as [H|(Ha & Htm & Hne)]; [right; exact H|].
  destruct Hs as [(Hsp & u & Hu & Ho & Hdue)|Hq].
  - left. split; [congruence|]. exists u. rewrite Htm.
    split; [apply fallback_survives; assumption|]. auto.
  - right. rewrite Ha. exact Hq.
Qed.

(** X13. When the page is in [speaking] and ten seconds pass without any
    event, the page is no longer in [speaking]: it is in [idle] or, if a
    typing timer fired last, in [listening]. *)
Theorem speaking_ends_within_ten_seconds
        (r : RecognitionSupport) (synth : bool) (evs : list Event) :
  aiState (page (exec evs (init r synth))) = speaking ->
  In (aiState (page (fire (Elapse 10000) (exec evs (init r synth))))) [idle; listening].
Proof.
  intros Hsp. set (s := exec evs (init r synth)) in *.
  destruct (armed_exec evs _ (armed_init r synth)) as [Hd Ha]. fold s in Hd, Ha.
  set (D := (now (browser s) + 10000)%Z).
  assert (H0 : timersDisciplined s /\ fallbackDueBy D s).
  { split; [exact Hd|]. left. split; [exact Hsp|].
    destruct (Ha Hsp) as (u & Hu & Ho). exists u.
    destruct Hd as (_ & _ & H3 & _).
    destruct (timerSet_fallback _ _ (H3 u Hu) Ho) as [_ Hdue].
    subst D. auto. }
  assert (H1 : timersDisciplined (elapse 10000 s) /\ fallbackDueBy D (elapse 10000 s)).
  { apply (invariant_elapse (fun s => timersDisciplined s /\ fallbackDueBy D s));
      [| |exact H0].
    - intros t s0. apply fallbackDueBy_fireTimer.
    - intros target s0 Hn [Hd0 Hs0]. split; [apply td_clock; assumption|exact Hs0]. }
  destruct H1 as [_ [(_ & u & Hu & _ & Hdue)|H1]]; [|exact H1].
  exfalso. pose proof (elapse_fires_all_due 10000 s ltac:(lia) u Hu). subst D. lia.
Qed.

(** The page is speaking the answer to "sugar". *)
Lemma speaking_ends_within_ten_seconds_witness :
  aiState (page (exec speakInFlight start)) = speaking
  /\ In (aiState (page (fire (Elapse 10000) (exec speakInFlight start)))) [idle; listening].
Proof.
  assert (H : aiState (page (exec speakInFlight start)) = speaking)
    by (vm_compute; reflexivity).
  split; [exact H|].
  exact (speaking_ends_within_ten_seconds RecognitionAvailable true speakInFlight H).
Defined.

End TimerFacts.

(** ** What follows a pause *)

Module PauseFacts.
Import Dashboard Scenarios DashboardFacts Invariants InvariantFacts TimerFacts.
Local Open Scope cmd_scope.

(** The guards inside the timer callbacks always pass. *)
Lemma runTimer_of_timerSet c t s :
  timerSet c t ->
  match t_owner t with
  | OwnSpeakingEffect => runTimer (t_act t) s = setAiState idle s
  | OwnTypingEffect => runTimer (t_act t) s = setAiState listening s
  | OwnNone => runTimer (t_act t) s = setAiState idle s
               \/ runTimer (t_act t) s = setIsPreparing false s
  end.
Proof.
  unfold timerSet. destruct (t_owner t).
  - intros [-> _]. reflexivity.
  - intros [(ingr & -> & Hb) _]. cbn [runTimer]. rewrite Hb. reflexivity.
  - intros [-> | ->]; [left|right]; reflexivity.
Qed.

(** X14. The guard in the callback of an effect's timer tests the values
    that the callback captured when the timer was set, and these are the
    values under which it was set: a pending fallback timer, when it
    fires, assigns [idle], and a pending typing timer assigns
    [listening], whatever the state is by then. *)
Theorem timer_guards_always_pass
        (r : RecognitionSupport) (synth : bool) (evs : list Event) (t : Timer) (s' : Sys) :
  In t (timers (browser (exec evs (init r synth)))) ->
  match t_owner t with
  | OwnSpeakingEffect => runTimer (t_act t) s' = setAiState idle s'
  | OwnTypingEffect => runTimer (t_act t) s' = setAiState listening s'
  | OwnNone => runTimer (t_act t) s' = setAiState idle s'
               \/ runTimer (t_act t) s' = setIsPreparing false s'
  end.
Proof.
  intros Hin.
  destruct (armed_exec evs _ (armed_init r synth)) as [(_ & _ & H3 & _) _].
  apply (runTimer_of_timerSet _ _ _ (H3 t Hin)).
Qed.

(** The timer set by the first keystroke, fired in any state. *)
Lemma timer_guards_always_pass_witness :
  runTimer (ActTyping "sugar" false) (exec clickThenAnalyze start)
  = setAiState listening (exec clickThenAnalyze start).
Proof.
  apply (timer_guards_always_pass RecognitionAvailable true [Typing "sugar"]
           Examples.firstTypingTimer (exec clickThenAnalyze start)).
  vm_compute. left. reflexivity.
Defined.

(** *** The pause after a keystroke *)

(** No timer callback makes the page speak, so the effects that follow a
    timer set no timer: they can only clear the fallback. *)
Lemma fireTimer_timers t s :
  exists g,
    timers (browser (fireTimer t s))
    = filter g (filter (fun u => negb (Nat.eqb (t_id u) (t_id t))) (timers (browser s)))
    /\ forall x, t_owner x <> OwnSpeakingEffect -> g x = true.
Proof.
  unfold fireTimer. unfold seq at 1 2.
  set (s0 := onBrowser _ s).
  assert (Hkeep : forall x, t_owner x <> OwnSpeakingEffect ->
                            negb (owner_eqb (t_owner x) OwnSpeakingEffect) = true).
  { intros x Hx. destruct (t_owner x); [contradiction|reflexivity|reflexivity]. }
  assert (Hall : forall (l : list Timer), l = filter (fun _ => true) l).
  { induction l as [|a l IH]; cbn; [reflexivity|]. rewrite <- IH. reflexivity. }
  assert (H : forall s1,
            sameTypingDeps (page s) (page s1) = true ->
            timers (browser s1) = timers (browser s0) ->
            (aiState (page s1) = aiState (page s)
             \/ AIState_eqb (aiState (page s1)) speaking = false) ->
            exists g,
              timers (browser (effects (page s) s1)) = filter g (timers (browser s0))
              /\ forall x, t_owner x <> OwnSpeakingEffect -> g x = true).
  { intros s1 Hd Ht Ha. destruct (effects_same_deps (page s) s1 Hd) as (_ & Hb).
    rewrite Hb.
    destruct (AIState_eqb (aiState (page s)) (aiState (page s1))) eqn:E1.
    - exists (fun _ => true). rewrite Ht. split; [apply Hall|reflexivity].
    - assert (E2 : AIState_eqb (aiState (page s1)) speaking = false).
      { destruct Ha as [Ha|Ha]; [|exact Ha].
        rewrite Ha, AIState_eqb_refl in E1. discriminate. }
      rewrite E2. cbn [timers withTimers]. rewrite Ht.
      exists (fun t0 => negb (owner_eqb (t_owner t0) OwnSpeakingEffect)).
      split; [reflexivity|exact Hkeep]. }
  destruct (t_act t) as [|seen|ingr an|]; cbn [runTimer].
  - apply H; [apply sameTypingDeps_same; reflexivity|reflexivity|right; reflexivity].
  - destruct (AIState_eqb seen speaking).
    + apply H; [apply sameTypingDeps_same; reflexivity|reflexivity|right; reflexivity].
    + apply H; [apply sameTypingDeps_same; reflexivity|reflexivity|left; reflexivity].
  - destruct (negb (blank ingr) && negb an).
    + apply H; [apply sameTypingDeps_same; reflexivity|reflexivity|right; reflexivity].
    + apply H; [apply sameTypingDeps_same; reflexivity|reflexivity|left; reflexivity].
  - apply H; [apply sameTypingDeps_same; reflexivity|reflexivity|left; reflexivity].
Qed.

Lemma fireTimer_typing t s ingr :
  t_act t = ActTyping ingr false -> blank ingr = false ->
  aiState (page (fireTimer t s)) = listening.
Proof.
  intros Ha Hb. unfold fireTimer. unfold seq at 1 2. rewrite Ha. cbn [runTimer].
  rewrite Hb. cbn [negb andb].
  set (s1 := setAiState listening _).
  destruct (effects_same_deps (page s) s1) as (Hp & _);
    [apply sameTypingDeps_same; reflexivity|].
  rewrite Hp. reflexivity.
Qed.

(** Among timers due at the same time the one set first fires first, so
    the last timer of the list fires only when no other is due. *)
Lemma nextTimer_picks_last target l u :
  nextTimer target (l ++ [u]) = Some u ->
  ~ In u l ->
  t_due u = target ->
  forall x, In x l -> (target < t_due x)%Z.
Proof.
  intros H Hu Hdue.
  induction l as [|a l IH]; [intros x []|].
  cbn [app nextTimer] in H.
  destruct (nextTimer target (l ++ [u])) as [v|] eqn:E.
  - assert (Hv : (t_due v <= target)%Z) by (apply (nextTimer_some _ _ _ E)).
    destruct (Z.leb_spec (t_due a) target) as [Ha|Ha]; cbn [andb] in H.
    + destruct (Z.leb_spec (t_due a) (t_due v)) as [Hav|Hav].
      * injection H as ->. exfalso. apply Hu. left. reflexivity.
      * injection H as ->. exfalso. lia.
    + injection H as ->.
      intros x [<-|Hx]; [exact Ha|].
      apply IH; [reflexivity|intros Hin; apply Hu; right; exact Hin|exact Hx].
  - exfalso.
    assert (Hin : In u (l ++ [u])) by (apply in_or_app; right; left; reflexivity).
    pose proof (nextTimer_none_inv _ _ E u Hin). lia.
Qed.

Lemma filter_snoc_keep {A} (f : A -> bool) l x :
  f x = true -> filter f (l ++ [x]) = filter f l ++ [x].
Proof. intros H. rewrite filter_app. cbn. rewrite H. reflexivity. Qed.

Lemma last_not_in l (u : Timer) : NoDup (map t_id (l ++ [u])) -> ~ In u l.
Proof.
  rewrite map_app. cbn. intros H Hin.
  apply NoDup_remove_2 in H. apply H. rewrite app_nil_r. apply in_map, Hin.
Qed.

(** When the last timer of the list is due at [D] and is not the
    fallback, it fires last of all timers due by [D], so its callback
    decides the state at [D]. *)
Lemma last_timer_decides u v D fuel s :
  t_owner u <> OwnSpeakingEffect ->
  (forall s0, aiState (page (fireTimer u s0)) = v) ->
  t_due u = D ->
  timersDisciplined s ->
  (exists L, timers (browser s) = L ++ [u])
  \/ (aiState (page s) = v
      /\ forall t, In t (timers (browser s)) -> (D < t_due t)%Z) ->
  List.length (timers (browser s)) <= fuel ->
  aiState (page (advance fuel D s)) = v.
Proof.
  intros Ho Hv Hdue. revert s.
  induction fuel as [|fuel IH]; intros s Hd Hs Hlen.
  - destruct Hs as [[L HL]|[Hl _]]; [|exact Hl].
    rewrite HL, length_app in Hlen. cbn in Hlen. lia.
  - cbn [advance].
    destruct (nextTimer D (timers (browser s))) as [t|] eqn:E.
    + destruct (nextTimer_some _ _ _ E) as [Hin Ht].
      destruct Hs as [[L HL]|[_ Hlate]]; [|specialize (Hlate t Hin); lia].
      pose proof Hd as (Hnd & _).
      assert (HuL : ~ In u L) by (apply last_not_in; rewrite <- HL; exact Hnd).
      destruct (fireTimer_timers t s) as (g & Hg & Hkeep).
      apply IH.
      * apply td_fireTimer, Hd.
      * rewrite HL in Hin. apply in_app_or in Hin.
        destruct Hin as [Hin|[<-|[]]].
        -- left. rewrite Hg, HL.
           assert (Hid : negb (Nat.eqb (t_id u) (t_id t)) = true).
           { apply negb_true_iff, Nat.eqb_neq.
             apply (ids_distinct (timers (browser s)) _ _ Hnd).
             - rewrite HL. apply in_or_app. right. left. reflexivity.
             - rewrite HL. apply in_or_app. left. exact Hin.
             - intros ->. contradiction. }
           rewrite (filter_snoc_keep (fun x => negb (Nat.eqb (t_id x) (t_id t))) L u Hid).
           rewrite filter_snoc_keep by (apply Hkeep; exact Ho).
           eexists. reflexivity.
        -- right. split; [apply Hv|].
           rewrite HL in E.
           pose proof (nextTimer_picks_last _ _ _ E HuL Hdue) as Hlate.
           intros x Hx. rewrite Hg in Hx. apply filter_In in Hx. destruct Hx as [Hx _].
           apply filter_In in Hx. destruct Hx as [Hx Hne]. rewrite HL in Hx.
           apply in_app_or in Hx. destruct Hx as [Hx|[<-|[]]]; [auto|].
           rewrite Nat.eqb_refl in Hne. discriminate.
      * pose proof (fireTimer_fewer_timers t s Hin). lia.
    + destruct Hs as [[L HL]|[Hl _]]; [|exact Hl].
      exfalso.
      assert (Hin : In u (timers (browser s)))
        by (rewrite HL; apply in_or_app; right; left; reflexivity).
      pose proof (nextTimer_none_inv _ _ E u Hin). lia.
Qed.

Lemma speakingEffect_frame prev s :
  page (speakingEffect prev s) = page s
  /\ now (browser (speakingEffect prev s)) = now (browser s).
Proof.
  unfold speakingEffect, seq, clearTimeoutOf, setTimeoutOwned, skip.
  split_ifs; split; reflexivity.
Qed.

(** When a callback has changed [ingredients], [analyzing] or [listening]
    and leaves non-blank text with no analysis and no recording, the last
    timer pending after the effects is the typing timer. *)
Lemma effects_rearm prev s :
  sameTypingDeps prev (page s) = false ->
  blank (ingredients (page s)) = false ->
  analyzing (page s) = false ->
  isListening (page s) = false ->
  aiState (page (effects prev s)) = aiState (page s)
  /\ exists L n,
       timers (browser (effects prev s))
       = L ++ [mkTimer n (now (browser s) + 500) OwnTypingEffect
                 (ActTyping (ingredients (page s)) false)].
Proof.
  intros Hd Hb Ha Hl. unfold effects, seq.
  destruct (speakingEffect_frame (aiState prev) s) as (Hp & Hn).
  set (s1 := speakingEffect (aiState prev) s) in *.
  assert (H2 : typingEffect prev s1
               = setTimeoutOwned OwnTypingEffect
                   (ActTyping (ingredients (page s)) false) 500
                   (clearTimeoutOf OwnTypingEffect s1)).
  { unfold typingEffect. cbv zeta. rewrite Hp, Hd, Hb, Ha, Hl. reflexivity. }
  rewrite H2.
  set (s2 := setTimeoutOwned _ _ _ _).
  assert (Hp2 : page s2 = page s1) by reflexivity.
  unfold speakingEffect. rewrite Hp2, AIState_eqb_refl.
  split; [rewrite Hp2, Hp; reflexivity|].
  subst s2. cbn [setTimeoutOwned clearTimeoutOf onBrowser browser timers withTimers now].
  rewrite Hn. eexists. eexists. reflexivity.
Qed.

Lemma effects_now prev s : now (browser (effects prev s)) = now (browser s).
Proof. open_all. split_ifs; reflexivity. Qed.

Lemma handle_now ev s : now (browser (handle ev s)) = now (browser s).
Proof. destruct ev; unfold handle; open_all; split_ifs; reflexivity. Qed.

(** ... and 500 ms later, with no event in between, the page listens. *)
Lemma listening_follows_change evs0 r synth ev :
  let s := exec evs0 (init r synth) in
  match ev with Elapse _ => False | _ => True end ->
  sameTypingDeps (page s) (page (handle ev s)) = false ->
  blank (ingredients (page (handle ev s))) = false ->
  analyzing (page (handle ev s)) = false ->
  isListening (page (handle ev s)) = false ->
  aiState (page (fire ev s)) = aiState (page (handle ev s))
  /\ aiState (page (exec [ev; Elapse 500] s)) = listening.
Proof.
  cbv zeta. intros Hev Hd Hb Ha Hl.
  set (s := exec evs0 (init r synth)) in *.
  destruct (effects_rearm (page s) (handle ev s) Hd Hb Ha Hl) as (H1 & L & n & Ht).
  assert (Hfire : fire ev s = effects (page s) (handle ev s))
    by (destruct ev; try reflexivity; contradiction).
  rewrite <- Hfire in H1, Ht.
  split; [exact H1|].
  cbn [exec]. set (s' := fire ev s) in *.
  assert (Hd' : timersDisciplined s').
  { subst s' s. change (timersDisciplined (exec [ev] (exec evs0 (init r synth)))).
    apply td_exec, armed_exec, armed_init. }
  assert (Hnow : now (browser s') = now (browser (handle ev s))).
  { subst s'. rewrite Hfire. apply effects_now. }
  unfold fire, elapse. cbn [Z.ltb Z.compare]. rewrite Hnow.
  apply (last_timer_decides
           (mkTimer n (now (browser (handle ev s)) + 500) OwnTypingEffect
                    (ActTyping (ingredients (page (handle ev s))) false)));
    [discriminate| |reflexivity|exact Hd'|left; eexists; exact Ht|apply Nat.le_refl].
  intros s0. apply (fireTimer_typing _ _ (ingredients (page (handle ev s))));
    [reflexivity|exact Hb].
Qed.

(** X15. A keystroke that leaves non-blank text in the field, while no
    analysis runs and the page is not recording, does not change the
    state by itself; when 500 ms then pass without another event the page
    is in [listening], whatever else was pending. *)
Theorem typing_pause_shows_listening
        (r : RecognitionSupport) (synth : bool) (evs : list Event) (v : string) :
  let s := exec evs (init r synth) in
  v <> ingredients (page s) ->
  blank v = false ->
  analyzing (page s) = false ->
  isListening (page s) = false ->
  aiState (page (fire (Typing v) s)) = aiState (page s)
  /\ aiState (page (exec [Typing v; Elapse 500] s)) = listening.
Proof.
  cbv zeta. intros Hv Hb Ha Hl.
  apply (listening_follows_change evs r synth (Typing v)); try assumption.
  - exact I.
  - unfold sameTypingDeps. cbn [handle setIngredients onPage page ingredients].
    replace (String.eqb (ingredients (page (exec evs (init r synth)))) v) with false;
      [reflexivity|].
    symmetry. apply String.eqb_neq. congruence.
Qed.

(** The first keystrokes on a fresh page. *)
Lemma typing_pause_shows_listening_witness :
  aiState (page (fire (Typing "sugar") start)) = idle
  /\ aiState (page (exec [Typing "sugar"; Elapse 500] start)) = listening.
Proof.
  apply (typing_pause_shows_listening RecognitionAvailable true [] "sugar").
  - discriminate.
  - reflexivity.
  - reflexivity.
  - reflexivity.
Defined.

(** *** The half second after an analysis *)

Section NoEarlier.

Variable s0 : Sys.
Variable d : Z.

Lemma ne_same (c : Cmd) s :
  timers (browser (c s)) = timers (browser s) ->
  now (browser (c s)) = now (browser s) ->
  setNoEarlierThan s0 d s -> setNoEarlierThan s0 d (c s).
Proof. unfold setNoEarlierThan. intros -> ->. auto. Qed.

Lemma ne_add own act delay s :
  (d <= delay)%Z ->
  setNoEarlierThan s0 d s ->
  setNoEarlierThan s0 d
    (onBrowser (fun b => withTimers (S (nextId b))
                           (timers b ++ [mkTimer (nextId b) (now b + delay) own act]) b) s).
Proof.
  intros Hd [Hn Ht]. split; [exact Hn|].
  intros t Hin. cbn in Hin. apply in_app_or in Hin.
  destruct Hin as [Hin|[<-|[]]]; [auto|]. right. cbn [t_due]. lia.
Qed.

Lemma ne_filter f s :
  setNoEarlierThan s0 d s ->
  setNoEarlierThan s0 d
    (onBrowser (fun b => withTimers (nextId b) (filter f (timers b)) b) s).
Proof.
  intros [Hn Ht]. split; [exact Hn|].
  intros t Hin. cbn in Hin. apply filter_In in Hin. apply Ht. tauto.
Qed.

End NoEarlier.

Ltac ne_step :=
  lazymatch goal with
  | |- setNoEarlierThan _ _ (setAiState _ _) =>
      apply (ne_same _ _ (setAiState _)); [reflexivity|reflexivity|]
  | |- setNoEarlierThan _ _ (call _ _) =>
      apply (ne_same _ _ (call _)); [reflexivity|reflexivity|]
  | |- setNoEarlierThan _ _ (onPage _ _) =>
      apply (ne_same _ _ (onPage _)); [reflexivity|reflexivity|]
  | |- setNoEarlierThan _ _ (onBrowser (fun b => withTimers _ (timers b ++ _) b) _) =>
      apply ne_add; [lia|]
  | |- setNoEarlierThan _ _ (onBrowser (fun b => withTimers _ (filter _ _) b) _) =>
      apply ne_filter
  | |- setNoEarlierThan _ _ (onBrowser _ _) =>
      apply (ne_same _ _ (onBrowser _)); [reflexivity|reflexivity|]
  end.

(** The timers that the effects set are due 500 ms later or more. *)
Lemma ne_effects s0 prev s :
  setNoEarlierThan s0 500 s -> setNoEarlierThan s0 500 (effects prev s).
Proof.
  intros Hs. unfold effects, speakingEffect, typingEffect, clearTimeoutOf, setTimeoutOwned,
               seq, skip.
  split_ifs; repeat ne_step; assumption.
Qed.

(** So is the reset that a failed analysis sets. *)
Lemma ne_analysis_completion s id ev :
  (ev = AnalyzeRejected id \/ exists a, ev = AnalyzeResolved id a) ->
  setNoEarlierThan s 500 (fire ev s).
Proof.
  intros Hev.
  assert (H0 : setNoEarlierThan s 500 s) by (split; [reflexivity|auto]).
  destruct Hev as [->|[a ->]]; unfold fire, seq; apply ne_effects; unfold handle;
    do 2 open_callbacks; split_ifs; repeat ne_step; assumption.
Qed.

(** While nothing is due, time passes and the state stays. *)
Lemma quiet_until s0 d s ms :
  setNoEarlierThan s0 d s ->
  (forall t, In t (timers (browser s0)) -> (now (browser s0) + d <= t_due t)%Z) ->
  (0 <= ms < d)%Z ->
  aiState (page (fire (Elapse ms) s)) = aiState (page s).
Proof.
  intros [Hn Ht] Hlate Hms. unfold fire, elapse.
  destruct (Z.ltb_spec ms 0) as [Hneg|_]; [lia|].
  rewrite advance_none; [reflexivity|].
  apply nextTimer_none. intros t Hin. rewrite Hn.
  destruct (Ht t Hin) as [Hold|Hnew]; [specialize (Hlate t Hold)|]; lia.
Qed.

(** X16. When an analysis request completes, with or without success, while
    the field holds non-blank text and the page is not recording, the
    callback assigns [speaking], [idle] or [warning]; the change of
    [analyzing] re-runs the typing effect, and 500 ms later, with no event
    in between, the page is in [listening], so the assigned state lasts
    500 ms at most.  It lasts the whole 500 ms when no timer set before
    the completion is due in that time. *)
Theorem analysis_completion_shows_listening
        (r : RecognitionSupport) (synth : bool) (evs : list Event)
        (id : nat) (ev : Event) :
  let s := exec evs (init r synth) in
  (ev = AnalyzeRejected id \/ exists a, ev = AnalyzeResolved id a) ->
  hasId id (analyzeFetches (browser s)) = true ->
  analyzing (page s) = true ->
  blank (ingredients (page s)) = false ->
  isListening (page s) = false ->
  In (aiState (page (fire ev s))) [speaking; idle; warning]
  /\ aiState (page (exec [ev; Elapse 500] s)) = listening
  /\ ((forall t, In t (timers (browser s)) -> (now (browser s) + 500 <= t_due t)%Z) ->
      forall ms, (0 <= ms < 500)%Z ->
                 aiState (page (exec [ev; Elapse ms] s)) = aiState (page (fire ev s))).
Proof.
  cbv zeta. intros Hev Hid Ha Hb Hl.
  set (s := exec evs (init r synth)) in *.
  assert (Hpage : ingredients (page (handle ev s)) = ingredients (page s)
                  /\ analyzing (page (handle ev s)) = false
                  /\ isListening (page (handle ev s)) = isListening (page s)
                  /\ In (aiState (page (handle ev s))) [speaking; idle; warning]).
  { destruct Hev as [->|[a ->]]; unfold handle; rewrite Hid.
    - repeat split. right. right. left. reflexivity.
    - open_all. split_ifs; repeat split;
        first [ left; reflexivity | right; left; reflexivity
              | right; right; left; reflexivity ]. }
  destruct Hpage as (Hi & Han & Hli & Hst).
  destruct (listening_follows_change evs r synth ev) as (H1 & H2).
  - destruct Hev as [->|[a ->]]; exact I.
  - fold s. unfold sameTypingDeps. rewrite Han, Ha. cbn.
    rewrite andb_false_r. reflexivity.
  - fold s. rewrite Hi. exact Hb.
  - fold s. exact Han.
  - fold s. rewrite Hli. exact Hl.
  - fold s in H1, H2. split; [rewrite H1; exact Hst|]. split; [exact H2|].
    intros Hlate ms Hms. cbn [exec].
    apply (quiet_until s 500); [apply (ne_analysis_completion s id), Hev|exact Hlate|exact Hms].
Qed.

(** The analysis of "sugar" fails. *)
Lemma analysis_completion_shows_listening_witness :
  In (aiState (page (fire (AnalyzeRejected 2) (exec analysisInFlight start))))
     [speaking; idle; warning]
  /\ aiState (page (exec [AnalyzeRejected 2; Elapse 500] (exec analysisInFlight start)))
     = listening
  /\ aiState (page (exec [AnalyzeRejected 2; Elapse 499] (exec analysisInFlight start)))
     = warning.
Proof.
  destruct (analysis_completion_shows_listening
              RecognitionAvailable true analysisInFlight 2 (AnalyzeRejected 2))
    as (H1 & H2 & H3).
  - left. reflexivity.
  - reflexivity.
  - reflexivity.
  - reflexivity.
  - reflexivity.
  - split; [exact H1|]. split; [exact H2|].
    transitivity (aiState (page (fire (AnalyzeRejected 2) (exec analysisInFlight start)))).
    + apply H3; [vm_compute; intros t []|lia].
    + reflexivity.
Defined.

(** *** The three-second reset *)

Lemma fire_reset_last ev s x :
  match ev with Elapse _ => False | _ => True end ->
  sameTypingDeps (page s) (page (handle ev s)) = true ->
  AIState_eqb (aiState (page (handle ev s))) speaking = false ->
  timers (browser (handle ev s)) = timers (browser s) ++ [x] ->
  t_owner x = OwnNone ->
  aiState (page (fire ev s)) = aiState (page (handle ev s))
  /\ now (browser (fire ev s)) = now (browser s)
  /\ exists L, timers (browser (fire ev s)) = L ++ [x].
Proof.
  intros Hev Hd Hsp Ht Ho.
  assert (Hfire : fire ev s = effects (page s) (handle ev s))
    by (destruct ev; try reflexivity; contradiction).
  rewrite Hfire. destruct (effects_same_deps _ _ Hd) as (Hp & Hb).
  split; [rewrite Hp; reflexivity|].
  split; [rewrite effects_now; apply handle_now|].
  rewrite Hb, Hsp.
  destruct (AIState_eqb (aiState (page s)) (aiState (page (handle ev s)))).
  - eexists. exact Ht.
  - cbn [timers withTimers]. rewrite Ht, filter_app. cbn [filter].
    rewrite Ho. cbn. eexists. reflexivity.
Qed.

(** X17. Three seconds after a click on the mascot, or after Analyze was
    run on blank input, with no event in between, the page is in [idle],
    whatever else was pending: the reset is the last timer due. *)
Theorem three_second_reset_lands
        (r : RecognitionSupport) (synth : bool) (evs : list Event) :
  let s := exec evs (init r synth) in
  aiState (page (fire CopilotClick s)) = laugh
  /\ aiState (page (exec [CopilotClick; Elapse 3000] s)) = idle
  /\ (blank (ingredients (page s)) = true ->
      aiState (page (fire AnalyzeClick s)) = warning
      /\ aiState (page (exec [AnalyzeClick; Elapse 3000] s)) = idle).
Proof.
  cbv zeta. set (s := exec evs (init r synth)).
  assert (Hlands : forall ev v,
            match ev with Elapse _ => False | _ => True end ->
            sameTypingDeps (page s) (page (handle ev s)) = true ->
            aiState (page (handle ev s)) = v ->
            AIState_eqb v speaking = false ->
            timers (browser (handle ev s))
            = timers (browser s)
                ++ [mkTimer (nextId (browser s)) (now (browser s) + 3000)
                      OwnNone ActResetIdle] ->
            aiState (page (fire ev s)) = v
            /\ aiState (page (exec [ev; Elapse 3000] s)) = idle).
  { intros ev v Hev Hdeps Hv Hsp Ht. rewrite <- Hv in Hsp.
    destruct (fire_reset_last ev s _ Hev Hdeps Hsp Ht eq_refl) as (H1 & Hnow & L & HL).
    split; [rewrite H1; exact Hv|].
    cbn [exec]. set (s' := fire ev s) in *.
    assert (Hd' : timersDisciplined s').
    { subst s' s. change (timersDisciplined (exec [ev] (exec evs (init r synth)))).
      apply td_exec, armed_exec, armed_init. }
    unfold fire, elapse. cbn [Z.ltb Z.compare]. rewrite Hnow.
    apply (last_timer_decides
             (mkTimer (nextId (browser s)) (now (browser s) + 3000) OwnNone ActResetIdle));
      [discriminate| |reflexivity|exact Hd'|left; eexists; exact HL|apply Nat.le_refl].
    intros s0. apply fireTimer_reset_idle. reflexivity. }
  destruct (Hlands CopilotClick laugh I) as (H1 & H2);
    [apply sameTypingDeps_same; reflexivity|reflexivity|reflexivity|reflexivity|].
  split; [exact H1|]. split; [exact H2|].
  intros Hb. apply (Hlands AnalyzeClick warning I).
  - apply sameTypingDeps_same; unfold handle, handleAnalyze; rewrite Hb; reflexivity.
  - unfold handle, handleAnalyze. rewrite Hb. reflexivity.
  - reflexivity.
  - unfold handle, handleAnalyze. rewrite Hb. reflexivity.
Qed.

End PauseFacts.

(** ** Failures *)

Module FailureFacts.
Import Dashboard Scenarios DashboardFacts Invariants.
Local Open Scope cmd_scope.

(** *** The messages are never empty *)

Ltac nonempty :=
  repeat match goal with
         | |- context [if ?c then _ else _] => destruct c eqn:?
         end;
  first [reflexivity | assumption].

Lemma probeErrorMessage_nonempty e : Js.truthyString (probeErrorMessage e) = true.
Proof. unfold probeErrorMessage. nonempty. Qed.

Lemma startErrorMessage_nonempty e : Js.truthyString (startErrorMessage e) = true.
Proof. unfold startErrorMessage. nonempty. Qed.

Lemma recognitionErrorMessage_nonempty err :
  Js.truthyString (recognitionErrorMessage err) = true.
Proof. unfold recognitionErrorMessage. nonempty. Qed.

Lemma mediaErrorMessage_nonempty err : Js.truthyString (mediaErrorMessage err) = true.
Proof.
  unfold mediaErrorMessage. destruct err as [e|]; [|reflexivity].
  destruct (code e) as [|[|[|[|[|c]]]]]; reflexivity.
Qed.

Lemma playErrorMessage_nonempty e : Js.truthyString (playErrorMessage e) = true.
Proof. unfold playErrorMessage. nonempty. Qed.

Lemma speakFailureMessage_nonempty d status :
  Js.truthyString (speakFailureMessage d status) = true.
Proof. unfold speakFailureMessage. destruct (error d); nonempty. Qed.

(** *** Every failure is reported *)

Lemma failure_handle s ev f :
  enabled ev s = true ->
  failureOf s ev = Some f ->
  Js.truthyString (shownError f (handle ev s)) = true
  /\ In (aiState (page (handle ev s))) [idle; warning].
Proof.
  intros He Hf.
  assert (Hidle : In idle [idle; warning]) by (left; reflexivity).
  assert (Hwarn : In warning [idle; warning]) by (right; left; reflexivity).
  destruct ev; cbn [failureOf] in Hf; try discriminate; cbn [enabled] in He;
    unfold handle.
  - (* AnalyzeResolved *)
    rewrite He. destruct (ar_ok r) eqn:Eok; [discriminate|]. injection Hf as <-.
    unfold seq, handleAnalyze_resolved. rewrite Eok. split; [reflexivity|exact Hwarn].
  - (* AnalyzeRejected *)
    rewrite He. injection Hf as <-. split; [reflexivity|exact Hwarn].
  - (* SpeakResolved *)
    destruct (lookupKey id (speakFetches (browser s))) as [text|]; [|discriminate].
    unfold seq, speakText_resolved.
    destruct (negb (res_ok res)).
    + destruct (useBrowserTTS _).
      * destruct (speechSynthesisInWindow (browser s)) eqn:Ew; [discriminate|].
        injection Hf as <-. unfold speakWithBrowserTTS.
        change (speechSynthesisInWindow (browser (onBrowser _ s)))
          with (speechSynthesisInWindow (browser s)).
        rewrite Ew. split; [reflexivity|exact Hidle].
      * injection Hf as <-. split; [apply speakFailureMessage_nonempty|exact Hidle].
    + destruct (negb (isAudioType (res_contentType res))).
      * injection Hf as <-. split; [reflexivity|exact Hidle].
      * destruct (Nat.eqb (res_blobSize res) 0).
        -- injection Hf as <-. split; [reflexivity|exact Hidle].
        -- destruct (res_play res) as [e|]; [|discriminate]. injection Hf as <-.
           split; [apply playErrorMessage_nonempty|exact Hidle].
  - (* SpeakRejected *)
    destruct (lookupKey id (speakFetches (browser s))); [|discriminate].
    injection Hf as <-. split; [reflexivity|exact Hidle].
  - (* AudioError *)
    rewrite He. injection Hf as <-. split; [apply mediaErrorMessage_nonempty|exact Hidle].
  - (* UtteranceError *)
    destruct (lookupKey id (utterances (browser s))); [|discriminate].
    injection Hf as <-. split; [reflexivity|exact Hidle].
  - (* ProbeGranted *)
    rewrite He. destruct startError as [e|]; [|discriminate]. injection Hf as <-.
    unfold seq, handleStartListening_granted, seq. rewrite callMany_calls.
    split; [apply startErrorMessage_nonempty|exact Hidle].
  - (* ProbeDenied *)
    rewrite He. injection Hf as <-. split; [apply probeErrorMessage_nonempty|exact Hidle].
  - (* RecognitionOnResult *)
    rewrite He. destruct transcript; [discriminate|]. injection Hf as <-.
    split; [reflexivity|exact Hidle].
  - (* RecognitionOnError *)
    rewrite He. injection Hf as <-.
    split; [apply recognitionErrorMessage_nonempty|exact Hidle].
Qed.

(** X18. Every failure of an operation of the page - analysis, speech
    request, playback, utterance, microphone permission, recognition -
    leaves a non-empty message in the field that shows it and the page in
    [idle] or [warning]: no failure is silent, and none leaves the page in
    [thinking], [speaking] or [listening]. *)
Theorem every_failure_is_reported (s : Sys) (ev : Event) (f : Field) :
  enabled ev s = true ->
  failureOf s ev = Some f ->
  Js.truthyString (shownError f (fire ev s)) = true
  /\ In (aiState (page (fire ev s))) [idle; warning].
Proof.
  intros He Hf. destruct (failure_handle s ev f He Hf) as (Hm & Hst).
  assert (Hfire : fire ev s = effects (page s) (handle ev s))
    by (destruct ev; try reflexivity; discriminate).
  assert (Hp : page (fire ev s) = page (handle ev s)).
  { rewrite Hfire. apply effects_not_listening.
    destruct Hst as [<-|[<-|[]]]; discriminate. }
  unfold shownError in *. rewrite Hp. split; assumption.
Qed.

(** The user refuses the microphone. *)
Lemma every_failure_is_reported_witness :
  Js.truthyString (shownError MicErrorField
                     (fire (ProbeDenied 0 notAllowed) (exec probeInFlight start))) = true
  /\ In (aiState (page (fire (ProbeDenied 0 notAllowed) (exec probeInFlight start))))
        [idle; warning].
Proof.
  apply (every_failure_is_reported (exec probeInFlight start) (ProbeDenied 0 notAllowed)).
  - reflexivity.
  - reflexivity.
Defined.

End FailureFacts.

(** ** The analyze route and the page *)

Module AnalyzeClientFacts.
Import AnalyzeRoute AnalyzeFacts Dashboard Scenarios Wire DashboardFacts.
Local Open Scope cmd_scope.

Lemma confidenceOf_table :
  forallb (fun m =>
    forallb (fun n => implb (Nat.leb n m)
                            (PrimFloat.leb (confidenceOf m) (confidenceOf n)))
            (List.seq 0 15))
    (List.seq 0 15) = true.
Proof. vm_compute. reflexivity. Qed.

Lemma confidenceOf_falls n m :
  n <= m -> m <= 14 ->
  PrimFloat.leb (confidenceOf m) (confidenceOf n) = true.
Proof.
  intros Hnm Hm. pose proof confidenceOf_table as H.
  assert (Hin : forall k, k <= 14 -> In k (List.seq 0 15)) by (intros k Hk; apply in_seq; lia).
  rewrite forallb_forall in H. specialize (H m (Hin m Hm)).
  rewrite forallb_forall in H. specialize (H n (Hin n ltac:(lia))).
  apply Nat.leb_le in Hnm. rewrite Hnm in H. exact H.
Qed.

Lemma confidenceOf_zero_iff n :
  n <= 14 -> PrimFloat.eqb (confidenceOf n) 0 = Nat.leb 7 n.
Proof. intros H. each_count n. Qed.

Lemma confidenceOf_one_iff n :
  n <= 14 -> PrimFloat.eqb (confidenceOf n) 1 = Nat.eqb n 0.
Proof. intros H. each_count n. Qed.

(** X19. The confidence that the analyze route returns falls as the number
    of uncertainty keywords found grows; it is 1 exactly when none is
    found and 0 exactly when seven or more are. *)
Theorem confidence_falls_with_keyword_count
        (toLowerCase : string -> string) (text1 text2 : string) :
  uncertaintyCount toLowerCase text1 <= uncertaintyCount toLowerCase text2 ->
  PrimFloat.leb (confidence (respond toLowerCase text2))
                (confidence (respond toLowerCase text1)) = true
  /\ PrimFloat.eqb (confidence (respond toLowerCase text1)) 1
     = Nat.eqb (uncertaintyCount toLowerCase text1) 0
  /\ PrimFloat.eqb (confidence (respond toLowerCase text1)) 0
     = Nat.leb 7 (uncertaintyCount toLowerCase text1).
Proof.
  intros Hle.
  pose proof (uncertaintyCount_le_14 toLowerCase text1) as H1.
  pose proof (uncertaintyCount_le_14 toLowerCase text2) as H2.
  unfold respond. cbn [confidence].
  split; [apply confidenceOf_falls; assumption|].
  split; [apply confidenceOf_one_iff|apply confidenceOf_zero_iff]; assumption.
Qed.

(** A plain answer and a hedged one. *)
Lemma confidence_falls_with_keyword_count_witness :
  PrimFloat.leb (confidence (respond lowerAZ Examples.hedged))
                (confidence (respond lowerAZ "Sugar is fine")) = true
  /\ PrimFloat.eqb (confidence (respond lowerAZ "Sugar is fine")) 1 = true.
Proof.
  destruct (confidence_falls_with_keyword_count lowerAZ "Sugar is fine" Examples.hedged)
    as (H1 & H2 & _).
  - vm_compute. repeat constructor.
  - split; [exact H1|]. rewrite H2. reflexivity.
Defined.

Lemma calls_onPage f s : calls (browser (onPage f s)) = calls (browser s).
Proof. reflexivity. Qed.

Lemma calls_onBrowser f s :
  (forall b, calls (f b) = calls b) ->
  calls (browser (onBrowser f s)) = calls (browser s).
Proof. intros H. apply H. Qed.

Lemma calls_call c s : calls (browser (call c s)) = calls (browser s) ++ [c].
Proof. reflexivity. Qed.

Lemma calls_setAiState v s :
  calls (browser (setAiState v s)) = calls (browser s) ++ [SetAiState v].
Proof. reflexivity. Qed.

Lemma uncertainOrLow_of_count n (t : option string) :
  n <= 14 ->
  uncertainOrLow (mkData t (jsonNumber (confidenceOf n))
                         (Some (isUncertainOf (confidenceOf n) n)))
  = Nat.leb 3 n
  /\ jsonNumber (confidenceOf n) = Some (confidenceOf n).
Proof. intros H. each_count n. Qed.

(** X20. For a reply that the analyze route produces, the page's test
    [data.isUncertain || (data.confidence && data.confidence < 0.7)] is
    true exactly when three or more keywords were found, also when the
    confidence is 0: the callback then assigns [unsure] and, for a
    non-empty text, goes on to [speaking] and requests the speech. *)
Theorem route_reply_is_unsure_iff_three_keywords
        (toLowerCase : string -> string) (text : string) (s : Sys) (id : nat) :
  hasId id (analyzeFetches (browser s)) = true ->
  let n := uncertaintyCount toLowerCase text in
  let reply := analyzeReply (respond toLowerCase text) in
  uncertainOrLow (ar_data reply) = Nat.leb 3 n
  /\ d_confidence (ar_data reply) = Some (confidence (respond toLowerCase text))
  /\ calls (browser (handle (AnalyzeResolved id reply) s))
     = calls (browser s)
         ++ (if Nat.leb 3 n then [SetAiState unsure] else [])
         ++ (if Js.truthyString text
             then [SetAiState speaking; FetchSpeak text]
             else [SetAiState idle]).
Proof.
  intros Hid. cbv zeta.
  pose proof (uncertaintyCount_le_14 toLowerCase text) as Hle.
  unfold handle. rewrite Hid. unfold seq, handleAnalyze_resolved, speakOrIdle.
  unfold analyzeReply, respond.
  cbn [ar_ok ar_data d_text d_confidence AnalyzeRoute.text confidence isUncertain negb].
  set (n := uncertaintyCount toLowerCase text) in *.
  destruct (uncertainOrLow_of_count n (Some text) Hle) as (Hu & Hj).
  rewrite Hu. split; [reflexivity|]. split; [exact Hj|].
  destruct (Nat.leb 3 n), (Js.truthyString text);
    unfold speakText, fetchSpeak, setAnalysisResult, setAnalyzing, seq;
    repeat first [ rewrite calls_setAiState | rewrite calls_call | rewrite calls_onPage
                 | rewrite calls_onBrowser by reflexivity ];
    rewrite <- ?app_assoc; reflexivity.
Qed.

(** The route's reply to a hedged answer reaches the page. *)
Lemma route_reply_is_unsure_iff_three_keywords_witness :
  calls (browser (handle (AnalyzeResolved 2 (analyzeReply (respond lowerAZ Examples.hedged)))
                         (exec analysisInFlight start)))
  = calls (browser (exec analysisInFlight start))
      ++ [SetAiState unsure; SetAiState speaking; FetchSpeak Examples.hedged].
Proof.
  destruct (route_reply_is_unsure_iff_three_keywords
              lowerAZ Examples.hedged (exec analysisInFlight start) 2) as (_ & _ & H).
  - reflexivity.
  - exact H.
Defined.

(** *** What the page does with an uncertain reply *)

(** What the callback does with a reply of the route. *)
Lemma route_reply_handle toLowerCase text s id :
  hasId id (analyzeFetches (browser s)) = true ->
  Js.truthyString text = true ->
  let s1 := handle (AnalyzeResolved id (analyzeReply (respond toLowerCase text))) s in
  calls (browser s1)
  = calls (browser s)
      ++ (if Nat.leb 3 (uncertaintyCount toLowerCase text) then [SetAiState unsure] else [])
      ++ [SetAiState speaking; FetchSpeak text]
  /\ aiState (page s1) = speaking.
Proof.
  intros Hid Ht. cbv zeta.
  pose proof (uncertaintyCount_le_14 toLowerCase text) as Hle.
  unfold handle. rewrite Hid. unfold seq, handleAnalyze_resolved, speakOrIdle.
  unfold analyzeReply, respond.
  cbn [ar_ok ar_data d_text d_confidence AnalyzeRoute.text confidence isUncertain negb].
  set (n := uncertaintyCount toLowerCase text) in *.
  destruct (uncertainOrLow_of_count n (Some text) Hle) as (Hu & _).
  rewrite Hu, Ht.
  destruct (Nat.leb 3 n);
    (split; [|reflexivity]);
    unfold speakText, fetchSpeak, setAnalysisResult, setAnalyzing, seq;
    repeat first [ rewrite calls_setAiState | rewrite calls_call | rewrite calls_onPage
                 | rewrite calls_onBrowser by reflexivity ];
    rewrite <- ?app_assoc; reflexivity.
Qed.

(** C4 at the replies of the analyze route with a non-empty text, arriving
    for a request in flight.  When three or more uncertainty keywords were
    found the reply carries [isUncertain: true] and a confidence below
    0.7; the callback assigns [unsure] and then, in the same run,
    [speakText] assigns [speaking] and requests the speech: the callback
    ends with the page in [speaking], not in [unsure].  When fewer than
    three were found the reply is not flagged, its confidence is at least
    0.7, and [speaking] is the only state assigned. *)
Theorem route_reply_ends_in_speaking
        (toLowerCase : string -> string) (text : string) (s : Sys) (id : nat) :
  hasId id (analyzeFetches (browser s)) = true ->
  Js.truthyString text = true ->
  let n := uncertaintyCount toLowerCase text in
  let result := respond toLowerCase text in
  let s' := fire (AnalyzeResolved id (analyzeReply result)) s in
  (3 <= n ->
   isUncertain result = true
   /\ PrimFloat.ltb (confidence result) 0.7 = true
   /\ calls (browser s')
      = calls (browser s) ++ [SetAiState unsure; SetAiState speaking; FetchSpeak text]
   /\ aiState (page s') = speaking)
  /\ (n < 3 ->
      isUncertain result = false
      /\ PrimFloat.ltb (confidence result) 0.7 = false
      /\ calls (browser s')
         = calls (browser s) ++ [SetAiState speaking; FetchSpeak text]
      /\ aiState (page s') = speaking).
Proof.
  intros Hid Ht. cbv zeta.
  pose proof (uncertaintyCount_le_14 toLowerCase text) as Hle.
  pose proof (confidenceOf_low_iff _ Hle) as Hlow.
  destruct (route_reply_handle toLowerCase text s id Hid Ht) as (Hc & Ha).
  assert (Hfire : page (fire (AnalyzeResolved id (analyzeReply (respond toLowerCase text))) s)
                  = page (handle (AnalyzeResolved id (analyzeReply (respond toLowerCase text))) s)
                  /\ calls (browser (fire (AnalyzeResolved id
                                             (analyzeReply (respond toLowerCase text))) s))
                     = calls (browser (handle (AnalyzeResolved id
                                                 (analyzeReply (respond toLowerCase text))) s))).
  { unfold fire, seq.
    match goal with |- context [effects ?q ?x] => set (s1 := x) in * end.
    destruct (effects_not_listening (page s) s1) as (Hp & n0 & l & Hb);
      [rewrite Ha; discriminate|].
    rewrite Hp, Hb. split; reflexivity. }
  destruct Hfire as (Hp & Hcalls). rewrite Hp, Hcalls, Ha, Hc.
  assert (Hun : isUncertain (respond toLowerCase text)
                = Nat.leb 3 (uncertaintyCount toLowerCase text)).
  { unfold respond. cbn [isUncertain]. unfold isUncertainOf. rewrite Hlow.
    apply Bool.orb_diag. }
  change (confidence (respond toLowerCase text))
    with (confidenceOf (uncertaintyCount toLowerCase text)).
  rewrite Hun, Hlow.
  split; intros Hn.
  - apply Nat.leb_le in Hn. rewrite Hn. repeat split.
  - apply Nat.leb_gt in Hn. rewrite Hn. repeat split.
Qed.

(** The route's reply to a hedged answer. *)
Lemma route_reply_ends_in_speaking_witness :
  isUncertain (respond lowerAZ Examples.hedged) = true
  /\ PrimFloat.ltb (confidence (respond lowerAZ Examples.hedged)) 0.7 = true
  /\ calls (browser (fire (AnalyzeResolved 2 (analyzeReply (respond lowerAZ Examples.hedged)))
                          (exec analysisInFlight start)))
     = calls (browser (exec analysisInFlight start))
         ++ [SetAiState unsure; SetAiState speaking; FetchSpeak Examples.hedged]
  /\ aiState (page (fire (AnalyzeResolved 2 (analyzeReply (respond lowerAZ Examples.hedged)))
                         (exec analysisInFlight start)))
     = speaking.
Proof.
  destruct (route_reply_ends_in_speaking lowerAZ Examples.hedged
              (exec analysisInFlight start) 2) as (H & _).
  - reflexivity.
  - reflexivity.
  - apply H. vm_compute. repeat constructor.
Defined.

End AnalyzeClientFacts.

(** ** States and the work they name *)

Module WorkFacts.
Import Dashboard Scenarios DashboardFacts Invariants InvariantFacts TimerFacts.
Local Open Scope cmd_scope.

Lemma snoc_not_nil {A} (l : list A) x : l ++ [x] <> [].
Proof. destruct l; discriminate. Qed.

Lemma app_not_nil_l {A} (l m : list A) : l <> [] -> l ++ m <> [].
Proof. destruct l; [contradiction|discriminate]. Qed.

Lemma app_not_nil_r {A} (l m : list A) : m <> [] -> l ++ m <> [].
Proof. destruct l; [auto|discriminate]. Qed.

Lemma pif_same (c : Cmd) s :
  playbacks (browser (c s)) = playbacks (browser s) ->
  playbackInFlight s -> playbackInFlight (c s).
Proof. unfold playbackInFlight. intros ->. auto. Qed.

Lemma pif_addFetch text s :
  playbackInFlight
    (onBrowser (fun b => withSpeakFetches (S (nextId b))
                           (speakFetches b ++ [(nextId b, text)]) b) s).
Proof.
  unfold playbackInFlight, playbacks. cbn.
  apply app_not_nil_l. rewrite map_app. apply snoc_not_nil.
Qed.

Lemma pif_addAudio id s :
  playbackInFlight (onBrowser (fun b => withAudios (audios b ++ [id]) b) s).
Proof.
  unfold playbackInFlight, playbacks. cbn.
  apply app_not_nil_r, app_not_nil_l, snoc_not_nil.
Qed.

Lemma pif_addUtterance text s :
  playbackInFlight
    (onBrowser (fun b => withUtterances (S (nextId b))
                           (utterances b ++ [(nextId b, text)]) b) s).
Proof.
  unfold playbackInFlight, playbacks. cbn.
  apply app_not_nil_r, app_not_nil_r. rewrite map_app. apply snoc_not_nil.
Qed.

Lemma states_differ :
  idle <> thinking /\ listening <> thinking /\ speaking <> thinking
  /\ unsure <> thinking /\ warning <> thinking /\ laugh <> thinking
  /\ idle <> speaking /\ listening <> speaking /\ thinking <> speaking
  /\ unsure <> speaking /\ warning <> speaking /\ laugh <> speaking.
Proof. repeat split; discriminate. Qed.

(** The state is a literal other than the one asked for. *)
Ltac other_state H :=
  exfalso;
  first [ exact (proj1 states_differ H)
        | exact (proj1 (proj2 states_differ) H)
        | exact (proj1 (proj2 (proj2 states_differ)) H)
        | exact (proj1 (proj2 (proj2 (proj2 states_differ))) H)
        | exact (proj1 (proj2 (proj2 (proj2 (proj2 states_differ)))) H)
        | exact (proj1 (proj2 (proj2 (proj2 (proj2 (proj2 states_differ))))) H)
        | exact (proj1 (proj2 (proj2 (proj2 (proj2 (proj2 (proj2 states_differ)))))) H)
        | exact (proj1 (proj2 (proj2 (proj2 (proj2 (proj2 (proj2 (proj2 states_differ))))))) H)
        | exact (proj1 (proj2 (proj2 (proj2 (proj2 (proj2 (proj2 (proj2 (proj2 states_differ)))))))) H)
        | exact (proj1 (proj2 (proj2 (proj2 (proj2 (proj2 (proj2 (proj2 (proj2 (proj2 states_differ))))))))) H)
        | exact (proj1 (proj2 (proj2 (proj2 (proj2 (proj2 (proj2 (proj2 (proj2 (proj2 (proj2 states_differ)))))))))) H)
        | exact (proj2 (proj2 (proj2 (proj2 (proj2 (proj2 (proj2 (proj2 (proj2 (proj2 (proj2 states_differ)))))))))) H) ].

Ltac pif_step :=
  first [ apply pif_addFetch
        | apply pif_addAudio
        | apply pif_addUtterance
        | apply (pif_same (setAiState _)); [reflexivity|]
        | apply (pif_same (call _)); [reflexivity|]
        | apply (pif_same (onPage _)); [reflexivity|]
        | apply (pif_same (onBrowser _)); [reflexivity|] ].

(** One branch of a callback: the state it leaves is not the one asked
    for, or the work is in flight. *)
Ltac work Hs :=
  split;
  [ let H := fresh "H" in
    intros H;
    first [ other_state H
          | exact (proj1 Hs H)
          | split; [reflexivity|exact (snoc_not_nil _ _)] ]
  | let H := fresh "H" in
    intros H;
    first [ other_state H
          | solve [repeat pif_step; exact (proj2 Hs H)] ] ].

Lemma work_handle ev s : stateReflectsWork s -> stateReflectsWork (handle ev s).
Proof.
  intros Hs. destruct ev; unfold handle; do 2 open_callbacks; rewrite ?callMany_calls;
    split_ifs; first [exact Hs | work Hs].
Qed.

Lemma work_effects prev s : stateReflectsWork s -> stateReflectsWork (effects prev s).
Proof.
  intros Hs. unfold effects, speakingEffect, typingEffect, clearTimeoutOf, setTimeoutOwned, seq, skip.
  split_ifs; first [exact Hs | work Hs].
Qed.

Lemma work_runTimer act s : stateReflectsWork s -> stateReflectsWork (runTimer act s).
Proof.
  intros Hs. destruct act; do 2 open_callbacks; split_ifs; first [exact Hs | work Hs].
Qed.

Lemma work_exec evs s : stateReflectsWork s -> stateReflectsWork (exec evs s).
Proof.
  apply (invariant_exec stateReflectsWork).
  - intros t s0 _ Hs. unfold fireTimer. unfold seq at 1 2.
    apply work_effects, work_runTimer. exact Hs.
  - intros target s0 _ Hs. exact Hs.
  - intros ev s0 Hs. apply work_effects, work_handle, Hs.
Qed.

(** X21. The state names work that is going on: after every sequence of
    events, when the page is in [thinking] an analysis request is in
    flight and [analyzing] is set, and when it is in [speaking] a speech
    request, an audio element or an utterance is in flight. *)
Theorem thinking_and_speaking_mean_work_in_flight
        (r : RecognitionSupport) (synth : bool) (evs : list Event) :
  let s := exec evs (init r synth) in
  (aiState (page s) = thinking ->
   analyzing (page s) = true /\ analyzeFetches (browser s) <> [])
  /\ (aiState (page s) = speaking ->
      speakFetches (browser s) <> [] \/ audios (browser s) <> []
      \/ utterances (browser s) <> []).
Proof.
  cbv zeta.
  assert (H : stateReflectsWork (exec evs (init r synth))).
  { apply work_exec. split; intros H; discriminate H. }
  destruct H as [H1 H2]. split; [exact H1|].
  intros Hsp. specialize (H2 Hsp). unfold playbackInFlight, playbacks in H2.
  destruct (speakFetches (browser (exec evs (init r synth)))); [|left; discriminate].
  destruct (audios (browser (exec evs (init r synth)))); [|right; left; discriminate].
  destruct (utterances (browser (exec evs (init r synth)))); [|right; right; discriminate].
  exfalso. apply H2. reflexivity.
Qed.

(** *** What is played *)

Section Accounted.

Variable Q : Call -> Prop.

Lemma ca_same (c : Cmd) s :
  calls (browser (c s)) = calls (browser s) ->
  Forall Q (calls (browser s)) -> Forall Q (calls (browser (c s))).
Proof. intros ->. auto. Qed.

Lemma ca_calls l s :
  Forall Q l ->
  Forall Q (calls (browser s)) ->
  Forall Q (calls (browser (onBrowser (fun b => withCalls (calls b ++ l) b) s))).
Proof. intros Hl Hs. cbn. apply Forall_app. split; assumption. Qed.

Lemma ca_call c s :
  Q c -> Forall Q (calls (browser s)) -> Forall Q (calls (browser (call c s))).
Proof. intros Hc. apply ca_calls. constructor; [exact Hc|constructor]. Qed.

Lemma ca_setAiState v s :
  Q (SetAiState v) ->
  Forall Q (calls (browser s)) -> Forall Q (calls (browser (setAiState v s))).
Proof. intros Hc Hs. unfold setAiState, seq. apply ca_call; [exact Hc|exact Hs]. Qed.

End Accounted.

Ltac ca_step evs :=
  first [ apply (ca_setAiState (accountedFor evs)); [exact I|]
        | apply (ca_call (accountedFor evs)); [first [exact I | assumption]|]
        | apply (ca_calls (accountedFor evs));
          [apply Forall_forall; intros ? Hrep; apply repeat_spec in Hrep; subst; exact I|]
        | apply (ca_same (accountedFor evs) (onPage _)); [reflexivity|]
        | apply (ca_same (accountedFor evs) (onBrowser _)); [reflexivity|] ].

Ltac ca evs :=
  do 2 open_callbacks; rewrite ?callMany_calls; split_ifs; repeat (ca_step evs); assumption.

Lemma accounted_effects evs prev s :
  Forall (accountedFor evs) (calls (browser s)) ->
  Forall (accountedFor evs) (calls (browser (effects prev s))).
Proof.
  intros Hs. unfold effects, speakingEffect, typingEffect, clearTimeoutOf, setTimeoutOwned,
               seq, skip.
  split_ifs; repeat (ca_step evs); assumption.
Qed.

Lemma accounted_handle evs ev s :
  In ev evs ->
  Forall (accountedFor evs) (calls (browser s)) ->
  Forall (accountedFor evs) (calls (browser (handle ev s))).
Proof.
  intros Hev Hs.
  destruct ev; unfold handle;
    [ca evs|ca evs|ca evs|ca evs|ca evs| |ca evs|ca evs|ca evs|ca evs|ca evs|ca evs|ca evs
    |ca evs|ca evs|ca evs|ca evs|ca evs|ca evs|ca evs|ca evs].
  (* SpeakResolved *)
  destruct (lookupKey id (speakFetches (browser s))) as [text|]; [|exact Hs].
  unfold seq, speakText_resolved.
  destruct (res_ok res) eqn:Eok; cbn [negb].
  - destruct (isAudioType (res_contentType res)) eqn:Eau; cbn [negb]; [|ca evs].
    destruct (Nat.eqb (res_blobSize res) 0) eqn:Esz; [ca evs|].
    assert (Hplay : accountedFor evs (AudioPlay id)).
    { exists res. apply Nat.eqb_neq in Esz. auto. }
    ca evs.
  - destruct (useBrowserTTS _) eqn:Efb; [|ca evs].
    assert (Hsynth : accountedFor evs (SynthSpeak text)).
    { exists id, res. auto. }
    ca evs.
Qed.

Lemma accounted_exec evs0 evs s :
  (forall ev, In ev evs -> In ev evs0) ->
  Forall (accountedFor evs0) (calls (browser s)) ->
  Forall (accountedFor evs0) (calls (browser (exec evs s))).
Proof.
  revert s. induction evs as [|ev evs IH]; intros s Hsub Hs; cbn [exec]; [exact Hs|].
  apply IH; [intros e He; apply Hsub; right; exact He|].
  assert (Hin : In ev evs0) by (apply Hsub; left; reflexivity).
  unfold fire.
  assert (H : Forall (accountedFor evs0)
                (calls (browser ((handle ev ;; effects (page s)) s))))
    by (unfold seq; apply accounted_effects, accounted_handle; assumption).
  destruct ev; try exact H.
  apply (invariant_elapse (fun s => Forall (accountedFor evs0) (calls (browser s))));
    [| |exact Hs].
  - intros t s0 _ Hs0. unfold fireTimer. unfold seq at 1 2.
    apply accounted_effects. destruct (t_act t); ca evs0.
  - intros target s0 _ Hs0. exact Hs0.
Qed.

(** X22. Whatever the events, the page starts an audio element only for
    a reply of /api/speak that is OK, has an audio content type and is not
    empty, and it hands a text to the browser's speech synthesis only
    after a non-OK reply that asked for it. *)
Theorem playback_only_for_playable_replies
        (r : RecognitionSupport) (synth : bool) (evs : list Event) (c : Call) :
  In c (calls (browser (exec evs (init r synth)))) ->
  match c with
  | AudioPlay id =>
      exists res, In (SpeakResolved id res) evs
                  /\ res_ok res = true
                  /\ isAudioType (res_contentType res) = true
                  /\ res_blobSize res <> 0
  | SynthSpeak _ =>
      exists id res, In (SpeakResolved id res) evs
                     /\ res_ok res = false
                     /\ useBrowserTTS (match res_json res with
                                       | Some d => d
                                       | None => unknownError
                                       end) = true
  | _ => True
  end.
Proof.
  intros Hin.
  assert (H : Forall (accountedFor evs) (calls (browser (exec evs (init r synth))))).
  { apply accounted_exec; [auto|constructor]. }
  rewrite Forall_forall in H. exact (H c Hin).
Qed.

(** The answer to "sugar" starts to play. *)
Lemma playback_only_for_playable_replies_witness :
  exists res, In (SpeakResolved 3 res) twoPlaybacks
              /\ res_ok res = true
              /\ isAudioType (res_contentType res) = true
              /\ res_blobSize res <> 0.
Proof.
  apply (playback_only_for_playable_replies RecognitionAvailable true twoPlaybacks
           (AudioPlay 3)).
  vm_compute. auto 40.
Defined.

(** The page is thinking about "sugar". *)
Lemma thinking_and_speaking_mean_work_in_flight_witness :
  analyzing (page (exec analysisInFlight start)) = true
  /\ analyzeFetches (browser (exec analysisInFlight start)) <> [].
Proof.
  apply (thinking_and_speaking_mean_work_in_flight RecognitionAvailable true analysisInFlight).
  reflexivity.
Defined.

End WorkFacts.

(** ** What the page speaks, and in which order *)

Module SpokenFacts.

Import Dashboard Scenarios DashboardFacts Invariants InvariantFacts TimerFacts.
Local Open Scope cmd_scope.

Lemma saf_snoc l c :
  synthAfterFetch l ->
  (forall t, c = SynthSpeak t -> In (FetchSpeak t) l) ->
  synthAfterFetch (l ++ [c]).
Proof.
  intros Hl Hc l1 t l2 Heq.
  destruct (exists_last (l := SynthSpeak t :: l2)) as (l2' & x & Hx); [discriminate|].
  rewrite Hx, app_assoc in Heq. apply app_inj_tail in Heq. destruct Heq as [Hl' <-].
  destruct l2' as [|y l2'].
  - cbn in Hx. injection Hx as <-. rewrite app_nil_r in Hl'. subst l1. apply Hc. reflexivity.
  - cbn in Hx. injection Hx as <- Hx'. apply (Hl l1 t l2'). exact Hl'.
Qed.

Lemma saf_app l m :
  synthAfterFetch l -> forallb (fun c => negb (isSynthSpeak c)) m = true ->
  synthAfterFetch (l ++ m).
Proof.
  intros Hl. revert l Hl. induction m as [|c m IH]; intros l Hl Hm.
  - rewrite app_nil_r. exact Hl.
  - cbn in Hm. apply andb_true_iff in Hm. destruct Hm as [Hc Hm].
    change (l ++ c :: m) with (l ++ [c] ++ m). rewrite app_assoc.
    apply IH; [|exact Hm]. apply saf_snoc; [exact Hl|].
    intros t ->. discriminate.
Qed.

Lemma Forall_in_app {A} (l : list A) (calls m : list Call) (f : A -> Call) :
  Forall (fun e => In (f e) calls) l -> Forall (fun e => In (f e) (calls ++ m)) l.
Proof.
  intros H. apply Forall_forall. intros e He. rewrite Forall_forall in H.
  apply in_or_app. left. apply H, He.
Qed.

Lemma ff_same (c : Cmd) s :
  speakFetches (browser (c s)) = speakFetches (browser s) ->
  calls (browser (c s)) = calls (browser s) ->
  fetchedFirst s -> fetchedFirst (c s).
Proof. unfold fetchedFirst. intros -> ->. auto. Qed.

Lemma ff_calls m s :
  forallb (fun c => negb (isSynthSpeak c)) m = true ->
  fetchedFirst s ->
  fetchedFirst (onBrowser (fun b => withCalls (calls b ++ m) b) s).
Proof.
  intros Hm [H1 H2]. split; cbn.
  - apply Forall_in_app, H1.
  - apply saf_app; assumption.
Qed.

Lemma ff_call c s :
  isSynthSpeak c = false -> fetchedFirst s -> fetchedFirst (call c s).
Proof. intros Hc. apply ff_calls. cbn. rewrite Hc. reflexivity. Qed.

Lemma ff_setAiState v s : fetchedFirst s -> fetchedFirst (setAiState v s).
Proof. intros Hs. unfold setAiState, seq. apply ff_call; [reflexivity|exact Hs]. Qed.

Lemma ff_fetchSpeak text s :
  fetchedFirst s ->
  fetchedFirst
    (call (FetchSpeak text)
       (onBrowser (fun b => withSpeakFetches (S (nextId b))
                              (speakFetches b ++ [(nextId b, text)]) b) s)).
Proof.
  intros [H1 H2]. split; cbn.
  - apply Forall_app. split; [apply Forall_in_app, H1|].
    constructor; [|constructor]. cbn. apply in_or_app. right. left. reflexivity.
  - apply saf_snoc; [exact H2|]. intros t Heq. discriminate.
Qed.

Lemma ff_dropFetch id s :
  fetchedFirst s ->
  fetchedFirst (onBrowser (fun b => withSpeakFetches (nextId b)
                                      (removeKey id (speakFetches b)) b) s).
Proof.
  intros [H1 H2]. split; [|exact H2]. cbn. apply Forall_removeKey, H1.
Qed.

Lemma ff_synth text s :
  In (FetchSpeak text) (calls (browser s)) ->
  fetchedFirst s -> fetchedFirst (call (SynthSpeak text) s).
Proof.
  intros Hin [H1 H2]. split; cbn.
  - apply Forall_in_app, H1.
  - apply saf_snoc; [exact H2|]. intros t Heq. injection Heq as <-. exact Hin.
Qed.

Lemma in_calls_same (c : Cmd) x s :
  calls (browser (c s)) = calls (browser s) ->
  In x (calls (browser s)) -> In x (calls (browser (c s))).
Proof. intros ->. auto. Qed.

Lemma in_calls_call c x s :
  In x (calls (browser s)) -> In x (calls (browser (call c s))).
Proof. intros H. cbn. apply in_or_app. left. exact H. Qed.

Lemma in_calls_setAiState v x s :
  In x (calls (browser s)) -> In x (calls (browser (setAiState v s))).
Proof. intros H. cbn. apply in_or_app. left. exact H. Qed.

Ltac in_calls :=
  repeat first [ apply in_calls_setAiState
               | apply in_calls_call
               | apply (in_calls_same (onPage _)); [reflexivity|]
               | apply (in_calls_same (onBrowser _)); [reflexivity|] ];
  assumption.

Ltac ff_step :=
  lazymatch goal with
  | |- fetchedFirst (setAiState _ _) => apply ff_setAiState
  | |- fetchedFirst (call (FetchSpeak _) (onBrowser _ _)) => apply ff_fetchSpeak
  | |- fetchedFirst (call (SynthSpeak _) _) => apply ff_synth; [in_calls|]
  | |- fetchedFirst (call _ _) => apply ff_call; [reflexivity|]
  | |- fetchedFirst (onPage _ _) => apply (ff_same (onPage _)); [reflexivity|reflexivity|]
  | |- fetchedFirst (onBrowser (fun b => withCalls _ _) _) =>
      apply ff_calls; [apply forallb_forall; intros ? Hrep;
                       apply repeat_spec in Hrep; subst; reflexivity|]
  | |- fetchedFirst (onBrowser (fun b => withSpeakFetches _ (removeKey _ _) _) _) =>
      apply ff_dropFetch
  | |- fetchedFirst (onBrowser _ _) =>
      apply (ff_same (onBrowser _)); [reflexivity|reflexivity|]
  end.

Ltac ff := do 2 open_callbacks; rewrite ?callMany_calls; split_ifs; repeat ff_step; assumption.

Lemma ff_effects prev s : fetchedFirst s -> fetchedFirst (effects prev s).
Proof.
  intros Hs. unfold effects, speakingEffect, typingEffect, clearTimeoutOf, setTimeoutOwned,
               seq, skip.
  split_ifs; repeat ff_step; assumption.
Qed.

Lemma ff_handle ev s : fetchedFirst s -> fetchedFirst (handle ev s).
Proof.
  intros Hs.
  destruct ev; unfold handle;
    [ff|ff|ff|ff|ff| |ff|ff|ff|ff|ff|ff|ff|ff|ff|ff|ff|ff|ff|ff|ff].
  destruct (lookupKey id (speakFetches (browser s))) as [text|] eqn:E; [|exact Hs].
  pose proof (lookupKey_Forall _ _ _ _ E (proj1 Hs)) as Htext.
  cbn [snd] in Htext. ff.
Qed.

Lemma ff_exec evs s : fetchedFirst s -> fetchedFirst (exec evs s).
Proof.
  apply (invariant_exec fetchedFirst).
  - intros t s0 _ Hs. unfold fireTimer. unfold seq at 1 2.
    apply ff_effects. destruct (t_act t); ff.
  - intros target s0 _ Hs. exact Hs.
  - intros ev s0 Hs. apply ff_effects, ff_handle, Hs.
Qed.

(** X11. Whatever the events, every text that the page sends to /api/speak
    or hands to the browser's speech synthesis is non-empty and is the
    [text] of an analysis answer with an OK status that arrived before;
    and a text handed to the browser's speech synthesis was sent to
    /api/speak earlier in the sequence of calls. *)
Theorem page_speaks_only_answers
        (r : RecognitionSupport) (synth : bool) (evs : list Event) (t : string) :
  In (FetchSpeak t) (calls (browser (exec evs (init r synth))))
  \/ In (SynthSpeak t) (calls (browser (exec evs (init r synth)))) ->
  t <> EmptyString
  /\ (exists id a, In (AnalyzeResolved id a) evs /\ ar_ok a = true
                   /\ d_text (ar_data a) = Some t)
  /\ (forall l1 l2,
        calls (browser (exec evs (init r synth))) = l1 ++ SynthSpeak t :: l2 ->
        In (FetchSpeak t) l1).
Proof.
  intros Hin.
  pose (P := fun t => exists ev, In ev evs /\ answerOf ev = Some t).
  assert (Hs : speaksOnly P (exec evs (init r synth))).
  { apply speaksOnly_exec.
    - intros ev t0 Hev Ha. exists ev. auto.
    - repeat split; constructor. }
  destruct Hs as (_ & _ & Hc). rewrite Forall_forall in Hc.
  assert (Ht : P t) by (destruct Hin as [Hin|Hin]; exact (Hc _ Hin)).
  destruct Ht as (ev & Hev & Ha).
  destruct (answerOf_spec _ _ Ha) as (Hne & id & a & -> & Hok & Htext).
  split; [exact Hne|]. split; [exists id, a; auto|].
  assert (Hff : fetchedFirst (exec evs (init r synth))).
  { apply ff_exec. split; [constructor|]. intros l1 t0 l2 Heq.
    destruct l1; discriminate Heq. }
  intros l1 l2 Heq. exact (proj2 Hff l1 t l2 Heq).
Qed.

(** The answer to "sugar" is spoken by the browser's voice. *)
Lemma page_speaks_only_answers_witness :
  "Sugar is fine" <> EmptyString
  /\ (exists id a, In (AnalyzeResolved id a) Examples.fallbackSpoken /\ ar_ok a = true
                   /\ d_text (ar_data a) = Some "Sugar is fine")
  /\ (forall l1 l2,
        calls (browser (exec Examples.fallbackSpoken start))
        = l1 ++ SynthSpeak "Sugar is fine" :: l2 ->
        In (FetchSpeak "Sugar is fine") l1).
Proof.
  apply (page_speaks_only_answers RecognitionAvailable true Examples.fallbackSpoken).
  right. vm_compute. auto 40.
Defined.

End SpokenFacts.
